(** * Leave reconciliation pipeline (docs/app.js): a shallow embedding

    The pipeline of [docs/app.js] reconciles a DRMIS time sheet export with
    an Oracle leave export.  This development embeds the pure core of that
    file -- leave-code normalisation, date normalisation, the business
    calendar, multi-day expansion, the two extractors, the reconciler, the
    edit generator, the hour reallocation of the prefill step and the header
    detection of the grid normaliser -- and proves the properties the
    specification states about them.

    Conventions of the embedding.
    - A JavaScript string is a [string] of ASCII characters; [trim] removes
      the ASCII white space characters and [toLowerCase] lowers A-Z.
    - A JavaScript number is an IEEE binary64 ([PrimFloat.float]), with
      its rounding, its infinities and its [NaN]; [Math.floor], [Math.round],
      [Math.min] and [Math.max] are written on its specification
      ([SpecFloat]).  A numeric cell of a decoded sheet is a finite number
      and is kept by its exact value, a rational [Q].
    - A [Date] built by [new Date(y, m, d)] is the number of its local
      calendar day, counted from 1970-01-01; the host's time zone is a fixed
      offset from UTC.
    - What the host decides (number formatting and parsing, [Date.parse],
      the time zone) is a field of [Host], over which every statement is
      universally quantified. *)

From Stdlib Require Import ZArith QArith Qround Bool List Ascii String Lia Lqa.
From Stdlib Require Import Sorted Permutation.
From Stdlib Require Import Floats.
Import ListNotations.

Local Open Scope string_scope.
Local Open Scope Z_scope.

(** ** Strings *)

Module JsString.

Definition isDigit (c : ascii) : bool :=
  let n := nat_of_ascii c in (48 <=? n)%nat && (n <=? 57)%nat.

(** White space removed by [String.prototype.trim], ASCII part. *)
Definition isSpace (c : ascii) : bool :=
  let n := nat_of_ascii c in
  ((9 <=? n)%nat && (n <=? 13)%nat) || (n =? 32)%nat.

Definition lowerChar (c : ascii) : ascii :=
  let n := nat_of_ascii c in
  if (65 <=? n)%nat && (n <=? 90)%nat then ascii_of_nat (n + 32) else c.

Fixpoint dropSpaces (l : list ascii) : list ascii :=
  match l with
  | c :: l' => if isSpace c then dropSpaces l' else l
  | [] => []
  end.

Definition chars : string -> list ascii := list_ascii_of_string.
Definition ofChars : list ascii -> string := string_of_list_ascii.

Definition trim (s : string) : string :=
  ofChars (rev (dropSpaces (rev (dropSpaces (chars s))))).

Definition toLowerCase (s : string) : string :=
  ofChars (map lowerChar (chars s)).

(** [s.replace(/\D+/g, '')] *)
Definition stripNonDigits (s : string) : string :=
  ofChars (filter isDigit (chars s)).

Fixpoint startsWith (s p : string) : bool :=
  match p, s with
  | EmptyString, _ => true
  | String a p', String b s' => Ascii.eqb a b && startsWith s' p'
  | String _ _, EmptyString => false
  end.

(** [s.includes(k)] *)
Fixpoint includes (s k : string) : bool :=
  startsWith s k ||
  match s with
  | EmptyString => false
  | String _ s' => includes s' k
  end.

(** [xs.join(sep)] *)
Fixpoint join (sep : string) (xs : list string) : string :=
  match xs with
  | [] => ""
  | [x] => x
  | x :: rest => x ++ sep ++ join sep rest
  end.

Definition digitVal (c : ascii) : Z := Z.of_nat (nat_of_ascii c) - 48.

Definition digitsToZ (l : list ascii) : Z :=
  fold_left (fun acc c => 10 * acc + digitVal c) l 0.

Fixpoint takeDigits (l : list ascii) : list ascii :=
  match l with
  | c :: l' => if isDigit c then c :: takeDigits l' else []
  | [] => []
  end.

(** [parseInt(s)] in radix 10: leading white space, an optional sign, then
    the longest run of digits; [None] is [NaN].  (A [0x] prefix, which
    [parseInt] reads as hexadecimal, is read here as the digit 0.) *)
Definition parseInt (s : string) : option Z :=
  let body := dropSpaces (chars s) in
  let '(neg, rest) :=
    match body with
    | "-"%char :: r => (true, r)
    | "+"%char :: r => (false, r)
    | _ => (false, body)
    end in
  match takeDigits rest with
  | [] => None
  | ds => Some (if neg then - digitsToZ ds else digitsToZ ds)
  end.

Definition digitChar (n : Z) : ascii := ascii_of_nat (Z.to_nat (48 + n)).

Fixpoint posDigits (fuel : nat) (n : Z) (acc : list ascii) : list ascii :=
  match fuel with
  | O => acc
  | S f =>
      if n <? 10 then digitChar n :: acc
      else posDigits f (n / 10) (digitChar (n mod 10) :: acc)
  end.

(** [String(n)] for an integer [n]. *)
Definition ofZ (n : Z) : string :=
  if n <? 0 then String "-"%char (ofChars (posDigits (Z.to_nat (Z.log2 (- n)) + 1) (- n) []))
  else ofChars (posDigits (Z.to_nat (Z.log2 n) + 1) n []).

End JsString.

Import JsString.

(** ** Numbers *)

Module JsNumber.

(** The binary64 nearest to an integer. *)
Definition numberOfZ (z : Z) : float := SF2Prim (binary_normalize prec emax z 0 false).

(** The binary64 nearest to a rational, ties to even: the number a
    numeric cell of that value holds. *)
Definition numberOfQ (q : Q) : float :=
  match Qnum q with
  | Z0 => zero
  | Zpos n =>
      let '(mz, ez, lz) := SFdiv_core_binary prec emax (Zpos n) 0 (Zpos (Qden q)) 0 in
      SF2Prim (binary_round_aux prec emax false mz ez lz)
  | Zneg n =>
      let '(mz, ez, lz) := SFdiv_core_binary prec emax (Zpos n) 0 (Zpos (Qden q)) 0 in
      SF2Prim (binary_round_aux prec emax true mz ez lz)
  end.

(** The exact value of a finite number (0 for the others). *)
Definition valueOf (x : float) : Q :=
  match Prim2SF x with
  | S754_finite s m e =>
      let n := if s then Zneg m else Zpos m in
      if 0 <=? e then inject_Z (n * 2 ^ e) else (n # Pos.pow 2 (Z.to_pos (- e)))
  | _ => 0%Q
  end.

(** Truthiness of a number: neither [NaN] nor a zero. *)
Definition truthyNumber (x : float) : bool := negb (is_nan x || (x =? zero)%float).

(** [x || 0] for a number [x]. *)
Definition orZero (x : float) : float := if truthyNumber x then x else zero.

Definition isNegZero (x : float) : bool :=
  match Prim2SF x with
  | S754_zero true => true
  | _ => false
  end.

(** [Math.min(x, y)]; of the two zeros the negative one is the lesser. *)
Definition Math_min (x y : float) : float :=
  if is_nan x || is_nan y then nan
  else if (x <? y)%float then x
  else if (y <? x)%float then y
  else if isNegZero x then x else y.

(** [Math.max(x, y)] *)
Definition Math_max (x y : float) : float :=
  if is_nan x || is_nan y then nan
  else if (x <? y)%float then y
  else if (y <? x)%float then x
  else if isNegZero x then y else x.

(** [Math.floor(x)]: a number with a fraction has an exponent below 0
    and a magnitude below 2^52, so the integer below it is a binary64. *)
Definition Math_floor (x : float) : float :=
  match Prim2SF x with
  | S754_finite s m e =>
      if 0 <=? e then x
      else SF2Prim (binary_normalize prec emax
                      ((if s then Zneg m else Zpos m) / 2 ^ (- e)) 0 s)
  | _ => x
  end.

(** [Math.round(x)]: the integer nearest to [x], a half rounded up;
    [floor(x + 1/2)] computed on the exact value. *)
Definition Math_round (x : float) : float :=
  match Prim2SF x with
  | S754_finite s m e =>
      if 0 <=? e then x
      else SF2Prim (binary_normalize prec emax
                      ((2 * (if s then Zneg m else Zpos m) + 2 ^ (- e)) / 2 ^ (1 - e))
                      0 s)
  | _ => x
  end.

End JsNumber.

Import JsNumber.

(** ** Cell values and the host *)

(** A scalar cell of a decoded sheet; [CNull] stands for both [null] and
    [undefined], [CDate t] for a native [Date] at [t] milliseconds after the
    epoch. *)
Inductive cell : Type :=
| CNull
| CStr (s : string)
| CNum (q : Q)
| CBool (b : bool)
| CDate (t : Z).

Record Host : Type := {
  (** [String(n)] for a number. *)
  Number_toString : Q -> string;
  (** [Number(s)] for a string. *)
  String_toNumber : string -> float;
  (** [String(d)] for a [Date]. *)
  Date_toString : Z -> string;
  (** [Date.parse(s)] in milliseconds; [None] is [NaN]. *)
  Date_parse : string -> option Z;
  (** Local time minus UTC, in milliseconds. *)
  tzOffsetMs : Z
}.

Definition msPerDay : Z := 24 * 60 * 60 * 1000.

(** ** Leave codes *)

Section LeaveCodes.
Variable host : Host.

(** [String(v)] for a non-null cell. *)
Definition jsString (v : cell) : string :=
  match v with
  | CNull => "null"
  | CStr s => s
  | CNum q => Number_toString host q
  | CBool true => "true"
  | CBool false => "false"
  | CDate t => Date_toString host t
  end.

Definition isNullish (v : cell) : bool :=
  match v with CNull => true | _ => false end.

(** [normalizeLeaveCodeRaw] of [extractDrmisData] and
    [normalizeLeaveCodeRawOracle] of [extractOracleData]: the two bodies are
    the same. *)
Definition normalizeLeaveCodeRaw (leaveRaw : cell) : string :=
  if isNullish leaveRaw
     || (trim (jsString leaveRaw) =? "")%string
     || (trim (jsString leaveRaw) =? "-")%string
  then "0"
  else
    let s := trim (jsString leaveRaw) in
    let digits := stripNonDigits s in
    if (digits =? "")%string then s else digits.

Definition normalizeLeaveCodeRawOracle := normalizeLeaveCodeRaw.

(** The [oracleKey] computed in [extractOracleData] from the normalised
    code. *)
Definition oracleKeyOf (norm : string) : string :=
  if (norm =? "0")%string then "0"
  else if (String.length norm =? 3)%nat then "1" ++ norm
  else if (String.length norm =? 4)%nat then norm
  else norm.

Definition normalizeOracleCode (codeRaw : cell) : string :=
  oracleKeyOf (normalizeLeaveCodeRawOracle codeRaw).

End LeaveCodes.

(** ** Calendar *)

Module Calendar.

(** Day number (days since 1970-01-01) of the civil date [y]-[m]-[d] of
    the proleptic Gregorian calendar, [m] in 1..12. *)
Definition days_from_civil (y m d : Z) : Z :=
  let y' := if m <=? 2 then y - 1 else y in
  let era := y' / 400 in
  let yoe := y' - era * 400 in
  let mp := (m + 9) mod 12 in
  let doy := (153 * mp + 2) / 5 + d - 1 in
  let doe := yoe * 365 + yoe / 4 - yoe / 100 + doy in
  era * 146097 + doe - 719468.

(** Civil date (year, month 1..12, day) of a day number. *)
Definition civil_from_days (z0 : Z) : Z * Z * Z :=
  let z := z0 + 719468 in
  let era := z / 146097 in
  let doe := z - era * 146097 in
  let yoe := (doe - doe / 1460 + doe / 36524 - doe / 146096) / 365 in
  let y := yoe + era * 400 in
  let doy := doe - (365 * yoe + yoe / 4 - yoe / 100) in
  let mp := (5 * doy + 2) / 153 in
  let d := doy - (153 * mp + 2) / 5 + 1 in
  let m := if mp <? 10 then mp + 3 else mp - 9 in
  (if m <=? 2 then y + 1 else y, m, d).

Definition getFullYear (day : Z) : Z := fst (fst (civil_from_days day)).
(** Zero-based month, as [Date.prototype.getMonth]. *)
Definition getMonth (day : Z) : Z := snd (fst (civil_from_days day)) - 1.
Definition getDate (day : Z) : Z := snd (civil_from_days day).
(** 0 = Sunday .. 6 = Saturday; 1970-01-01 was a Thursday. *)
Definition getDay (day : Z) : Z := (day + 4) mod 7.

(** [MakeDay(year, month, date)] of ECMAScript: the month is zero-based
    and may overflow into the neighbouring years, the day may overflow
    into the neighbouring months. *)
Definition jsMakeDay (y m0 d : Z) : Z :=
  days_from_civil (y + m0 / 12) (m0 mod 12 + 1) 1 + d - 1.

(** [new Date(y, m0, d)]: local midnight of that day; a year 0..99 means
    1900 + year. *)
Definition jsNewDate (y m0 d : Z) : Z :=
  jsMakeDay (if (0 <=? y) && (y <=? 99) then 1900 + y else y) m0 d.

End Calendar.

Import Calendar.

(** [formattedDateForDisplay] *)
Definition months : list string :=
  ["Jan"; "Feb"; "Mar"; "Apr"; "May"; "Jun"; "Jul"; "Aug"; "Sep"; "Oct"; "Nov"; "Dec"].

Definition padStart2 (s : string) : string :=
  if (String.length s <? 2)%nat then "0" ++ s else s.

Definition formattedDateForDisplay (d : Z) : string :=
  nth (Z.to_nat (getMonth d)) months "undefined" ++ " "
    ++ padStart2 (ofZ (getDate d)) ++ ", " ++ ofZ (getFullYear d).

(** ** Date normalisation *)

(** Truncation toward zero, as [ToIntegerOrInfinity] does for the time
    value of [new Date(ms)]. *)
Definition Qtruncate (q : Q) : Z :=
  if Qle_bool 0 q then Qfloor q else Qceiling q.

Fixpoint splitOn (sep : ascii) (l : list ascii) : list (list ascii) :=
  match l with
  | [] => [[]]
  | c :: l' =>
      if Ascii.eqb c sep then [] :: splitOn sep l'
      else match splitOn sep l' with
           | p :: ps => (c :: p) :: ps
           | [] => [[c]]
           end
  end.

(** [\d{lo,hi}] against a whole capture group. *)
Definition digitGroup (lo hi : nat) (p : list ascii) : bool :=
  forallb isDigit p && (lo <=? List.length p)%nat && (List.length p <=? hi)%nat.

(** The three capture groups of [^(\d{a,b})SEP(\d{c,d})SEP(\d{e,f})$],
    each read by [parseInt]. *)
Definition matchTriple (sep : ascii) (g1 g2 g3 : nat * nat) (s : string)
  : option (Z * Z * Z) :=
  match splitOn sep (chars s) with
  | [p1; p2; p3] =>
      if digitGroup (fst g1) (snd g1) p1 && digitGroup (fst g2) (snd g2) p2
         && digitGroup (fst g3) (snd g3) p3
      then Some (digitsToZ p1, digitsToZ p2, digitsToZ p3)
      else None
  | _ => None
  end.

Definition epochMs : Z := -2209161600000.  (* Date.UTC(1899, 11, 30) *)

Section Dates.
Variable host : Host.

(** Local calendar day of the instant [t] (milliseconds since the epoch). *)
Definition localDay (t : Z) : Z := (t + tzOffsetMs host) / msPerDay.

(** [new Date(d.getFullYear(), d.getMonth(), d.getDate())] for the
    instant [t]. *)
Definition truncateToDay (t : Z) : Z :=
  let ld := localDay t in jsNewDate (getFullYear ld) (getMonth ld) (getDate ld).

(** [normalizeDate]; [None] is [null]. *)
Definition normalizeDate (value : cell) : option Z :=
  match value with
  | CNull => None
  | CDate t => Some (truncateToDay t)
  | CNum q =>
      let ms := ((q - 0) * inject_Z msPerDay)%Q in
      Some (truncateToDay (Qtruncate (inject_Z epochMs + ms)%Q))
  | CStr value =>
      if (value =? "")%string then None
      else
        let s := trim value in
        match matchTriple "."%char (1, 2)%nat (1, 2)%nat (4, 4)%nat s with
        | Some (day, mn, y) => Some (jsNewDate y (mn - 1) day)
        | None =>
        match matchTriple "-"%char (1, 2)%nat (1, 2)%nat (4, 4)%nat s with
        | Some (day, mn, y) => Some (jsNewDate y (mn - 1) day)
        | None =>
        match matchTriple "/"%char (1, 2)%nat (1, 2)%nat (4, 4)%nat s with
        | Some (mn, day, y) => Some (jsNewDate y (mn - 1) day)
        | None =>
        match matchTriple "-"%char (4, 4)%nat (1, 2)%nat (1, 2)%nat s with
        | Some (y, mn, day) => Some (jsNewDate y (mn - 1) day)
        | None =>
        match Date_parse host s with
        | Some parsed => Some (truncateToDay parsed)
        | None => None
        end end end end end
  | CBool _ => None
  end.

End Dates.

(** ** Business calendar *)

Definition holidays2025 : list Z :=
  [ jsNewDate 2025 0 1; jsNewDate 2025 3 18; jsNewDate 2025 4 19;
    jsNewDate 2025 6 1; jsNewDate 2025 7 4; jsNewDate 2025 8 1;
    jsNewDate 2025 8 30; jsNewDate 2025 9 13; jsNewDate 2025 10 11;
    jsNewDate 2025 11 25; jsNewDate 2025 11 26 ].

(** [isBusinessDay]; two dates have the same [toDateString] exactly when
    they fall on the same local day. *)
Definition isBusinessDay (dateObj : Z) : bool :=
  if existsb (Z.eqb dateObj) holidays2025 then false
  else
    let day := getDay dateObj in
    (1 <=? day) && (day <=? 5).

(** ** Multi-day expansion *)

(** The operations [expandOracleEntries] applies to the hours of a
    record. *)
Record NumOps (N : Type) : Type := {
  n_zero : N;
  n_eight : N;
  (** [Number(x) || 0] for a number [x]. *)
  n_orZero : N -> N;
  (** [x <= y] *)
  n_leb : N -> N -> bool;
  (** [x > y] *)
  n_gtb : N -> N -> bool;
  (** [Math.min(x, y)] *)
  n_min : N -> N -> N;
  (** [x - y] *)
  n_sub : N -> N -> N
}.

Arguments n_zero {N}. Arguments n_eight {N}. Arguments n_orZero {N}.
Arguments n_leb {N}. Arguments n_gtb {N}. Arguments n_min {N}.
Arguments n_sub {N}.

Module FloatLit.
Import PrimFloat.
Definition eight : float := 8%float.
Definition twenty : float := 20%float.
Definition four : float := 4%float.
End FloatLit.

(** IEEE binary64 arithmetic, the arithmetic of a JavaScript number. *)
Definition FloatOps : NumOps PrimFloat.float :=
  {| n_zero := PrimFloat.zero;
     n_eight := FloatLit.eight;
     n_orZero := fun x =>
       if PrimFloat.is_nan x || PrimFloat.eqb x PrimFloat.zero
       then PrimFloat.zero else x;
     n_leb := PrimFloat.leb;
     n_gtb := fun x y => PrimFloat.ltb y x;
     n_min := fun x y =>
       if PrimFloat.is_nan x || PrimFloat.is_nan y then PrimFloat.nan
       else if PrimFloat.leb x y then x else y;
     n_sub := PrimFloat.sub |}.

(** A canonical Oracle record, over the type of its hours. *)
Record OracleRecord (N : Type) : Type := mkOracle {
  ODate : Z;
  OracleHours : N;
  OracleLeaveCode : string
}.

Arguments mkOracle {N}. Arguments ODate {N}. Arguments OracleHours {N}.
Arguments OracleLeaveCode {N}.

(** [while (!isBusinessDay(currentDate)) currentDate += one day]; [None]
    when the fuel runs out before the loop ends. *)
Fixpoint nextBusinessDay (fuel : nat) (currentDate : Z) : option Z :=
  if isBusinessDay currentDate then Some currentDate
  else match fuel with
       | O => None
       | S f => nextBusinessDay f (currentDate + 1)
       end.

Section Expansion.
Context {N : Type} (ops : NumOps N).

(** The [while (remaining > 0)] loop; each turn spends one unit of fuel
    and lends the rest to the inner loop. *)
Fixpoint expandLoop (fuel : nat) (leaveCode : string) (remaining : N)
         (currentDate : Z) : option (list (OracleRecord N)) :=
  if n_gtb ops remaining (n_zero ops) then
    match fuel with
    | O => None
    | S f =>
        match nextBusinessDay f currentDate with
        | None => None
        | Some day =>
            let dayHours := n_min ops (n_eight ops) remaining in
            match expandLoop f leaveCode (n_sub ops remaining dayHours) (day + 1) with
            | None => None
            | Some rest => Some (mkOracle day dayHours leaveCode :: rest)
            end
        end
    end
  else Some [].

(** What one row contributes to [expanded]. *)
Definition expandRow (fuel : nat) (row : OracleRecord N)
  : option (list (OracleRecord N)) :=
  let hours := n_orZero ops (OracleHours row) in
  let date := ODate row in
  let leaveCode := OracleLeaveCode row in
  if n_leb ops hours (n_eight ops)
  then Some [mkOracle date hours leaveCode]
  else expandLoop fuel leaveCode hours date.

(** [expandOracleEntries]; a record always carries a [Date] object, so
    the [if (!date) return] guard never fires. *)
Fixpoint expandOracleEntries (fuel : nat) (oracleRows : list (OracleRecord N))
  : option (list (OracleRecord N)) :=
  match oracleRows with
  | [] => Some []
  | row :: rest =>
      match expandRow fuel row, expandOracleEntries fuel rest with
      | Some a, Some b => Some (a ++ b)%list
      | _, _ => None
      end
  end.

End Expansion.

(** ** JavaScript objects used as records and maps *)

Module JsObject.

(** An object is the list of its own properties in enumeration order
    ([Object.keys]): array-index keys first, in ascending order, then the
    other keys in the order they were created. *)
Definition t (V : Type) : Type := list (string * V).

Definition keys {V} (o : t V) : list string := map fst o.

(** [o[k]]; [None] is [undefined]. *)
Fixpoint get {V} (o : t V) (k : string) : option V :=
  match o with
  | [] => None
  | (k', v) :: rest => if (k' =? k)%string then Some v else get rest k
  end.

(** The value of an array-index key: the canonical decimal form of an
    integer below 2^32 - 1. *)
Definition arrayIndex (k : string) : option Z :=
  let cs := chars k in
  match cs with
  | [] => None
  | c :: rest =>
      if forallb isDigit cs
         && (negb (Ascii.eqb c "0"%char) || match rest with [] => true | _ => false end)
         && (List.length cs <=? 10)%nat
         && (digitsToZ cs <? 4294967295)
      then Some (digitsToZ cs) else None
  end.

Fixpoint replaceValue {V} (k : string) (v : V) (o : t V) : t V :=
  match o with
  | [] => []
  | (k', v') :: rest =>
      (k', if (k' =? k)%string then v else v') :: replaceValue k v rest
  end.

Fixpoint insertIndex {V} (n : Z) (k : string) (v : V) (o : t V) : t V :=
  match o with
  | [] => [(k, v)]
  | (k', v') :: rest =>
      match arrayIndex k' with
      | Some n' => if n' <? n then (k', v') :: insertIndex n k v rest
                   else (k, v) :: o
      | None => (k, v) :: o
      end
  end.

(** [o[k] = v] for a primitive [v]: an existing property keeps its
    place, a new one is created; assigning to [__proto__] creates
    nothing. *)
Definition set {V} (k : string) (v : V) (o : t V) : t V :=
  if (k =? "__proto__")%string then o
  else if existsb (String.eqb k) (keys o) then replaceValue k v o
  else match arrayIndex k with
       | Some n => insertIndex n k v o
       | None => (o ++ [(k, v)])%list
       end.

End JsObject.

(** A row object of a detected table. *)
Definition obj : Type := JsObject.t cell.

(** [r[key]] where [key] may be [null] (no such property) *)
Definition field (r : obj) (key : option string) : cell :=
  match key with
  | Some k => match JsObject.get r k with Some v => v | None => CNull end
  | None => CNull
  end.

(** The outcome of a function that may throw an [Error]. *)
Inductive result (A : Type) : Type :=
| Ok (a : A)
| Throw (message : string).

Arguments Ok {A}. Arguments Throw {A}.

(** ** Extractors *)

(** A canonical DRMIS record. *)
Record DrmisRecord : Type := mkDrmis {
  PersNo : cell;
  DDate : Z;
  DrmisHours : float;
  DrmisLeaveCode : string
}.

(** [leaveCodeWhitelist && leaveCodeWhitelist.size > 0] *)
Definition whitelistActive (wl : option (list string)) : bool :=
  match wl with Some (_ :: _) => true | _ => false end.

Definition whitelistHas (wl : option (list string)) (code : string) : bool :=
  match wl with Some l => existsb (String.eqb code) l | None => false end.

(** Truthiness of a string-or-null value. *)
Definition truthyKey (k : option string) : bool :=
  match k with Some s => negb (s =? "")%string | None => false end.

(** [lowerMap]: [keys.forEach(k => lowerMap[k.toLowerCase().trim()] = k)] *)
Definition lowerMapOf (keys : list string) : JsObject.t string :=
  fold_left (fun m k => JsObject.set (trim (toLowerCase k)) k m) keys [].

(** [Object.keys(lowerMap).find(p) ? lowerMap[Object.keys(lowerMap).find(p)] : alt] *)
Definition findKey (lowerMap : JsObject.t string) (p : string -> bool)
           (alt : option string) : option string :=
  match find p (JsObject.keys lowerMap) with
  | Some k => if negb (k =? "")%string then JsObject.get lowerMap k else alt
  | None => alt
  end.

(** [lowerMap[k] || null] *)
Definition exactKey (lowerMap : JsObject.t string) (k : string) : option string :=
  match JsObject.get lowerMap k with
  | Some v => if (v =? "")%string then None else Some v
  | None => None
  end.

Definition missingOf (checks : list (option string * string)) : list string :=
  flat_map (fun c => if truthyKey (fst c) then [] else [snd c]) checks.

Section Extractors.
Variable host : Host.
Variable leaveCodeWhitelist : option (list string).

(** [Number(v)] for a cell; [null] and [undefined], which give 0 and
    [NaN], share [CNull], and every use is under [|| 0] or behind a test
    for them. *)
Definition jsNumber (v : cell) : float :=
  match v with
  | CNull => nan
  | CStr s => String_toNumber host s
  | CNum q => numberOfQ q
  | CBool true => one
  | CBool false => zero
  | CDate t => numberOfZ t
  end.

(** [Number(v) || 0] *)
Definition numberOrZero (v : cell) : float := orZero (jsNumber v).

Definition drmisRow (persNoKey dateKey hoursKey atypeKey : option string) (r : obj)
  : list DrmisRecord :=
  match normalizeDate host (field r dateKey) with
  | None => []
  | Some date =>
      let pers := field r persNoKey in
      let drmisHours := numberOrZero (field r hoursKey) in
      let leaveStr := normalizeLeaveCodeRaw host (field r atypeKey) in
      if startsWith leaveStr "30" then []
      else if whitelistActive leaveCodeWhitelist
              && negb (whitelistHas leaveCodeWhitelist
                         (if (leaveStr =? "0")%string then "0" else stripNonDigits leaveStr))
      then []
      else [mkDrmis pers date drmisHours leaveStr]
  end.

(** [extractDrmisData] *)
Definition extractDrmisData (rowsObjects : list obj) : result (list DrmisRecord) :=
  match rowsObjects with
  | [] => Ok []
  | first :: _ =>
      let keys := JsObject.keys first in
      let lowerMap := lowerMapOf keys in
      let persNoKey :=
        findKey lowerMap (fun k => includes k "pers" && includes k "no") None in
      let dateKey := exactKey lowerMap "date" in
      let hoursKey := exactKey lowerMap "hours" in
      let atypeKey :=
        findKey lowerMap
          (fun k => includes k "a/a" && includes k "type" && negb (includes k "text"))
          None in
      let missing :=
        missingOf [(persNoKey, "Pers No"); (dateKey, "Date");
                   (hoursKey, "Hours"); (atypeKey, "A/A Type")] in
      if (0 <? List.length missing)%nat
      then Throw ("DRMIS file is missing required columns: " ++ join ", " missing
                  ++ ". Available columns: " ++ join ", " keys)
      else Ok (flat_map (drmisRow persNoKey dateKey hoursKey atypeKey) rowsObjects)
  end.

Definition oracleRow (fromDateKey hoursKey leaveCodeKey : option string) (r : obj)
  : list (OracleRecord float) :=
  match normalizeDate host (field r fromDateKey) with
  | None => []
  | Some d =>
      let hours := numberOrZero (field r hoursKey) in
      let oracleKey := normalizeOracleCode host (field r leaveCodeKey) in
      if existsb (String.eqb oracleKey) ["1200"; "1260"; "1261"; "1660"] then []
      else if whitelistActive leaveCodeWhitelist
              && ((negb (oracleKey =? "0")%string
                   && negb (whitelistHas leaveCodeWhitelist oracleKey))
                  || (oracleKey =? "0")%string)
      then []
      else [mkOracle d hours oracleKey]
  end.

(** [extractOracleData]; the outer [option] is [None] when the expansion
    has not returned within [fuel] turns of its loops. *)
Definition extractOracleData (fuel : nat) (rowsObjects : list obj)
  : option (result (list (OracleRecord float))) :=
  match rowsObjects with
  | [] => Some (Ok [])
  | first :: _ =>
      let keys := JsObject.keys first in
      let lowerMap := lowerMapOf keys in
      let fromDateKey :=
        findKey lowerMap (fun k => includes k "from" && includes k "date")
                (exactKey lowerMap "date") in
      let hoursKey :=
        findKey lowerMap (fun k => includes k "hours" && includes k "recorded")
                (exactKey lowerMap "hours") in
      let leaveCodeKey :=
        findKey lowerMap (fun k => includes k "leave" && includes k "code") None in
      let missing :=
        missingOf [(fromDateKey, "From Date"); (hoursKey, "Hours Recorded");
                   (leaveCodeKey, "Leave Code")] in
      if (0 <? List.length missing)%nat
      then Some (Throw ("ORACLE file is missing required columns: " ++ join ", " missing
                        ++ ". Available columns: " ++ join ", " keys))
      else
        let out := flat_map (oracleRow fromDateKey hoursKey leaveCodeKey) rowsObjects in
        option_map Ok (expandOracleEntries FloatOps fuel out)
  end.

End Extractors.

(** ** Reconciler *)

(** The value of a ['Pers No'] property: the cell it was read from, or
    the number the code has made of it. *)
Inductive persValue : Type :=
| PCell (c : cell)
| PNumber (x : float).

(** An entry of the reconciler's map, a merged row, and (with its flag) a
    mismatch: the three objects carry the same six fields. *)
Record MergedRow : Type := mkMerged {
  MDate : Z;
  MPersNo : persValue;
  MDrmisHours : float;
  MDrmisLeaveCode : string;
  MOracleHours : float;
  MOracleLeaveCode : string
}.

Record Mismatch : Type := mkMismatch {
  XDate : Z;
  XPersNo : persValue;
  XOracleLeaveCode : string;
  XOracleHours : float;
  XDrmisLeaveCode : string;
  XDrmisHours : float;
  AddToCatsEdits : bool
}.

(** A key [dateStr + '|' + pers] of the map.  The date part is the ISO
    date of the row's [Date]; it holds no ['|'], so a key starts with
    [dateStr + '|'] exactly when its date part is [dateStr], and two ISO
    dates are equal exactly when the days are.  The key is therefore kept as
    the pair of the day and the [pers] text. *)
Definition mapKey : Type := (Z * string)%type.

Definition mapKey_eqb (a b : mapKey) : bool :=
  (fst a =? fst b) && (snd a =? snd b)%string.

(** A JavaScript [Map] in insertion order. *)
Module JsMap.

Definition t : Type := list (mapKey * MergedRow).

Definition keys (m : t) : list mapKey := map fst m.
Definition values (m : t) : list MergedRow := map snd m.

Fixpoint get (m : t) (k : mapKey) : option MergedRow :=
  match m with
  | [] => None
  | (k', v) :: rest => if mapKey_eqb k' k then Some v else get rest k
  end.

Definition has (m : t) (k : mapKey) : bool :=
  match get m k with Some _ => true | None => false end.

Fixpoint replaceValue (k : mapKey) (v : MergedRow) (m : t) : t :=
  match m with
  | [] => []
  | (k', v') :: rest =>
      (k', if mapKey_eqb k' k then v else v') :: replaceValue k v rest
  end.

(** [m.set(k, v)]: an existing key keeps its place. *)
Definition set (k : mapKey) (v : MergedRow) (m : t) : t :=
  if has m k then replaceValue k v m else (m ++ [(k, v)])%list.

End JsMap.

(** Stable sort by date, as [Array.prototype.sort] with the comparator
    [(a, b) => a.Date - b.Date]. *)
Fixpoint insertByDate (x : Mismatch) (l : list Mismatch) : list Mismatch :=
  match l with
  | [] => [x]
  | y :: rest => if XDate y <? XDate x then y :: insertByDate x rest else x :: l
  end.

Definition sortByDate (l : list Mismatch) : list Mismatch :=
  fold_right insertByDate [] l.

(** The filter predicate of the mismatches. *)
Definition isMismatch (r : MergedRow) : bool :=
  negb (MDrmisLeaveCode r =? MOracleLeaveCode r)%string
  || negb (MDrmisHours r =? MOracleHours r)%float.

Definition toMismatch (r : MergedRow) : Mismatch :=
  mkMismatch (MDate r) (MPersNo r) (MOracleLeaveCode r) (MOracleHours r)
             (MDrmisLeaveCode r) (MDrmisHours r) true.

Section Reconciler.
Variable host : Host.
Variable leaveCodeWhitelist : option (list string).

(** Truthiness of a cell value. *)
Definition truthy (v : cell) : bool :=
  match v with
  | CNull => false
  | CStr s => negb (s =? "")%string
  | CNum q => negb (Qeq_bool q 0)
  | CBool b => b
  | CDate _ => true
  end.

(** [defaultPers] *)
Definition defaultPersOf (drmisData : list DrmisRecord) : string :=
  match find (fun r => negb (isNullish (PersNo r))
                       && negb (trim (jsString host (PersNo r)) =? "")%string)
             drmisData with
  | Some firstWithPers => jsString host (PersNo firstWithPers)
  | None => ""
  end.

(** [keyFor(date, pers)] *)
Definition keyFor (date : Z) (pers : cell) : mapKey :=
  (date, if truthy pers then jsString host pers else "").

(** The body of [drmisData.forEach]. *)
Definition seedDrmis (m : JsMap.t) (r : DrmisRecord) : JsMap.t :=
  let k := keyFor (DDate r) (PersNo r) in
  if negb (JsMap.has m k)
  then JsMap.set k (mkMerged (DDate r) (PCell (PersNo r)) (DrmisHours r)
                             (DrmisLeaveCode r) 0 "") m
  else m.

(** The body of [oracleData.forEach]. *)
Definition placeOracle (defaultPers : string) (m : JsMap.t) (r : OracleRecord float)
  : JsMap.t :=
  let dateStr := ODate r in
  match find (fun k => fst k =? dateStr) (JsMap.keys m) with
  | Some foundKey =>
      match JsMap.get m foundKey with
      | Some entry =>
          JsMap.set foundKey
            (mkMerged (MDate entry) (MPersNo entry) (MDrmisHours entry)
                      (MDrmisLeaveCode entry) (OracleHours r) (OracleLeaveCode r)) m
      | None => m
      end
  | None =>
      let persForNew := defaultPers in
      let k := (dateStr, persForNew) in
      JsMap.set k (mkMerged (ODate r) (PCell (CStr persForNew)) 0 "0"
                            (OracleHours r) (OracleLeaveCode r)) m
  end.

Definition buildMap (drmisData : list DrmisRecord)
           (oracleData : list (OracleRecord float))
  : JsMap.t :=
  fold_left (placeOracle (defaultPersOf drmisData)) oracleData
            (fold_left seedDrmis drmisData []).

(** One element of [merged], with the leave code made canonical by the
    [merged.forEach] that follows. *)
Definition mergeEntry (defaultPers : string) (m : MergedRow) : MergedRow :=
  let pers :=
    match MPersNo m with
    | PCell CNull => PCell (CStr defaultPers)
    | PCell (CStr "") => PCell (CStr defaultPers)
    | PCell v => if truthyNumber (jsNumber host v) then PNumber (jsNumber host v)
                 else PCell v
    | PNumber x => PNumber x
    end in
  let oracleCode := MOracleLeaveCode m in
  let oracleHours := orZero (MOracleHours m) in
  let drmisCode0 := if (MDrmisLeaveCode m =? "")%string then "0" else MDrmisLeaveCode m in
  let drmisHours := orZero (MDrmisHours m) in
  let drmisCode :=
    if (trim drmisCode0 =? "")%string then "0"
    else match parseInt drmisCode0 with
         | Some num => ofZ num
         | None => drmisCode0
         end in
  mkMerged (MDate m) pers drmisHours drmisCode oracleHours oracleCode.

Definition mergedRows (drmisData : list DrmisRecord)
           (oracleData : list (OracleRecord float))
  : list MergedRow :=
  map (mergeEntry (defaultPersOf drmisData))
      (JsMap.values (buildMap drmisData oracleData)).

(** [filteredMerged] *)
Definition filterMerged (merged : list MergedRow) : list MergedRow :=
  if whitelistActive leaveCodeWhitelist
  then filter (fun r =>
                 whitelistHas leaveCodeWhitelist (trim (MDrmisLeaveCode r))
                 || whitelistHas leaveCodeWhitelist (trim (MOracleLeaveCode r)))
              merged
  else merged.

Definition mismatchesOf (merged : list MergedRow) : list Mismatch :=
  sortByDate (map toMismatch (filter isMismatch (filterMerged merged))).

(** [reconcileData] *)
Definition reconcileData (drmisData : list DrmisRecord)
           (oracleData : list (OracleRecord float)) : list Mismatch :=
  mismatchesOf (mergedRows drmisData oracleData).

End Reconciler.

(** ** Edit generator *)

(** The value of [aa_code]: a number when [parseInt] reads one, else the
    code's text. *)
Inductive aaCode : Type :=
| AANum (n : Z)
| AAStr (s : string).

(** A cell of the edit table that holds a number or the empty string. *)
Inductive numOrBlank : Type :=
| Blank
| Num (x : float).

Inductive CatsRow : Type :=
| DataRow (pers_no : numOrBlank) (date : string) (work_order act : string)
          (aa_code : aaCode) (hours : float) (discrepancy_reason : string)
          (original_drmis_code : string) (original_drmis_hours : float)
          (replaced : bool)
| TotalRow (hours : numOrBlank).

(** [isNaN(num) ? code : num] with [num = parseInt(code)] *)
Definition codeValue (code : string) : aaCode :=
  match parseInt code with
  | Some num => AANum num
  | None => AAStr code
  end.

(** A code that is neither the empty string nor ["0"]. *)
Definition presentCode (code : string) : bool :=
  negb (code =? "")%string && negb (code =? "0")%string.

Section EditGenerator.
Variable host : Host.

Definition discrepancyOf (row : Mismatch) : string :=
  join ", "
    ((if negb (XOracleLeaveCode row =? XDrmisLeaveCode row)%string
      then ["Code Mismatch"] else [])
     ++ (if negb (XOracleHours row =? XDrmisHours row)%float
         then ["Hours Mismatch"] else []))%list.

(** The pair ([aa_code_value], [hoursValue]). *)
Definition targetOf (row : Mismatch) : aaCode * float :=
  let oracleCode := XOracleLeaveCode row in
  let oracleHoursRaw := XOracleHours row in
  let oracleHoursNum := orZero oracleHoursRaw in
  if ((trim oracleCode =? "")%string || (oracleCode =? "0")%string)
     && (oracleHoursRaw =? zero)%float
  then
    (if presentCode (XDrmisLeaveCode row)
     then codeValue (XDrmisLeaveCode row) else AAStr "",
     zero)
  else
    (if presentCode oracleCode then codeValue oracleCode
     else if presentCode (XDrmisLeaveCode row) then codeValue (XDrmisLeaveCode row)
     else AAStr "",
     oracleHoursNum).

Definition replacedOf (row : Mismatch) : bool :=
  let oracleCode := XOracleLeaveCode row in
  let originalDrmisCode := trim (XDrmisLeaveCode row) in
  presentCode oracleCode && presentCode originalDrmisCode
  && negb (oracleCode =? originalDrmisCode)%string.

(** Truthiness of a ['Pers No'] value, and [Number] of it. *)
Definition truthyPers (v : persValue) : bool :=
  match v with
  | PCell c => truthy c
  | PNumber x => truthyNumber x
  end.

Definition numberOfPers (v : persValue) : float :=
  match v with
  | PCell c => jsNumber host c
  | PNumber x => x
  end.

Definition catsRowsOf (row : Mismatch) : list CatsRow :=
  [ DataRow
      (if truthyPers (XPersNo row) then Num (numberOfPers (XPersNo row)) else Blank)
      (formattedDateForDisplay (XDate row)) "" ""
      (fst (targetOf row)) (snd (targetOf row)) (discrepancyOf row)
      (trim (XDrmisLeaveCode row)) (orZero (XDrmisHours row)) (replacedOf row);
    TotalRow (if truthyNumber (XOracleHours row) then Num (XOracleHours row) else Blank) ].

(** [generateCatsEdits] *)
Definition generateCatsEdits (mismatches : list Mismatch) : list CatsRow :=
  flat_map catsRowsOf mismatches.

End EditGenerator.

(** ** Prefill and reallocation *)

(** An entry of [drmisLookup], and a residual built from it. *)
Record DetailEntry : Type := mkEntry {
  recOrder : string;
  act : string;
  aatype : string;
  hours : float
}.

Definition setHours (r : DetailEntry) (h : float) : DetailEntry :=
  mkEntry (recOrder r) (act r) (aatype r) h.

(** What [prefillEditableRow] reads from the page and from [drmisLookup]
    before it computes: the data row's leave code and hours, the lookup's
    entries for the row's date and employee, the row's [data-original-drmis],
    [data-replaced] and [data-original-drmis-hours], and the hours summed
    over the editable rows that already follow the data row. *)
Record PrefillInput : Type := mkPrefill {
  leaveCode : string;
  leaveHours : float;
  candidates : list DetailEntry;
  originalDrmis : string;
  isReplaced : bool;
  existingEditableHours : float;
  originalDrmisHours : float
}.

(** [Math.floor(x * 100) / 100] *)
Definition floor2 (x : float) : float := (Math_floor (x * 100) / 100)%float.

(** [Math.round(x * 100) / 100] *)
Definition round2 (x : float) : float := (Math_round (x * 100) / 100)%float.

(** [filtered] *)
Definition filterCandidates (i : PrefillInput) : list DetailEntry :=
  if isReplaced i && negb (originalDrmis i =? "")%string
  then filter (fun c =>
                 let a := stripNonDigits (aatype c) in
                 let lc := stripNonDigits (leaveCode i) in
                 let od := stripNonDigits (originalDrmis i) in
                 negb (a =? lc)%string && negb (a =? od)%string)
              (candidates i)
  else filter (fun c => negb (stripNonDigits (aatype c) =? stripNonDigits (leaveCode i))%string)
              (candidates i).

(** The loop that takes [amount] hours away from the residuals in list
    order, each giving at most what it has; the code runs it once for
    [existingEditableHours] and once for [remainingLeave]. *)
Fixpoint takeAway (amount : float) (residuals : list DetailEntry) : list DetailEntry :=
  match residuals with
  | [] => []
  | r :: rest =>
      if (zero <? amount)%float then
        let take := Math_min (hours r) amount in
        setHours r (Math_max zero (hours r - take)) :: takeAway (amount - take) rest
      else residuals
  end.

(** The loop that adds each residual's share; returns the residuals and
    [allocated]. *)
Fixpoint addShares (sumAvail toAdd : float) (residuals : list DetailEntry)
         (allocated : float) : list DetailEntry * float :=
  match residuals with
  | [] => ([], allocated)
  | r :: rest =>
      let share := floor2 ((hours r / sumAvail) * toAdd) in
      let '(rest', allocated') := addShares sumAvail toAdd rest (allocated + share) in
      (setHours r (hours r + share) :: rest', allocated')
  end.

Definition addToFirst (amount : float) (residuals : list DetailEntry)
  : list DetailEntry :=
  match residuals with
  | [] => []
  | r :: rest => setHours r (hours r + amount) :: rest
  end.

(** The [isOracleRemoved] branch: [toAdd] hours spread over the
    residuals. *)
Definition reallocate (toAdd : float) (residuals : list DetailEntry)
  : list DetailEntry :=
  let sumAvail := fold_left (fun s r => s + orZero (hours r))%float residuals zero in
  if (zero <? sumAvail)%float then
    let '(residuals', allocated) := addShares sumAvail toAdd residuals zero in
    let remainder := round2 (toAdd - allocated) in
    if (zero <? remainder)%float && (0 <? List.length residuals')%nat
    then addToFirst remainder residuals'
    else residuals'
  else addToFirst toAdd residuals.

Definition isOracleRemoved (i : PrefillInput) : bool :=
  negb (isReplaced i) && (zero <? originalDrmisHours i)%float
  && (leaveHours i =? zero)%float.

(** [residuals], built from [filtered] with [hours: Number(c.hours) || 0]. *)
Definition initialResiduals (i : PrefillInput) : list DetailEntry :=
  map (fun c => setHours c (orZero (hours c))) (filterCandidates i).

(** The residuals after the consumption of the existing editable rows. *)
Definition residualsOf (i : PrefillInput) : list DetailEntry :=
  takeAway (existingEditableHours i) (initialResiduals i).

(** The residuals at the point where [pick] is chosen; [None] when the
    function has returned [false] before. *)
Definition finalResiduals (i : PrefillInput) : option (list DetailEntry) :=
  match candidates i with
  | [] => None
  | _ =>
      match filterCandidates i with
      | [] => None
      | _ =>
          let residuals := residualsOf i in
          Some (if isOracleRemoved i
                then reallocate (originalDrmisHours i) residuals
                else
                  let remainingLeave :=
                    if isReplaced i then zero
                    else Math_max zero (leaveHours i - existingEditableHours i) in
                  takeAway remainingLeave residuals)
      end
  end.

(** [prefillEditableRow], up to the choice of [pick]: the entry whose
    fields fill the new row, or [None] where the function returns [false]. *)
Definition prefillPick (i : PrefillInput) : option DetailEntry :=
  match finalResiduals i with
  | Some residuals => find (fun r => (zero <? hours r)%float) residuals
  | None => None
  end.

(** ** Header detection *)

Definition headerKeywords : list string :=
  ["pers"; "pers.no"; "pers no"; "pers_no"; "date"; "hours"; "a/atype"; "aatype";
   "a a type"; "a a"; "leave"; "leave code"; "a/a type"; "a/atype"].

Section HeaderDetection.
Variable host : Host.

(** [(c === null || c === undefined) ? '' : String(c).trim().toLowerCase()] *)
Definition normCell (c : cell) : string :=
  match c with
  | CNull => ""
  | _ => toLowerCase (trim (jsString host c))
  end.

Definition nonEmptyCount (r : list cell) : Z :=
  Z.of_nat (List.length (filter (fun x => negb (x =? "")%string) (map normCell r))).

Definition hasKeyword (r : list cell) : bool :=
  existsb (fun x => existsb (fun k => includes x k) headerKeywords) (map normCell r).

Definition rowScore (r : list cell) : Z :=
  nonEmptyCount r + (if hasKeyword r then 50 else 0).

(** The scan loop, from row [i] on. *)
Fixpoint scanRows (rows : list (list cell)) (i : nat) (bestIdx : nat) (bestScore : Z)
  : nat :=
  match rows with
  | [] => bestIdx
  | r :: rest =>
      let score := rowScore r in
      if bestScore <? score then scanRows rest (S i) i score
      else scanRows rest (S i) bestIdx bestScore
  end.

(** The header row chosen by [sheetRowsToObjects]: its [bestIdx]. *)
Definition detectHeaderIndex (rows : list (list cell)) : nat :=
  let maxScan := Nat.min 30 (List.length rows) in
  scanRows (firstn maxScan rows) 0 0 (-1).

End HeaderDetection.

(** The claim's reading of the Oracle normalisation: blank and dash give
    ["0"], anything else is reduced to its digits, which are then remapped by
    their number. *)
Definition spec_normalizeOracleCode (raw : string) : string :=
  let s := trim raw in
  if (s =? "")%string || (s =? "-")%string then "0"
  else
    let digits := stripNonDigits s in
    if (digits =? "0")%string then "0"
    else if (String.length digits =? 3)%nat then "1" ++ digits
    else digits.

(** ** Two hosts *)

(** Decimal digits of the fraction [n / d] (with [0 <= n < d]), at most
    [fuel] of them. *)
Fixpoint fractionDigits (fuel : nat) (n d : Z) : list ascii :=
  match fuel with
  | O => []
  | S f =>
      if n =? 0 then []
      else digitChar (10 * n / d) :: fractionDigits f ((10 * n) mod d) d
  end.

(** A plain decimal rendering of a number: what [String(n)] gives for an
    integer and for a short decimal fraction. *)
Definition decimalString (q : Q) : string :=
  let n := Z.abs (Qnum q) in
  let d := Zpos (Qden q) in
  let frac := fractionDigits 17 (n mod d) d in
  (if Qnum q <? 0 then "-" else "")
    ++ ofZ (n / d)
    ++ match frac with [] => "" | _ => String "."%char (ofChars frac) end.

(** A plain decimal reading of a string: an optional sign, digits and an
    optional fraction; the empty string is 0. *)
Definition decimalRational (s : string) : option Q :=
  let body := chars (trim s) in
  let '(neg, rest) :=
    match body with
    | "-"%char :: r => (true, r)
    | _ => (false, body)
    end in
  let sign (q : Q) := if neg then Qopp q else q in
  match body, splitOn "."%char rest with
  | [], _ => Some 0%Q
  | _, [ip] =>
      if forallb isDigit ip && (0 <? List.length ip)%nat
      then Some (sign (inject_Z (digitsToZ ip))) else None
  | _, [ip; fp] =>
      if forallb isDigit ip && forallb isDigit fp
         && (0 <? List.length ip + List.length fp)%nat
      then Some (sign (inject_Z (digitsToZ ip)
                       + inject_Z (digitsToZ fp) / inject_Z (10 ^ Z.of_nat (List.length fp)))%Q)
      else None
  | _, _ => None
  end.

(** [Number(s)] for the plain decimal strings and for the infinities;
    [NaN] for the rest. *)
Definition decimalNumber (s : string) : float :=
  let t := trim s in
  if (t =? "Infinity")%string || (t =? "+Infinity")%string then infinity
  else if (t =? "-Infinity")%string then neg_infinity
  else match decimalRational s with
       | Some q => numberOfQ q
       | None => nan
       end.

(** A host on UTC, and one five hours behind it (Ottawa, standard time).
    Their [Date.parse] accepts nothing beyond what [normalizeDate] has
    already tried. *)
Definition hostAt (offsetMs : Z) : Host :=
  {| Number_toString := decimalString;
     String_toNumber := decimalNumber;
     Date_toString := fun t => formattedDateForDisplay ((t + offsetMs) / msPerDay);
     Date_parse := fun _ => None;
     tzOffsetMs := offsetMs |}.

Definition utcHost : Host := hostAt 0.
Definition ottawaHost : Host := hostAt (-5 * 60 * 60 * 1000).

(** ** Vocabulary of the statements *)

(** Ascending order of the mismatches' dates. *)
Definition byDate (a b : Mismatch) : Prop := XDate a <= XDate b.















(** The number of cells of a row that contain a header keyword. *)
Definition keywordCells (host : Host) (r : list cell) : nat :=
  List.length
    (filter (fun x => existsb (fun k => includes x k) headerKeywords)
            (map (normCell host) r)).

(** Row [h] contains more header keywords than any other row. *)
Definition mostKeywordsAt (host : Host) (rows : list (list cell)) (h : nat) : bool :=
  forallb (fun j => (j =? h)%nat
                    || (keywordCells host (nth j rows []) <? keywordCells host (nth h rows []))%nat)
          (seq 0 (List.length rows)).

(** A row without an empty cell. *)
Definition fullRow (host : Host) (r : list cell) : bool :=
  nonEmptyCount host r =? Z.of_nat (List.length r).

(** A sheet with a title line above its header: the title mentions the
    word "leave" and fills as many cells as the header has columns. *)
Definition titledGrid : list (list cell) :=
  [ [CStr "Leave report"; CStr "2025"; CStr "Q1"; CStr "v2"];
    [CStr "Pers No"; CStr "Date"; CStr "Hours"; CStr "A/AType"];
    [CNum 12345; CStr "28.04.2025"; CNum 8; CNum 1110];
    [CNum 12345; CStr "29.04.2025"; CNum 8; CNum 1110];
    [CNum 12345; CStr "30.04.2025"; CNum 4; CNum 1110] ].

(** A DRMIS sheet row and an Oracle sheet row of one day, and an
    allow-list with the one code they carry. *)
Definition sampleDrmisRow : obj :=
  [("Pers.No.", CNum 12345); ("Date", CStr "28.04.2025"); ("Hours", CNum 4.25);
   ("A/AType", CStr "1110"); ("A/A Type Text", CStr "Vacation")].

Definition sampleOracleRow : obj :=
  [("From Date", CStr "2025-04-28"); ("Hours Recorded", CNum 20);
   ("Leave Code", CNum 110)].

Definition sampleWhitelist : option (list string) := Some ["1110"].

(** The filters of the Oracle extractor, on one leave code. *)
Definition oraclePasses (leaveCodeWhitelist : option (list string)) (code : string) : Prop :=
  code <> ""
  /\ existsb (String.eqb code) ["1200"; "1260"; "1261"; "1660"] = false
  /\ (whitelistActive leaveCodeWhitelist = true ->
      whitelistHas leaveCodeWhitelist code = true /\ code <> "0").

(** The row the reconciler seeds from a DRMIS record. *)
Definition seedRow (r : DrmisRecord) : MergedRow :=
  mkMerged (DDate r) (PCell (PersNo r)) (DrmisHours r) (DrmisLeaveCode r) 0 "".

(** Every row of the map sits under a key of its own date. *)
Definition keyedByDate (m : JsMap.t) : Prop :=
  Forall (fun kv => fst (fst kv) = MDate (snd kv)) m.


(** The fields of a detail entry the engine never changes. *)
Definition labels (r : DetailEntry) : string * string * string :=
  (recOrder r, act r, aatype r).

(** A data row with two work entries of 4 hours, 3 hours of leave, and
    one editable row of 2 hours already below it. *)
Definition twoWorkEntries : PrefillInput :=
  {| leaveCode := "1110";
     leaveHours := 3;
     candidates := [ mkEntry "" "" "1110" 3;
                     mkEntry "4000123" "0010" "0" 4;
                     mkEntry "4000456" "0020" "0" 4 ];
     originalDrmis := "";
     isReplaced := false;
     existingEditableHours := 2;
     originalDrmisHours := 0 |}.

(** ** Display dates *)

(** What [new Date(...)] gives in [parseDisplayDate]. *)
Inductive DateValue : Type :=
| InvalidDate
| Instant (t : Z)
| LocalMidnight (day : Z).

(** [s.replace(',', '')]: the first comma goes. *)
Fixpoint removeFirst (c : ascii) (l : list ascii) : list ascii :=
  match l with
  | [] => []
  | x :: rest => if Ascii.eqb x c then rest else x :: removeFirst c rest
  end.

Definition removeComma (s : string) : string := ofChars (removeFirst ","%char (chars s)).

Fixpoint indexOf (x : string) (l : list string) (i : Z) : option Z :=
  match l with
  | [] => None
  | y :: rest => if (y =? x)%string then Some i else indexOf x rest (i + 1)
  end.

(** [months[mon]] on [{Jan:0, ..., Dec:11}], as a number: [None] is
    [NaN], which any other name gives. *)
Definition monthNumber (mon : string) : option Z := indexOf mon months 0.

Section DisplayDates.
Variable host : Host.

(** [parseDisplayDate]; [None] is [null]. *)
Definition parseDisplayDate (str : string) : option DateValue :=
  if (str =? "")%string then None
  else
    match map ofChars (splitOn " "%char (chars str)) with
    | p0 :: p1 :: p2 :: _ =>
        let mon := removeComma p0 in
        let day := parseInt (removeComma p1) in
        let year := parseInt p2 in
        match year, monthNumber mon, day with
        | Some y, Some m, Some d => Some (LocalMidnight (jsNewDate y m d))
        | _, _, _ => Some InvalidDate
        end
    | _ =>
        Some (match Date_parse host str with
              | Some t => Instant t
              | None => InvalidDate
              end)
    end.

End DisplayDates.

(** ** From sheet rows to objects *)

(** What [sheetRowsToObjects] returns. *)
Record SheetObjects : Type := mkSheet {
  headers : list string;
  rows : list obj
}.

(** [while (firstCol < colCount && colNonEmpty[firstCol] < threshold)
    firstCol++], with [n] columns still ahead. *)
Fixpoint skipLeading (colNonEmpty : nat -> Z) (threshold : Z) (n firstCol : nat) : nat :=
  match n with
  | O => firstCol
  | S n' =>
      if colNonEmpty firstCol <? threshold
      then skipLeading colNonEmpty threshold n' (S firstCol)
      else firstCol
  end.

(** [while (lastCol >= firstCol && colNonEmpty[lastCol] < threshold)
    lastCol--]; the argument and the result are [lastCol + 1], so that the
    [-1] of a sheet without columns is [0]. *)
Fixpoint skipTrailing (colNonEmpty : nat -> Z) (threshold : Z) (firstCol endCol : nat)
  : nat :=
  match endCol with
  | O => O
  | S lastCol =>
      if (firstCol <=? lastCol)%nat && (colNonEmpty lastCol <? threshold)
      then skipTrailing colNonEmpty threshold firstCol lastCol
      else endCol
  end.

(** The column bounds [(firstCol, lastCol + 1)]. *)
Definition columnBounds (colNonEmpty : nat -> Z) (threshold : Z) (colCount : nat)
  : nat * nat :=
  let firstCol := skipLeading colNonEmpty threshold colCount 0 in
  let endCol := skipTrailing colNonEmpty threshold firstCol colCount in
  if (endCol <=? firstCol)%nat then (0%nat, colCount) else (firstCol, endCol).

(** The object of one row: [obj[headers[hi]] = row[ci]], column after
    column. *)
Definition rowObject (headers : list string) (cells : list cell) : obj :=
  fold_left (fun o hv => JsObject.set (fst hv) (snd hv) o) (combine headers cells) [].

Section GridNormaliser.
Variable host : Host.
(** [Math.ceil(n * 0.15)], as the host's floating point gives it. *)
Variable ceil15 : Z -> Z.

(** [v !== null && v !== undefined && String(v).toString().trim() !== ''] *)
Definition cellPresent (v : cell) : bool :=
  match v with
  | CNull => false
  | _ => negb (trim (jsString host v) =? "")%string
  end.

(** [row[c]] *)
Definition cellAt (row : list cell) (c : nat) : cell := nth c row CNull.

(** [colNonEmpty[c]] after the counting loop over the rows below the
    header. *)
Definition colNonEmpty (dataRows : list (list cell)) (c : nat) : Z :=
  Z.of_nat (List.length (filter (fun row => cellPresent (cellAt row c)) dataRows)).

(** [Math.max(3, Math.ceil((totalRows || 0) * 0.15))] *)
Definition threshold (totalRows : Z) : Z := Z.max 3 (ceil15 totalRows).

(** [h !== null && h !== undefined ? String(h).trim() : ''] *)
Definition headerText (h : cell) : string :=
  match h with
  | CNull => ""
  | _ => trim (jsString host h)
  end.

(** The bounds [(firstCol, lastCol + 1)] that [sheetRowsToObjects]
    computes for a sheet with at least one row. *)
Definition sheetBounds (sheet : list (list cell)) : nat * nat :=
  let bestIdx := detectHeaderIndex host sheet in
  let totalRows := Z.of_nat (List.length sheet) - (Z.of_nat bestIdx + 1) in
  let colCount := List.length (nth bestIdx sheet []) in
  columnBounds (colNonEmpty (skipn (S bestIdx) sheet)) (threshold totalRows) colCount.

Definition sheetRowsToObjects (sheet : list (list cell)) : SheetObjects :=
  match sheet with
  | [] => {| headers := []; rows := [] |}
  | _ =>
      let bestIdx := detectHeaderIndex host sheet in
      let '(firstCol, endCol) := sheetBounds sheet in
      let columns := seq firstCol (endCol - firstCol) in
      let rawHeaderRow := nth bestIdx sheet [] in
      let headers := map (fun c => headerText (cellAt rawHeaderRow c)) columns in
      let kept :=
        filter (fun row => existsb (fun c => cellPresent (cellAt row c)) columns)
               (skipn (S bestIdx) sheet) in
      {| headers := headers;
         rows := map (fun row => rowObject headers (map (cellAt row) columns)) kept |}
  end.

End GridNormaliser.

(** A sheet of two data rows whose first column is empty. *)
Definition shortSheet : list (list cell) :=
  [ [CNull; CStr "Pers No"; CStr "Date"; CStr "Hours"];
    [CNull; CNum 12345; CStr "28.04.2025"; CNum 8];
    [CNull; CNum 12345; CStr "29.04.2025"; CNum 8] ].

(** ** The DRMIS lookup *)

(** A value used as a property name: a string, [null] or [undefined]. *)
Inductive keyValue : Type :=
| KStr (s : string)
| KNull
| KUndefined.

Definition propertyName (k : keyValue) : string :=
  match k with
  | KStr s => s
  | KNull => "null"
  | KUndefined => "undefined"
  end.

Definition truthyKeyValue (k : keyValue) : bool :=
  match k with
  | KStr s => negb (s =? "")%string
  | _ => false
  end.

(** [a || b] *)
Definition orKey (a b : keyValue) : keyValue := if truthyKeyValue a then a else b.

(** [lowerMap[k]] *)
Definition lowerMapAt (lowerMap : JsObject.t string) (k : keyValue) : keyValue :=
  match JsObject.get lowerMap (propertyName k) with
  | Some v => KStr v
  | None => KUndefined
  end.

(** [Object.keys(lowerMap).find(p)] *)
Definition findIn (lowerMap : JsObject.t string) (p : string -> bool) : keyValue :=
  match find p (JsObject.keys lowerMap) with
  | Some k => KStr k
  | None => KUndefined
  end.

(** [r[k]] *)
Definition cellOf (r : obj) (k : keyValue) : cell :=
  match JsObject.get r (propertyName k) with
  | Some v => v
  | None => CNull
  end.

(** The column names [buildDrmisLookup] settles on. *)
Record LookupKeys : Type := mkLookupKeys {
  persKey : keyValue;
  dateKey : keyValue;
  recKey : keyValue;
  actKey : keyValue;
  aatypeKey : keyValue;
  hoursKey : keyValue
}.

Definition lookupKeysOf (first : obj) : LookupKeys :=
  let keys := JsObject.keys first in
  let lowerMap := lowerMapOf keys in
  let isPers := fun k => includes k "pers" && includes k "no" in
  let isDate := fun k => includes k "date" in
  let isRec := fun k => includes k "rec" && includes k "order" in
  let isAct := fun k => includes k "act" in
  let isAatype := fun k => includes k "a/a" && includes k "type" in
  {| persKey :=
       if truthyKeyValue (findIn lowerMap isPers)
       then lowerMapAt lowerMap (findIn lowerMap isPers)
       else orKey (lowerMapAt lowerMap (KStr "pers.no"))
                  (orKey (lowerMapAt lowerMap (KStr "pers")) KNull);
     dateKey :=
       if truthyKeyValue (orKey (lowerMapAt lowerMap (KStr "date"))
                                (findIn lowerMap isDate))
       then lowerMapAt lowerMap (findIn lowerMap isDate)
       else KNull;
     recKey :=
       if truthyKeyValue (findIn lowerMap isRec)
       then lowerMapAt lowerMap (findIn lowerMap isRec)
       else orKey (lowerMapAt lowerMap (KStr "rec.order")) KNull;
     actKey :=
       if truthyKeyValue (findIn lowerMap isAct)
       then lowerMapAt lowerMap (findIn lowerMap isAct)
       else KNull;
     aatypeKey :=
       if truthyKeyValue (findIn lowerMap isAatype)
       then lowerMapAt lowerMap (findIn lowerMap isAatype)
       else orKey (lowerMapAt lowerMap (KStr "a/atype")) KNull;
     hoursKey :=
       if truthyKeyValue (findIn lowerMap (fun k => (k =? "hours")%string))
       then KStr "Hours"
       else orKey (lowerMapAt lowerMap (KStr "hours")) KNull |}.

(** [drmisLookup]: a [Map] from [dateKeyStr + '|' + pers] to the array
    of the day's entries, in insertion order. *)
Definition Lookup : Type := list (mapKey * list DetailEntry).

Fixpoint lookupGet (m : Lookup) (k : mapKey) : option (list DetailEntry) :=
  match m with
  | [] => None
  | (k', v) :: rest => if mapKey_eqb k' k then Some v else lookupGet rest k
  end.

(** [drmisLookup.get(mapKey).push(entry)] on a key the map has. *)
Fixpoint lookupPush (k : mapKey) (entry : DetailEntry) (m : Lookup) : Lookup :=
  match m with
  | [] => []
  | (k', v) :: rest =>
      if mapKey_eqb k' k then (k', (v ++ [entry])%list) :: rest
      else (k', v) :: lookupPush k entry rest
  end.

(** [if (!drmisLookup.has(mapKey)) drmisLookup.set(mapKey, []);
    drmisLookup.get(mapKey).push(entry)] *)
Definition lookupAdd (m : Lookup) (k : mapKey) (entry : DetailEntry) : Lookup :=
  match lookupGet m k with
  | Some _ => lookupPush k entry m
  | None => lookupPush k entry (m ++ [(k, [])])%list
  end.

Section DrmisLookup.
Variable host : Host.

(** [(k && r[k]) ? String(r[k]).trim() : ''] *)
Definition textAt (r : obj) (k : keyValue) : string :=
  if truthyKeyValue k && truthy (cellOf r k)
  then trim (jsString host (cellOf r k))
  else "".

(** The key and the entry of one row; [None] where the callback returns
    early. *)
Definition lookupEntry (keys : LookupKeys) (r : obj) : option (mapKey * DetailEntry) :=
  let dateVal := cellOf r (dateKey keys) in
  match normalizeDate host dateVal with
  | None => None
  | Some d =>
      let pers := textAt r (persKey keys) in
      let recOrder := textAt r (recKey keys) in
      let act := textAt r (actKey keys) in
      let aatype := textAt r (aatypeKey keys) in
      let aatype := if (aatype =? "")%string || (aatype =? "-")%string then "0" else aatype in
      let hours :=
        if truthyKeyValue (hoursKey keys) && negb (isNullish (cellOf r (hoursKey keys)))
        then numberOrZero host (cellOf r (hoursKey keys))
        else zero in
      Some ((d, pers), mkEntry recOrder act aatype hours)
  end.

(** [buildDrmisLookup]: the new value of [drmisLookup]. *)
Definition buildDrmisLookup (rowsObjects : list obj) : Lookup :=
  match rowsObjects with
  | [] => []
  | first :: _ =>
      let keys := lookupKeysOf first in
      fold_left (fun m r =>
                   match lookupEntry keys r with
                   | Some (mapKey, entry) => lookupAdd m mapKey entry
                   | None => m
                   end)
                rowsObjects []
  end.

End DrmisLookup.

(** The entries of the rows whose key is [k], in the order of the
    rows. *)
Definition entriesFor (host : Host) (keys : LookupKeys) (rowsObjects : list obj)
           (k : mapKey) : list DetailEntry :=
  flat_map (fun r => match lookupEntry host keys r with
                     | Some (k', entry) => if mapKey_eqb k' k then [entry] else []
                     | None => []
                     end)
           rowsObjects.

(** A DRMIS sheet whose hours column is titled in capitals. *)
Definition capitalHoursRow : obj :=
  [("PERS NO", CNum 12345); ("DATE", CStr "28.04.2025"); ("REC.ORDER", CStr "4000123");
   ("ACT", CStr "0010"); ("A/ATYPE", CStr "-"); ("HOURS", CNum 8)].

(** [String(aa_code)]: the text of a target code. *)
Definition aaCodeText (c : aaCode) : string :=
  match c with
  | AANum n => ofZ n
  | AAStr s => s
  end.

(** ** Vocabulary of the statements on binary64 numbers *)

(** The value of a number in units of [2^-1074], the smallest positive
    binary64 number. *)
Definition units (x : float) : Z :=
  match Prim2SF x with
  | S754_finite s m e => (if s then Zneg m else Zpos m) * 2 ^ (e + 1074)
  | _ => 0
  end.



(** ** Vocabulary of the statements on the multi-day expansion *)








(** ** Vocabulary of the statements on the reallocation *)

(** The total of the available hours as the engine sums them: from 0, in
    list order, a [NaN] counting as 0. *)
Definition spec_total (available : list float) : float :=
  fold_left (fun s a => s + orZero a)%float available zero.

(** The sum of a list of numbers: from 0, in list order. *)
Definition sumNumbers (l : list float) : float :=
  fold_left (fun s a => s + a)%float l zero.

(** [share_i = floor(available_i / sum(available) * toAdd)] to two
    decimals. *)
Definition spec_shares (toAdd : float) (available : list float) : list float :=
  map (fun a => floor2 (a / spec_total available * toAdd)) available.

(** [toAdd - sum(shares)], rounded to two decimals. *)
Definition spec_remainder (toAdd : float) (available : list float) : float :=
  round2 (toAdd - sumNumbers (spec_shares toAdd available)).

(** Each candidate's hours with its share added. *)
Fixpoint addEach (available shares : list float) : list float :=
  match available, shares with
  | a :: rest, s :: srest => (a + s)%float :: addEach rest srest
  | _, _ => []
  end.

(** The candidates' hours after the reallocation: with a positive total
    every candidate receives its share and the first one the remainder,
    when there is one; otherwise the first candidate receives all of
    [toAdd]. *)
Definition spec_hours (toAdd : float) (available : list float) : list float :=
  if (zero <? spec_total available)%float then
    match addEach available (spec_shares toAdd available) with
    | [] => []
    | first :: rest =>
        (if (zero <? spec_remainder toAdd available)%float
         then first + spec_remainder toAdd available
         else first)%float :: rest
    end
  else
    match available with
    | [] => []
    | a :: rest => (a + toAdd)%float :: rest
    end.

(** A row in the "Oracle removed DRMIS leave" case: Oracle hours 0, one
    candidate of 1 hour, and an eighth of an hour to give back. *)
Definition eighthOfAnHour : PrefillInput :=
  mkPrefill "1110" 0 [mkEntry "WO-1" "0010" "9000" 1] "1110" false 0 0.125.

(** The "Oracle removed DRMIS leave" row of the specification's example:
    candidates with 3 and 5 hours, 4 hours to give back. *)
Definition threeAndFive : PrefillInput :=
  mkPrefill "1110" 0
            [mkEntry "WO-1" "0010" "9000" 3; mkEntry "WO-2" "0020" "9000" 5;
             mkEntry "" "" "1110" 4]
            "1110" false 0 4.

(** Candidates with 2 and 3 hours, 3 hours to give back. *)
Definition twoAndThree : PrefillInput :=
  mkPrefill "1110" 0
            [mkEntry "WO-1" "0010" "9000" 2; mkEntry "WO-2" "0020" "9000" 3]
            "1110" false 0 3.


(** * Theorems *)

(** ** Leave-code normalisation *)

Section LeaveCodeFacts.
Variable host : Host.

Lemma stripNonDigits_zero_not_empty : stripNonDigits "0" <> "".
Proof. discriminate. Qed.

Lemma eqb_false_of_neq (a b : string) : a <> b -> (a =? b)%string = false.
Proof. intros H. apply String.eqb_neq. exact H. Qed.

(** The Oracle normalisation in closed form. *)
Lemma normalizeOracleCode_closed_form (raw : cell) :
  let s := trim (jsString host raw) in
  let digits := stripNonDigits s in
  normalizeOracleCode host raw =
    if isNullish raw || (s =? "")%string || (s =? "-")%string then "0"
    else if (digits =? "")%string
         then (if (String.length s =? 3)%nat then "1" ++ s else s)
    else if (digits =? "0")%string then "0"
    else if (String.length digits =? 3)%nat then "1" ++ digits
    else digits.
Proof.
  intros s digits.
  unfold normalizeOracleCode, normalizeLeaveCodeRawOracle, normalizeLeaveCodeRaw.
  fold s. fold digits.
  destruct (isNullish raw || (s =? "")%string || (s =? "-")%string) eqn:Hblank.
  - reflexivity.
  - unfold oracleKeyOf.
    destruct (digits =? "")%string eqn:Hd.
    + (* no digit: the trimmed text stands in for the digits *)
      destruct (s =? "0")%string eqn:Hs0.
      * apply String.eqb_eq in Hs0. apply String.eqb_eq in Hd.
        unfold digits in Hd. rewrite Hs0 in Hd. discriminate.
      * destruct (String.length s =? 3)%nat; [reflexivity|].
        destruct (String.length s =? 4)%nat; reflexivity.
    + destruct (digits =? "0")%string; [reflexivity|].
      destruct (String.length digits =? 3)%nat; [reflexivity|].
      destruct (String.length digits =? 4)%nat; reflexivity.
Qed.

(** Where the input is blank, a dash, or holds a digit, the code computes
    what the specification's wording says. *)
Lemma normalizeOracleCode_agrees (raw : string) :
  (trim raw =? "")%string || (trim raw =? "-")%string
    || negb (stripNonDigits (trim raw) =? "")%string = true ->
  normalizeOracleCode host (CStr raw) = spec_normalizeOracleCode raw.
Proof.
  intros H. rewrite normalizeOracleCode_closed_form. cbn [jsString isNullish orb].
  unfold spec_normalizeOracleCode.
  destruct ((trim raw =? "")%string || (trim raw =? "-")%string) eqn:Hb;
    [reflexivity|].
  cbn [orb] in H. apply negb_true_iff in H. rewrite H. reflexivity.
Qed.

End LeaveCodeFacts.

(** C5, as stated, fails on an input without digits: the specification's
    wording reduces ["abc"] to no digits at all, the code keeps the text and
    prefixes it as a three-character code. *)
Lemma C5_no_digit_counterexample :
  normalizeOracleCode utcHost (CStr "abc") = "1abc"
  /\ spec_normalizeOracleCode "abc" = ""
  /\ normalizeOracleCode utcHost (CStr "abc") <> spec_normalizeOracleCode "abc".
Proof. repeat split. discriminate. Qed.

(** C5 (amended): Oracle leave-code normalisation maps a missing, empty,
    white-space-only or ["-"] input to ["0"]; otherwise it strips the
    non-digit characters -- keeping the trimmed text itself when no digit
    remains -- and remaps the result by its length: ["0"] stays ["0"],
    exactly three characters are prefixed with ["1"], four characters and
    every other length are kept as they are.  On every input that is blank, a
    dash, or holds a digit this is the mapping the specification words; and
    ["110"] gives ["1110"], ["1110"] gives ["1110"], [""] and ["-"] give
    ["0"]. *)
Theorem C5_normalizeOracleCode (host : Host) (raw : cell) :
  let s := trim (jsString host raw) in
  let digits := stripNonDigits s in
  normalizeOracleCode host raw =
    (if isNullish raw || (s =? "")%string || (s =? "-")%string then "0"
     else if (digits =? "")%string
          then (if (String.length s =? 3)%nat then "1" ++ s else s)
     else if (digits =? "0")%string then "0"
     else if (String.length digits =? 3)%nat then "1" ++ digits
     else digits)
  /\ (forall text : string,
        (trim text =? "")%string || (trim text =? "-")%string
          || negb (stripNonDigits (trim text) =? "")%string = true ->
        normalizeOracleCode host (CStr text) = spec_normalizeOracleCode text)
  /\ normalizeOracleCode host (CStr "110") = "1110"
  /\ normalizeOracleCode host (CStr "1110") = "1110"
  /\ normalizeOracleCode host (CStr "") = "0"
  /\ normalizeOracleCode host (CStr "-") = "0"
  /\ normalizeOracleCode host CNull = "0".
Proof.
  intros s digits. split; [apply normalizeOracleCode_closed_form|].
  split; [apply normalizeOracleCode_agrees|].
  repeat split.
Qed.

(** ** Termination of the expansion *)

Lemma float_infinity_positive :
  n_gtb FloatOps PrimFloat.infinity (n_zero FloatOps) = true.
Proof. reflexivity. Qed.

Lemma float_infinity_minus_day :
  n_sub FloatOps PrimFloat.infinity (n_min FloatOps (n_eight FloatOps) PrimFloat.infinity)
  = PrimFloat.infinity.
Proof. reflexivity. Qed.

(** On [Infinity] the loop never ends: whatever the fuel, it runs out. *)
Lemma expandLoop_infinity (fuel : nat) :
  forall code day, expandLoop FloatOps fuel code PrimFloat.infinity day = None.
Proof.
  induction fuel as [|f IH]; intros code day.
  - reflexivity.
  - cbn [expandLoop]. rewrite float_infinity_positive.
    destruct (nextBusinessDay f day) as [d|]; [|reflexivity].
    rewrite float_infinity_minus_day. rewrite IH. reflexivity.
Qed.

(** C9 at the failing input: a record whose hours are [Infinity] (the cell
    text ["Infinity"] read by [Number]) is expanded in binary64 arithmetic
    without end -- with every amount of fuel the loop is still running. *)
Theorem C9_expansion_of_infinity_never_returns :
  forall (fuel : nat) (day : Z) (code : string),
    expandOracleEntries FloatOps fuel [mkOracle day PrimFloat.infinity code] = None.
Proof.
  intros fuel day code.
  assert (Hrow : expandRow FloatOps fuel (mkOracle day PrimFloat.infinity code) = None).
  { unfold expandRow. cbn [ODate OracleHours OracleLeaveCode].
    replace (n_orZero FloatOps PrimFloat.infinity) with PrimFloat.infinity by reflexivity.
    replace (n_leb FloatOps PrimFloat.infinity (n_eight FloatOps)) with false by reflexivity.
    apply expandLoop_infinity. }
  cbn [expandOracleEntries]. rewrite Hrow. reflexivity.
Qed.

(** ** Binary64: order *)

Lemma SFcompare_antisym (x y : spec_float) :
  SFcompare y x = option_map CompOpp (SFcompare x y).
Proof.
  destruct x as [sx|sx| |sx mx ex], y as [sy|sy| |sy my ey]; cbn [SFcompare option_map];
    try reflexivity;
    try (destruct sx; reflexivity); try (destruct sy; reflexivity);
    try (destruct sx, sy; reflexivity).
  destruct sx, sy; try reflexivity.
  - rewrite (Z.compare_antisym ex ey).
    destruct (ex ?= ey); cbn [CompOpp]; try reflexivity.
    change (Pos.compare_cont Eq my mx) with (Pos.compare my mx).
    change (Pos.compare_cont Eq mx my) with (Pos.compare mx my).
    rewrite (Pos.compare_antisym mx my). reflexivity.
  - rewrite (Z.compare_antisym ex ey).
    destruct (ex ?= ey); cbn [CompOpp]; try reflexivity.
    change (Pos.compare_cont Eq my mx) with (Pos.compare my mx).
    change (Pos.compare_cont Eq mx my) with (Pos.compare mx my).
    rewrite (Pos.compare_antisym mx my). reflexivity.
Qed.

Lemma float_eqb_sym (x y : float) : (x =? y)%float = (y =? x)%float.
Proof.
  rewrite !eqb_spec. unfold SFeqb. rewrite (SFcompare_antisym (Prim2SF y) (Prim2SF x)).
  destruct (SFcompare (Prim2SF y) (Prim2SF x)) as [[]|]; reflexivity.
Qed.


(** ** Binary64: exact operations *)

Lemma digits2_size (m : positive) : digits2_pos m = Pos.size m.
Proof. induction m as [m IH|m IH|]; cbn; congruence. Qed.

Lemma digits2_bounds (m : positive) :
  2 ^ (Zpos (digits2_pos m) - 1) <= Zpos m < 2 ^ Zpos (digits2_pos m).
Proof.
  rewrite digits2_size. split.
  - pose proof (Pos.size_le m) as H.
    assert (H2 : 2 ^ Zpos (Pos.size m) <= 2 * Zpos m).
    { change (2 * Zpos m) with (Zpos (m~0)). rewrite <- Pos2Z.inj_pow. exact H. }
    replace (Zpos (Pos.size m)) with (Z.succ (Zpos (Pos.size m) - 1)) in H2 by lia.
    rewrite Z.pow_succ_r in H2 by lia. lia.
  - pose proof (Pos.size_gt m) as H. rewrite <- Pos2Z.inj_pow. exact H.
Qed.

Lemma digits2_unique (m : positive) (d : Z) :
  2 ^ (d - 1) <= Zpos m < 2 ^ d -> Zpos (digits2_pos m) = d.
Proof.
  intros [Hlo Hhi]. pose proof (digits2_bounds m) as [Hlo' Hhi'].
  set (d' := Zpos (digits2_pos m)) in *.
  assert (Hd' : 0 < d') by (unfold d'; lia).
  assert (Hd : 0 < d).
  { destruct (Z_lt_le_dec 0 d) as [H|H]; [exact H|].
    assert (2 ^ d <= 1).
    { destruct (Z.eq_dec d 0) as [->|Hn]; [cbn; lia|].
      rewrite Z.pow_neg_r by lia. lia. }
    lia. }
  destruct (Z.lt_trichotomy d' d) as [H|[H|H]]; [|exact H|].
  - assert (2 ^ d' <= 2 ^ (d - 1)) by (apply Z.pow_le_mono_r; lia). lia.
  - assert (2 ^ d <= 2 ^ (d' - 1)) by (apply Z.pow_le_mono_r; lia). lia.
Qed.











(** ** Binary64: values *)







Lemma units_eight : units 8%float = 2 ^ 1077.
Proof. reflexivity. Qed.



(** ** Mismatch detection *)

Lemma insertByDate_perm (x : Mismatch) (l : list Mismatch) :
  Permutation (insertByDate x l) (x :: l).
Proof.
  induction l as [|y rest IH]; cbn [insertByDate].
  - apply Permutation_refl.
  - destruct (XDate y <? XDate x).
    + eapply perm_trans; [apply perm_skip, IH | apply perm_swap].
    + apply Permutation_refl.
Qed.

Lemma sortByDate_perm (l : list Mismatch) : Permutation (sortByDate l) l.
Proof.
  induction l as [|x rest IH]; cbn [sortByDate fold_right].
  - apply perm_nil.
  - eapply perm_trans; [apply insertByDate_perm | apply perm_skip, IH].
Qed.

Lemma insertByDate_sorted (x : Mismatch) (l : list Mismatch) :
  StronglySorted byDate l -> StronglySorted byDate (insertByDate x l).
Proof.
  induction l as [|y rest IH]; intros Hs; cbn [insertByDate].
  - constructor; constructor.
  - inversion Hs as [|? ? Hrest Hall]; subst.
    destruct (XDate y <? XDate x) eqn:Hle.
    + constructor; [apply IH, Hrest|].
      apply Z.ltb_lt in Hle.
      eapply Permutation_Forall; [apply Permutation_sym, insertByDate_perm|].
      constructor; [unfold byDate; lia | exact Hall].
    + apply Z.ltb_ge in Hle.
      constructor; [exact Hs|].
      constructor; [unfold byDate; lia|].
      eapply Forall_impl; [|exact Hall].
      unfold byDate. intros a Ha. lia.
Qed.

Lemma sortByDate_sorted (l : list Mismatch) : StronglySorted byDate (sortByDate l).
Proof.
  induction l as [|x rest IH]; cbn [sortByDate fold_right].
  - constructor.
  - apply insertByDate_sorted, IH.
Qed.

(** The filter predicate, as a proposition. *)
Lemma isMismatch_iff (r : MergedRow) :
  isMismatch r = true <->
  MDrmisLeaveCode r <> MOracleLeaveCode r
  \/ (MDrmisHours r =? MOracleHours r)%float = false.
Proof.
  unfold isMismatch. rewrite orb_true_iff, !negb_true_iff.
  rewrite String.eqb_neq. reflexivity.
Qed.

Lemma filterMerged_In (leaveCodeWhitelist : option (list string))
      (merged : list MergedRow) (r : MergedRow) :
  In r (filterMerged leaveCodeWhitelist merged)
  <-> In r merged
      /\ (whitelistActive leaveCodeWhitelist = true ->
          whitelistHas leaveCodeWhitelist (trim (MDrmisLeaveCode r)) = true
          \/ whitelistHas leaveCodeWhitelist (trim (MOracleLeaveCode r)) = true).
Proof.
  unfold filterMerged. destruct (whitelistActive leaveCodeWhitelist).
  - rewrite filter_In, orb_true_iff. split.
    + intros [H1 H2]. split; [exact H1 | intros _; exact H2].
    + intros [H1 H2]. split; [exact H1 | apply H2; reflexivity].
  - split; [intros H; split; [exact H | discriminate] | intros [H _]; exact H].
Qed.

(** C3, as stated, fails when a leave-code allow-list is active: the
    DRMIS record of code "01110" (on the list, so the extractor lets it
    through) is merged into a row of code "1110" with no Oracle side, which
    differs in code and in hours, and yet nothing is reported, because
    neither "1110" nor the empty Oracle code is on the list. *)
Lemma C3_allow_list_counterexample :
  let drmisData := [mkDrmis (CNum 12345) 20206 8 "01110"] in
  let merged := mergedRows utcHost drmisData [] in
  merged = [mkMerged 20206 (PNumber 12345) 8 "1110" 0 ""]
  /\ isMismatch (mkMerged 20206 (PNumber 12345) 8 "1110" 0 "") = true
  /\ reconcileData utcHost (Some ["01110"]) drmisData [] = [].
Proof. vm_compute. repeat split. Qed.

(** C3: the reconciler reports exactly the merged rows that pass the
    allow-list filter -- every row when no allow-list is active, and with an
    active one the rows whose DRMIS or Oracle code is on the list -- and
    whose DRMIS and Oracle leave codes differ as strings or whose hours
    differ as numbers; its output is sorted ascending by date; the row with
    hours 8 and 8 and codes "1110" and "1110" is no mismatch, and a change
    of any one of the four values makes it one. *)
Theorem C3_mismatch_detection
        (host : Host) (leaveCodeWhitelist : option (list string))
        (drmisData : list DrmisRecord) (oracleData : list (OracleRecord float)) :
  let merged := mergedRows host drmisData oracleData in
  let out := reconcileData host leaveCodeWhitelist drmisData oracleData in
  (forall m : Mismatch,
      In m out <->
      exists r : MergedRow,
        In r merged
        /\ (whitelistActive leaveCodeWhitelist = true ->
            whitelistHas leaveCodeWhitelist (trim (MDrmisLeaveCode r)) = true
            \/ whitelistHas leaveCodeWhitelist (trim (MOracleLeaveCode r)) = true)
        /\ m = toMismatch r
        /\ (MDrmisLeaveCode r <> MOracleLeaveCode r
            \/ (MDrmisHours r =? MOracleHours r)%float = false))
  /\ StronglySorted (fun a b => XDate a <= XDate b) out
  /\ (forall (date : Z) (pers : persValue),
        isMismatch (mkMerged date pers 8 "1110" 8 "1110") = false)
  /\ (forall (date : Z) (pers : persValue) (h : float) (c : string),
        ((h =? 8)%float = false ->
         isMismatch (mkMerged date pers h "1110" 8 "1110") = true)
        /\ ((h =? 8)%float = false ->
            isMismatch (mkMerged date pers 8 "1110" h "1110") = true)
        /\ (c <> "1110" -> isMismatch (mkMerged date pers 8 c 8 "1110") = true)
        /\ (c <> "1110" -> isMismatch (mkMerged date pers 8 "1110" 8 c) = true)).
Proof.
  intros merged out. repeat split.
  - intros Hin. unfold out, reconcileData, mismatchesOf in Hin. fold merged in Hin.
    apply (Permutation_in _ (sortByDate_perm _)) in Hin.
    apply in_map_iff in Hin. destruct Hin as [r [Hm Hr]].
    apply filter_In in Hr. destruct Hr as [Hr Hmis].
    apply filterMerged_In in Hr. destruct Hr as [Hr Hwl].
    exists r. split; [exact Hr|]. split; [exact Hwl|].
    split; [symmetry; exact Hm | apply isMismatch_iff, Hmis].
  - intros [r [Hr [Hwl [Hm Hdiff]]]]. unfold out, reconcileData, mismatchesOf.
    fold merged.
    apply (Permutation_in _ (Permutation_sym (sortByDate_perm _))).
    apply in_map_iff. exists r. split; [symmetry; exact Hm|].
    apply filter_In. split; [|apply isMismatch_iff, Hdiff].
    apply filterMerged_In. split; [exact Hr | exact Hwl].
  - apply sortByDate_sorted.
  - intros Hh. apply isMismatch_iff. right. cbn [MDrmisHours MOracleHours]. exact Hh.
  - intros Hh. apply isMismatch_iff. right. cbn [MDrmisHours MOracleHours].
    rewrite float_eqb_sym. exact Hh.
  - intros Hc. apply isMismatch_iff. left. cbn. exact Hc.
  - intros Hc. apply isMismatch_iff. left. cbn. congruence.
Qed.

(** ** Edit generation *)

Section EditGeneratorFacts.
Variable host : Host.

Lemma generateCatsEdits_app (before after : list Mismatch) :
  generateCatsEdits host (before ++ after)%list
  = (generateCatsEdits host before ++ generateCatsEdits host after)%list.
Proof. unfold generateCatsEdits. apply flat_map_app. Qed.

(** The test that sends a mismatch to the "Oracle side is empty" branch. *)
Lemma oracle_empty_test (row : Mismatch) :
  ((trim (XOracleLeaveCode row) =? "")%string || (XOracleLeaveCode row =? "0")%string)
    && (XOracleHours row =? zero)%float = true
  <-> (trim (XOracleLeaveCode row) = "" \/ XOracleLeaveCode row = "0")
      /\ (XOracleHours row =? 0)%float = true.
Proof.
  rewrite andb_true_iff, orb_true_iff, !String.eqb_eq. reflexivity.
Qed.

Lemma targetOf_oracle_empty (row : Mismatch) :
  (trim (XOracleLeaveCode row) = "" \/ XOracleLeaveCode row = "0") ->
  (XOracleHours row =? 0)%float = true ->
  targetOf row
  = (if presentCode (XDrmisLeaveCode row) then codeValue (XDrmisLeaveCode row) else AAStr "",
     zero).
Proof.
  intros Hc Hh. unfold targetOf.
  destruct (oracle_empty_test row) as [_ H]. rewrite (H (conj Hc Hh)). reflexivity.
Qed.

Lemma targetOf_oracle_present (row : Mismatch) :
  ~ ((trim (XOracleLeaveCode row) = "" \/ XOracleLeaveCode row = "0")
     /\ (XOracleHours row =? 0)%float = true) ->
  targetOf row
  = (if presentCode (XOracleLeaveCode row) then codeValue (XOracleLeaveCode row)
     else if presentCode (XDrmisLeaveCode row) then codeValue (XDrmisLeaveCode row)
     else AAStr "",
     orZero (XOracleHours row)).
Proof.
  intros Hn. unfold targetOf.
  destruct (((trim (XOracleLeaveCode row) =? "")%string
             || (XOracleLeaveCode row =? "0")%string)
            && (XOracleHours row =? zero)%float) eqn:E; [|reflexivity].
  exfalso. apply Hn. apply oracle_empty_test. exact E.
Qed.

Lemma discrepancyOf_cases (row : Mismatch) :
  discrepancyOf row =
    match negb (XOracleLeaveCode row =? XDrmisLeaveCode row)%string,
          negb (XOracleHours row =? XDrmisHours row)%float with
    | true, true => "Code Mismatch, Hours Mismatch"
    | true, false => "Code Mismatch"
    | false, true => "Hours Mismatch"
    | false, false => ""
    end.
Proof.
  unfold discrepancyOf.
  destruct (negb (XOracleLeaveCode row =? XDrmisLeaveCode row)%string);
    destruct (negb (XOracleHours row =? XDrmisHours row)%float); reflexivity.
Qed.

End EditGeneratorFacts.

(** C4, as stated, fails for a code that begins with digits and is no
    number: the Oracle leave code "VAC" is normalised to "1VAC", and the
    edit generator, which writes the number [parseInt] reads from a code,
    gives the target code 1 -- neither the Oracle code nor the DRMIS code
    nor blank. *)
Lemma C4_code_with_letters_counterexample :
  let row := mkMismatch 20206 (PNumber 12345) "1VAC" 8 "1110" 8 true in
  normalizeOracleCode utcHost (CStr "VAC") = "1VAC"
  /\ fst (targetOf row) = AANum 1
  /\ aaCodeText (fst (targetOf row)) = "1"
  /\ aaCodeText (fst (targetOf row)) <> XOracleLeaveCode row
  /\ aaCodeText (fst (targetOf row)) <> XDrmisLeaveCode row
  /\ aaCodeText (fst (targetOf row)) <> "".
Proof. vm_compute. repeat split; intros H; discriminate H. Qed.

(** C4: for every mismatch of the list the edit generator emits, in
    order, a data row and a total row.  When the Oracle code is blank or
    ["0"] and the Oracle hours are 0, the data row's target code is the DRMIS
    code when that code is present (neither empty nor ["0"]), else blank, and
    its target hours are 0; otherwise the target code is the Oracle code when
    present, else the DRMIS code when present, else blank, and the target
    hours are the Oracle hours ([NaN] counting as 0).  The chosen code is
    written as the number [parseInt] reads from it when it reads one -- the
    code's leading digits -- and as its text otherwise ([codeValue]).  The
    reason joins with [", "] the labels of the differing fields.  The
    DRMIS-only mismatch with code ["1110"], 4.25 hours and an empty Oracle
    side gets code 1110, hours 0 and the reason
    ["Code Mismatch, Hours Mismatch"]. *)
Theorem C4_edit_generation (host : Host) (before after : list Mismatch) (row : Mismatch) :
  let oracleCode := XOracleLeaveCode row in
  let drmisCode := XDrmisLeaveCode row in
  let oracleEmpty :=
    (trim oracleCode = "" \/ oracleCode = "0") /\ (XOracleHours row =? 0)%float = true in
  (exists pers date orig origHours replaced total,
      generateCatsEdits host (before ++ row :: after)%list
      = (generateCatsEdits host before
         ++ [DataRow pers date "" "" (fst (targetOf row)) (snd (targetOf row))
                     (discrepancyOf row) orig origHours replaced;
             TotalRow total]
         ++ generateCatsEdits host after)%list)
  /\ (oracleEmpty ->
      targetOf row
      = (if presentCode drmisCode then codeValue drmisCode else AAStr "", zero))
  /\ (~ oracleEmpty ->
      targetOf row
      = (if presentCode oracleCode then codeValue oracleCode
         else if presentCode drmisCode then codeValue drmisCode
         else AAStr "",
         orZero (XOracleHours row)))
  /\ (forall code : string,
        codeValue code = match parseInt code with
                         | Some num => AANum num
                         | None => AAStr code
                         end)
  /\ discrepancyOf row
     = join ", "
         ((if negb (oracleCode =? drmisCode)%string then ["Code Mismatch"] else [])
          ++ (if negb (XOracleHours row =? XDrmisHours row)%float
              then ["Hours Mismatch"] else []))%list
  /\ (oracleCode <> drmisCode -> (XOracleHours row =? XDrmisHours row)%float = false ->
      discrepancyOf row = "Code Mismatch, Hours Mismatch")
  /\ (oracleCode <> drmisCode -> (XOracleHours row =? XDrmisHours row)%float = true ->
      discrepancyOf row = "Code Mismatch")
  /\ (oracleCode = drmisCode -> (XOracleHours row =? XDrmisHours row)%float = false ->
      discrepancyOf row = "Hours Mismatch")
  /\ (forall (date : Z) (pers : persValue),
        let drmisOnly := mkMismatch date pers "" 0 "1110" 4.25 true in
        targetOf drmisOnly = (AANum 1110, zero)
        /\ discrepancyOf drmisOnly = "Code Mismatch, Hours Mismatch").
Proof.
  intros oracleCode drmisCode oracleEmpty.
  assert (Hcode : forall b : bool,
             negb (oracleCode =? drmisCode)%string = b ->
             if b then oracleCode <> drmisCode else oracleCode = drmisCode).
  { intros [|] Hb.
    - apply negb_true_iff in Hb. apply String.eqb_neq. exact Hb.
    - apply negb_false_iff in Hb. apply String.eqb_eq. exact Hb. }
  split.
  { do 6 eexists. rewrite generateCatsEdits_app.
    change (row :: after) with ([row] ++ after)%list.
    rewrite generateCatsEdits_app. f_equal. f_equal.
    unfold generateCatsEdits. cbn [flat_map]. rewrite app_nil_r.
    unfold catsRowsOf. reflexivity. }
  split; [intros [Hc Hh]; apply targetOf_oracle_empty; assumption|].
  split; [apply targetOf_oracle_present|].
  split; [reflexivity|].
  split; [reflexivity|].
  rewrite discrepancyOf_cases. fold oracleCode drmisCode.
  pose proof (Hcode _ eq_refl) as Hc. clear Hcode.
  destruct (negb (oracleCode =? drmisCode)%string);
    destruct (XOracleHours row =? XDrmisHours row)%float;
    cbn [negb];
    repeat split; try reflexivity; intros; try contradiction; try congruence;
    vm_compute; reflexivity.
Qed.

(** ** Oracle placement *)

Lemma mapKey_eqb_eq (a b : mapKey) : mapKey_eqb a b = true <-> a = b.
Proof.
  destruct a as [d1 p1], b as [d2 p2]. unfold mapKey_eqb. cbn [fst snd].
  rewrite andb_true_iff, Z.eqb_eq, String.eqb_eq.
  split; [intros [-> ->]; reflexivity | intros E; inversion E; auto].
Qed.

Lemma mapKey_eqb_refl (a : mapKey) : mapKey_eqb a a = true.
Proof. apply mapKey_eqb_eq. reflexivity. Qed.

Lemma find_key_of_entries (m : JsMap.t) (date : Z) :
  find (fun k => fst k =? date) (JsMap.keys m)
  = option_map fst (find (fun kv => fst (fst kv) =? date) m).
Proof.
  induction m as [|[k v] rest IH]; [reflexivity|].
  cbn [JsMap.keys map find fst]. destruct (fst k =? date); [reflexivity|].
  exact IH.
Qed.

(** [get] at the key of the matched row returns that row. *)
Lemma get_matched (m : JsMap.t) (date : Z) (k : mapKey) (v : MergedRow) :
  find (fun kv => fst (fst kv) =? date) m = Some (k, v) ->
  JsMap.get m k = Some v.
Proof.
  induction m as [|[k' v'] rest IH]; [discriminate|].
  cbn [find JsMap.get fst]. intros H.
  destruct (fst k' =? date) eqn:E.
  - inversion H; subst. rewrite mapKey_eqb_refl. reflexivity.
  - destruct (mapKey_eqb k' k) eqn:Ek.
    + apply mapKey_eqb_eq in Ek. subst k'.
      apply find_some in H. destruct H as [_ H]. cbn [fst] in H. congruence.
    + apply IH, H.
Qed.



Lemma has_false_of_no_date (m : JsMap.t) (k : mapKey) :
  find (fun kv => fst (fst kv) =? fst k) m = None -> JsMap.has m k = false.
Proof.
  unfold JsMap.has. induction m as [|[k' v'] rest IH]; [reflexivity|].
  cbn [find JsMap.get fst]. intros H.
  destruct (fst k' =? fst k) eqn:E; [discriminate|].
  destruct (mapKey_eqb k' k) eqn:Ek.
  - apply mapKey_eqb_eq in Ek. subst k'. rewrite Z.eqb_refl in E. discriminate.
  - apply IH, H.
Qed.

Section PlacementFacts.
Variable host : Host.
Variable defaultPers : string.





End PlacementFacts.



(** ** Business calendar *)








(** ** Binary64: exact values *)


















(** ** Multi-day expansion below [2^56] hours *)



Lemma n_orZero_float (x : float) : n_orZero FloatOps x = orZero x.
Proof.
  cbn [n_orZero FloatOps]. unfold orZero, truthyNumber.
  destruct (is_nan x || (x =? zero)%float); reflexivity.
Qed.


(** The loop's [Math.min(8, remaining)] is the [Math.min] of the two
    numbers: with 8 as one of them the order of the zeros plays no part. *)
Lemma n_min_eight_Math_min (remaining : float) :
  n_min FloatOps (n_eight FloatOps) remaining = Math_min 8%float remaining.
Proof.
  cbn [n_min n_eight FloatOps]. unfold FloatLit.eight, Math_min.
  destruct (is_nan 8 || is_nan remaining); [reflexivity|].
  rewrite leb_spec, !ltb_spec. unfold SFleb, SFltb.
  rewrite (SFcompare_antisym (Prim2SF 8) (Prim2SF remaining)).
  destruct (SFcompare (Prim2SF 8) (Prim2SF remaining)) as [[]|] eqn:E;
    cbn [option_map CompOpp]; try reflexivity.
  change (isNegZero 8) with false. cbv iota.
  apply Prim2SF_inj.
  change (Prim2SF 8) with (S754_finite false 4503599627370496 (-49)) in *.
  destruct (Prim2SF remaining) as [s|s| |s m e]; cbn [SFcompare] in E;
    try discriminate.
  - destruct s; discriminate.
  - destruct s; [discriminate|].
    destruct (Z.compare_spec (-49) e) as [He|He|He]; try discriminate.
    injection E as E. apply Pos.compare_eq in E. subst. reflexivity.
Qed.















(** ** The expansion of a whole list *)

Lemma float_ltb_not_nan (x y : float) :
  (x <? y)%float = true -> is_nan x = false /\ is_nan y = false.
Proof.
  unfold is_nan. rewrite ltb_spec, !eqb_spec. unfold SFltb, SFeqb.
  destruct (Prim2SF x) as [s|s| |s m e], (Prim2SF y) as [s'|s'| |s' m' e'];
    cbn [SFcompare]; try discriminate; intros _;
    repeat match goal with
           | b : bool |- _ => destruct b
           end;
    rewrite ?Z.compare_refl;
    repeat match goal with
           | |- context [Pos.compare_cont Eq ?a ?a] =>
               change (Pos.compare_cont Eq a a) with (Pos.compare a a);
               rewrite Pos.compare_refl
           end;
    split; reflexivity.
Qed.

Lemma SFcompare_none (x y : float) :
  SFcompare (Prim2SF x) (Prim2SF y) = None -> is_nan x = true \/ is_nan y = true.
Proof.
  unfold is_nan. rewrite !eqb_spec. unfold SFeqb.
  destruct (Prim2SF x) as [s|s| |s m e], (Prim2SF y) as [s'|s'| |s' m' e'];
    cbn [SFcompare]; try discriminate; intros _;
    try (left; reflexivity); try (right; reflexivity).
Qed.

(** Between numbers, what is not [x <= y] is [y < x]. *)
Lemma float_not_leb_ltb (x y : float) :
  is_nan x = false -> is_nan y = false ->
  (x <=? y)%float = false -> (y <? x)%float = true.
Proof.
  intros Hx Hy. rewrite leb_spec, ltb_spec. unfold SFleb, SFltb.
  rewrite (SFcompare_antisym (Prim2SF x) (Prim2SF y)).
  destruct (SFcompare (Prim2SF x) (Prim2SF y)) as [[]|] eqn:E; cbn;
    try discriminate; try reflexivity.
  destruct (SFcompare_none x y E); congruence.
Qed.







Lemma nextBusinessDay_sound (fuel : nat) :
  forall d day, nextBusinessDay fuel d = Some day ->
                d <= day /\ isBusinessDay day = true.
Proof.
  induction fuel as [|f IH]; intros d day; cbn [nextBusinessDay];
    destruct (isBusinessDay d) eqn:E; intros H; try discriminate.
  - injection H as <-. split; [lia | exact E].
  - injection H as <-. split; [lia | exact E].
  - destruct (IH _ _ H) as [Hle Hb]. split; [lia | exact Hb].
Qed.

(** A block is never above 8 hours. *)
Lemma n_min_eight_le (remaining : float) :
  (zero <? remaining)%float = true ->
  (n_min FloatOps 8%float remaining <=? 8)%float = true.
Proof.
  intros Hpos. destruct (float_ltb_not_nan _ _ Hpos) as [_ Hn].
  cbn [n_min FloatOps]. rewrite Hn. change (is_nan 8) with false. cbn [orb].
  destruct (8 <=? remaining)%float eqn:E; [reflexivity|].
  rewrite leb_spec. unfold SFleb.
  pose proof (float_not_leb_ltb 8 remaining eq_refl Hn E) as Hlt.
  rewrite ltb_spec in Hlt. unfold SFltb in Hlt.
  destruct (SFcompare (Prim2SF remaining) (Prim2SF 8)) as [[]|];
    try discriminate; reflexivity.
Qed.

(** Whatever the loop returns lies on business days from its first day on,
    in blocks of at most 8 hours. *)
Lemma expandLoop_records (code : string) (fuel : nat) :
  forall remaining start out,
    expandLoop FloatOps fuel code remaining start = Some out ->
    Forall (fun r => (OracleHours r <=? 8)%float = true
                     /\ OracleLeaveCode r = code
                     /\ start <= ODate r
                     /\ isBusinessDay (ODate r) = true) out.
Proof.
  induction fuel as [|f IH]; intros remaining start out; cbn [expandLoop];
    change (n_gtb FloatOps remaining (n_zero FloatOps)) with (zero <? remaining)%float;
    destruct (zero <? remaining)%float eqn:Hpos; intros H; try discriminate;
    try (injection H as <-; constructor).
  destruct (nextBusinessDay f start) as [day|] eqn:Hday; [|discriminate].
  destruct (expandLoop FloatOps f code
              (n_sub FloatOps remaining (n_min FloatOps (n_eight FloatOps) remaining))
              (day + 1)) as [rest|] eqn:Hrest; [|discriminate].
  injection H as <-.
  destruct (nextBusinessDay_sound _ _ _ Hday) as [Hle Hbus].
  constructor.
  - cbn [OracleHours OracleLeaveCode ODate]. repeat split; try assumption.
    apply (n_min_eight_le remaining Hpos).
  - eapply Forall_impl; [|apply (IH _ _ _ Hrest)]. cbn beta.
    intros r [H1 [H2 [H3 H4]]]. repeat split; try assumption. lia.
Qed.

(** What a row leaves, whenever its expansion returns. *)
Lemma expandRow_records (fuel : nat) (row : OracleRecord float)
      (out : list (OracleRecord float)) :
  expandRow FloatOps fuel row = Some out ->
  Forall (fun r => (OracleHours r <=? 8)%float = true
                   /\ OracleLeaveCode r = OracleLeaveCode row
                   /\ ODate row <= ODate r
                   /\ ((orZero (OracleHours row) <=? 8)%float = false ->
                       isBusinessDay (ODate r) = true)
                   /\ ((orZero (OracleHours row) <=? 8)%float = true ->
                       r = mkOracle (ODate row) (orZero (OracleHours row))
                                    (OracleLeaveCode row))) out.
Proof.
  unfold expandRow. rewrite n_orZero_float.
  change (n_leb FloatOps (orZero (OracleHours row)) (n_eight FloatOps))
    with (orZero (OracleHours row) <=? 8)%float.
  destruct (orZero (OracleHours row) <=? 8)%float eqn:E; intros H.
  - injection H as <-. constructor; [|constructor].
    cbn [OracleHours OracleLeaveCode ODate].
    repeat split; try assumption; try lia; try discriminate;
      intros _; reflexivity.
  - eapply Forall_impl; [|apply (expandLoop_records _ _ _ _ _ H)]. cbn beta.
    intros r [H1 [H2 [H3 H4]]]. repeat split; try assumption; try discriminate.
    intros _. exact H4.
Qed.

Lemma expandOracleEntries_records (fuel : nat) (rows : list (OracleRecord float)) :
  forall out,
    expandOracleEntries FloatOps fuel rows = Some out ->
    forall r, In r out ->
      (OracleHours r <=? 8)%float = true
      /\ exists row,
           In row rows
           /\ OracleLeaveCode r = OracleLeaveCode row
           /\ ODate row <= ODate r
           /\ ((orZero (OracleHours row) <=? 8)%float = false ->
               isBusinessDay (ODate r) = true)
           /\ ((orZero (OracleHours row) <=? 8)%float = true ->
               r = mkOracle (ODate row) (orZero (OracleHours row))
                            (OracleLeaveCode row)).
Proof.
  induction rows as [|row rest IH]; intros out; cbn [expandOracleEntries].
  - intros H. injection H as <-. contradiction.
  - destruct (expandRow FloatOps fuel row) as [a|] eqn:Ha; [|discriminate].
    destruct (expandOracleEntries FloatOps fuel rest) as [b|] eqn:Hb; [|discriminate].
    intros H. injection H as <-. intros r Hin. apply in_app_or in Hin.
    destruct Hin as [Hin|Hin].
    + pose proof (expandRow_records _ _ _ Ha) as Hrec.
      rewrite Forall_forall in Hrec. destruct (Hrec r Hin) as [H1 H2].
      split; [exact H1|]. exists row. split; [left; reflexivity | exact H2].
    + destruct (IH b eq_refl r Hin) as [H1 [row' [Hrow' H2]]].
      split; [exact H1|]. exists row'. split; [right; exact Hrow' | exact H2].
Qed.

(** ** Reallocation *)

Lemma takeAway_length (amount : float) (rs : list DetailEntry) :
  List.length (takeAway amount rs) = List.length rs.
Proof.
  revert amount. induction rs as [|r rest IH]; intros amount; [reflexivity|].
  cbn [takeAway]. destruct (zero <? amount)%float; [|reflexivity].
  cbn [List.length]. rewrite IH. reflexivity.
Qed.

Lemma takeAway_labels (amount : float) (rs : list DetailEntry) :
  map labels (takeAway amount rs) = map labels rs.
Proof.
  revert amount. induction rs as [|r rest IH]; intros amount; [reflexivity|].
  cbn [takeAway]. destruct (zero <? amount)%float; [|reflexivity].
  cbn [map]. rewrite IH. reflexivity.
Qed.

Lemma fold_left_hours (rs : list DetailEntry) (a : float) :
  fold_left (fun s r => s + orZero (hours r))%float rs a
  = fold_left (fun s x => s + orZero x)%float (map hours rs) a.
Proof.
  revert a. induction rs as [|r rest IH]; intros a; [reflexivity|].
  cbn [fold_left map]. apply IH.
Qed.

(** The loop adds to every residual its share and counts the shares. *)
Lemma addShares_spec (total toAdd : float) (rs : list DetailEntry) :
  forall allocated,
    let shares := map (fun a => floor2 (a / total * toAdd)) (map hours rs) in
    map hours (fst (addShares total toAdd rs allocated)) = addEach (map hours rs) shares
    /\ map labels (fst (addShares total toAdd rs allocated)) = map labels rs
    /\ snd (addShares total toAdd rs allocated)
       = fold_left (fun s a => s + a)%float shares allocated.
Proof.
  induction rs as [|r rest IH]; intros allocated; cbn zeta.
  - repeat split.
  - cbn [addShares map addEach fold_left].
    specialize (IH (allocated + floor2 (hours r / total * toAdd))%float).
    cbn zeta in IH.
    destruct (addShares total toAdd rest
                        (allocated + floor2 (hours r / total * toAdd))%float)
      as [rest' allocated'].
    cbn [fst snd] in *. destruct IH as [Hh [Hl Ha]].
    cbn [map hours setHours]. rewrite Hh, Hl, Ha. repeat split.
Qed.

(** The reallocation gives every residual the hours the specification
    says, and changes nothing else. *)
Lemma reallocate_spec (toAdd : float) (rs : list DetailEntry) :
  map hours (reallocate toAdd rs) = spec_hours toAdd (map hours rs)
  /\ map labels (reallocate toAdd rs) = map labels rs.
Proof.
  unfold reallocate, spec_hours. rewrite fold_left_hours.
  fold (spec_total (map hours rs)).
  destruct (zero <? spec_total (map hours rs))%float.
  - destruct (addShares_spec (spec_total (map hours rs)) toAdd rs zero)
      as [Hh [Hl Ha]].
    fold (spec_shares toAdd (map hours rs)) in Hh, Ha.
    fold (sumNumbers (spec_shares toAdd (map hours rs))) in Ha.
    destruct (addShares (spec_total (map hours rs)) toAdd rs zero)
      as [res allocated].
    cbn [fst snd] in Hh, Hl, Ha. subst allocated.
    fold (spec_remainder toAdd (map hours rs)).
    rewrite <- Hh, <- Hl.
    destruct res as [|r rest]; cbn [List.length Nat.ltb Nat.leb map].
    + rewrite andb_false_r. split; reflexivity.
    + rewrite andb_true_r.
      destruct (zero <? spec_remainder toAdd (map hours rs))%float;
        split; reflexivity.
  - destruct rs as [|r rest]; split; reflexivity.
Qed.

Lemma residualsOf_length (i : PrefillInput) :
  List.length (residualsOf i) = List.length (filterCandidates i).
Proof.
  unfold residualsOf, initialResiduals. rewrite takeAway_length, length_map.
  reflexivity.
Qed.

(** C1, as stated, fails when the hours to give back have more than two
    decimals: with one candidate of 1 hour and 0.125 hours to add, the share
    is 0.12, the remainder 0.005 is rounded to 0.01, and the candidate ends
    with 1.13 hours (the binary64 sum [1 + 0.12 + 0.01]), more than
    [1 + 0.125]. *)
Lemma C1_more_than_two_decimals_counterexample :
  isReplaced eighthOfAnHour = false
  /\ (zero <? originalDrmisHours eighthOfAnHour)%float = true
  /\ (leaveHours eighthOfAnHour =? zero)%float = true
  /\ map hours (residualsOf eighthOfAnHour) = [1%float]
  /\ (zero <? spec_total [1%float])%float = true
  /\ spec_shares 0.125 [1%float] = [(12 / 100)%float]
  /\ spec_remainder 0.125 [1%float] = (1 / 100)%float
  /\ exists after,
       option_map (map hours) (finalResiduals eighthOfAnHour) = Some [after]
       /\ after = (1 + 12 / 100 + 1 / 100)%float
       /\ (1 + 0.125 <? after)%float = true
       /\ ~ (valueOf after - valueOf 1 == valueOf (originalDrmisHours eighthOfAnHour))%Q.
Proof.
  repeat (split; [reflexivity|]).
  exists (1 + 12 / 100 + 1 / 100)%float.
  repeat (split; [reflexivity|]).
  vm_compute. discriminate.
Qed.

(** C1 (amended): in the "Oracle removed DRMIS leave" case ([replaced]
    false, positive original DRMIS hours, resolved Oracle hours 0) with
    candidates remaining, the engine leaves every candidate with the hours
    [spec_hours] lists, all in binary64 arithmetic, and changes no other
    field.  When the candidates' available hours have a positive total,
    every candidate receives its share
    [floor(available / total * originalDrmisHours)] to two decimals, and the
    first candidate receives, when it is positive, the remainder
    [originalDrmisHours - sum(shares)] rounded to two decimals.  Otherwise
    the first candidate receives all of [originalDrmisHours].  With 3 and 5
    hours available and 4 hours to add the shares are 1.50 and 2.50, nothing
    remains and the shares add up to 4.  With 2 and 3 hours available and 3
    hours to add the shares are 1.20 and 1.79 and the remainder is 0.01:
    the binary64 product [3 / 5 * 3 * 100] lies below 180. *)
Theorem C1_reallocation (i : PrefillInput)
        (Hnot : isReplaced i = false)
        (Hpos : (zero <? originalDrmisHours i)%float = true)
        (Hzero : (leaveHours i =? zero)%float = true)
        (Hcand : filterCandidates i <> []) :
  let residuals := residualsOf i in
  let available := map hours residuals in
  let toAdd := originalDrmisHours i in
  (exists out,
      finalResiduals i = Some out
      /\ map labels out = map labels residuals
      /\ map hours out = spec_hours toAdd available)
  /\ ((zero <? spec_total available)%float = true ->
      exists a rest s srest,
        available = a :: rest
        /\ spec_shares toAdd available = s :: srest
        /\ spec_hours toAdd available
           = (if (zero <? spec_remainder toAdd available)%float
              then a + s + spec_remainder toAdd available
              else a + s)%float :: addEach rest srest)
  /\ ((zero <? spec_total available)%float = false ->
      exists a rest,
        available = a :: rest
        /\ spec_hours toAdd available = (a + toAdd)%float :: rest)
  /\ (spec_shares 4 [3; 5]%float = [1.5; 2.5]%float
      /\ spec_remainder 4 [3; 5]%float = zero
      /\ spec_hours 4 [3; 5]%float = [4.5; 7.5]%float
      /\ sumNumbers [1.5; 2.5]%float = 4%float)
  /\ (spec_shares 3 [2; 3]%float = [12 / 10; 179 / 100]%float
      /\ spec_remainder 3 [2; 3]%float = (1 / 100)%float
      /\ spec_hours 3 [2; 3]%float = [321 / 100; 479 / 100]%float).
Proof.
  intros residuals available toAdd.
  assert (Hne : available <> []).
  { unfold available, residuals. intros E.
    apply (f_equal (@List.length _)) in E.
    rewrite length_map, residualsOf_length in E.
    destruct (filterCandidates i); [contradiction | discriminate]. }
  split; [|split; [|split; [|split]]].
  - exists (reallocate toAdd residuals).
    destruct (reallocate_spec toAdd residuals) as [Hh Hl].
    split; [|split; [exact Hl | exact Hh]].
    unfold finalResiduals.
    destruct (candidates i) as [|c cs] eqn:Hc.
    { exfalso. apply Hcand. unfold filterCandidates. rewrite Hc.
      destruct (isReplaced i && negb (originalDrmis i =? "")%string); reflexivity. }
    destruct (filterCandidates i) as [|f fs] eqn:Hf; [contradiction|].
    unfold isOracleRemoved. rewrite Hnot, Hpos, Hzero. reflexivity.
  - intros Htotal. unfold spec_hours. rewrite Htotal.
    destruct available as [|a rest] eqn:Ea; [contradiction|].
    unfold spec_shares. cbn [map addEach].
    do 4 eexists. repeat split.
  - intros Htotal. unfold spec_hours. rewrite Htotal.
    destruct available as [|a rest]; [contradiction|].
    do 2 eexists. split; reflexivity.
  - repeat split.
  - repeat split.
Qed.

Lemma C1_witness :
  isReplaced threeAndFive = false
  /\ (zero <? originalDrmisHours threeAndFive)%float = true
  /\ (leaveHours threeAndFive =? zero)%float = true
  /\ filterCandidates threeAndFive <> []
  /\ exists out,
       finalResiduals threeAndFive = Some out
       /\ map labels out = map labels (residualsOf threeAndFive)
       /\ map hours out
          = spec_hours (originalDrmisHours threeAndFive)
                       (map hours (residualsOf threeAndFive)).
Proof.
  assert (Hcand : filterCandidates threeAndFive <> []) by (vm_compute; discriminate).
  split; [reflexivity|]. split; [reflexivity|]. split; [reflexivity|].
  split; [exact Hcand|].
  exact (proj1 (C1_reallocation threeAndFive eq_refl eq_refl eq_refl Hcand)).
Defined.

(** ** Objects *)

Section ObjectFacts.
Context {V : Type}.

Lemma get_some_in_keys (o : JsObject.t V) (x : string) :
  In x (JsObject.keys o) <-> exists v, JsObject.get o x = Some v.
Proof.
  induction o as [|[k v] o IH]; cbn [JsObject.keys map JsObject.get fst In].
  - split; [contradiction | intros [v Hv]; discriminate].
  - destruct (k =? x)%string eqn:E.
    + apply String.eqb_eq in E. split; [intros _; eexists; reflexivity | intros _; left; exact E].
    + apply String.eqb_neq in E. fold (JsObject.keys o). rewrite <- IH.
      split; [intros [H | H]; [contradiction | exact H] | intros H; right; exact H].
Qed.

Lemma existsb_eqb_in (k : string) (l : list string) :
  existsb (String.eqb k) l = true <-> In k l.
Proof.
  rewrite existsb_exists. split.
  - intros [x [Hin Hx]]. apply String.eqb_eq in Hx. subst x. exact Hin.
  - intros Hin. exists k. split; [exact Hin | apply String.eqb_refl].
Qed.

Lemma get_replaceValue (k : string) (v : V) (o : JsObject.t V) (x : string) :
  JsObject.get (JsObject.replaceValue k v o) x
  = if (x =? k)%string
    then match JsObject.get o x with Some _ => Some v | None => None end
    else JsObject.get o x.
Proof.
  induction o as [|[k' v'] o IH]; cbn [JsObject.replaceValue JsObject.get].
  - destruct (x =? k)%string; reflexivity.
  - destruct (k' =? x)%string eqn:E.
    + apply String.eqb_eq in E. subst k'. destruct (x =? k)%string; reflexivity.
    + exact IH.
Qed.

Lemma get_insertIndex (n : Z) (k : string) (v : V) (o : JsObject.t V) (x : string) :
  ~ In k (JsObject.keys o) ->
  JsObject.get (JsObject.insertIndex n k v o) x
  = if (x =? k)%string then Some v else JsObject.get o x.
Proof.
  assert (Hhead : forall o' : JsObject.t V,
             ~ In k (JsObject.keys o') ->
             JsObject.get ((k, v) :: o') x
             = if (x =? k)%string then Some v else JsObject.get o' x).
  { intros o' _. cbn [JsObject.get]. rewrite (String.eqb_sym k x). reflexivity. }
  induction o as [|[k' v'] o IH]; intros Hnot.
  - apply Hhead. exact Hnot.
  - cbn [JsObject.insertIndex].
    destruct (JsObject.arrayIndex k') as [n'|]; [|apply Hhead; exact Hnot].
    destruct (n' <? n); [|apply Hhead; exact Hnot].
    cbn [JsObject.get]. cbn [JsObject.keys map fst In] in Hnot.
    destruct (k' =? x)%string eqn:E.
    + apply String.eqb_eq in E. subst k'.
      destruct (x =? k)%string eqn:E2; [|reflexivity].
      apply String.eqb_eq in E2. subst x. exfalso. apply Hnot. left. reflexivity.
    + apply IH. intros H. apply Hnot. right. exact H.
Qed.

Lemma get_app_one (k : string) (v : V) (o : JsObject.t V) (x : string) :
  ~ In k (JsObject.keys o) ->
  JsObject.get (o ++ [(k, v)])%list x
  = if (x =? k)%string then Some v else JsObject.get o x.
Proof.
  induction o as [|[k' v'] o IH]; intros Hnot; cbn [app JsObject.get].
  - rewrite (String.eqb_sym k x). reflexivity.
  - cbn [JsObject.keys map fst In] in Hnot.
    destruct (k' =? x)%string eqn:E.
    + apply String.eqb_eq in E. subst k'.
      destruct (x =? k)%string eqn:E2; [|reflexivity].
      apply String.eqb_eq in E2. subst x. exfalso. apply Hnot. left. reflexivity.
    + apply IH. intros H. apply Hnot. right. exact H.
Qed.

(** Reading a property after an assignment. *)
Lemma get_set (k : string) (v : V) (o : JsObject.t V) (x : string) :
  JsObject.get (JsObject.set k v o) x
  = if (k =? "__proto__")%string then JsObject.get o x
    else if (x =? k)%string then Some v
    else JsObject.get o x.
Proof.
  unfold JsObject.set. destruct (k =? "__proto__")%string; [reflexivity|].
  destruct (existsb (String.eqb k) (JsObject.keys o)) eqn:Hin.
  - rewrite get_replaceValue. destruct (x =? k)%string eqn:E; [|reflexivity].
    apply String.eqb_eq in E. subst x.
    apply existsb_eqb_in, get_some_in_keys in Hin. destruct Hin as [v' ->]. reflexivity.
  - assert (Hnot : ~ In k (JsObject.keys o)).
    { intros H. apply existsb_eqb_in in H. congruence. }
    destruct (JsObject.arrayIndex k).
    + apply get_insertIndex, Hnot.
    + apply get_app_one, Hnot.
Qed.

End ObjectFacts.

(** ** Column resolution *)










Section ExtractorFacts.
Variable host : Host.
Variable leaveCodeWhitelist : option (list string).







End ExtractorFacts.



(** ** Header detection *)

Section HeaderFacts.
Variable host : Host.

Local Abbreviation score := (rowScore host).

(** The scan returns the incumbent when no row beats it, and otherwise
    the first of the rows with the highest score. *)
Lemma scanRows_spec (rows : list (list cell)) :
  forall (i bestIdx : nat) (bestScore : Z),
    (scanRows host rows i bestIdx bestScore = bestIdx
     /\ forall j, (j < List.length rows)%nat -> score (nth j rows []) <= bestScore)
    \/ (exists j,
           (j < List.length rows)%nat
           /\ scanRows host rows i bestIdx bestScore = (i + j)%nat
           /\ bestScore < score (nth j rows [])
           /\ (forall j', (j' < j)%nat -> score (nth j' rows []) < score (nth j rows []))
           /\ (forall j', (j' < List.length rows)%nat ->
                          score (nth j' rows []) <= score (nth j rows []))).
Proof.
  induction rows as [|r rest IH]; intros i bestIdx bestScore.
  - left. split; [reflexivity | intros j Hj; cbn in Hj; lia].
  - cbn [scanRows]. destruct (bestScore <? score r) eqn:Hbeat.
    + apply Z.ltb_lt in Hbeat. right.
      destruct (IH (S i) i (score r)) as [[Hsame Hall] | [j [Hj [Hres [Hgt [Hfirst Hmax]]]]]].
      * exists 0%nat. cbn [nth List.length].
        split; [lia|]. split; [rewrite Hsame; lia|]. split; [exact Hbeat|].
        split; [intros j' Hj'; lia|].
        intros [|j'] Hj'; [lia|]. apply Hall. lia.
      * exists (S j). cbn [nth List.length].
        split; [lia|]. split; [rewrite Hres; lia|]. split; [lia|].
        split.
        -- intros [|j'] Hj'; [exact Hgt | apply Hfirst; lia].
        -- intros [|j'] Hj'; [lia | apply Hmax; lia].
    + apply Z.ltb_ge in Hbeat.
      destruct (IH (S i) bestIdx bestScore)
        as [[Hsame Hall] | [j [Hj [Hres [Hgt [Hfirst Hmax]]]]]].
      * left. split; [exact Hsame|].
        intros [|j'] Hj'; cbn [nth]; [exact Hbeat | apply Hall; cbn in Hj'; lia].
      * right. exists (S j). cbn [nth List.length].
        split; [lia|]. split; [rewrite Hres; lia|]. split; [exact Hgt|].
        split.
        -- intros [|j'] Hj'; [lia | apply Hfirst; lia].
        -- intros [|j'] Hj'; [lia | apply Hmax; lia].
Qed.

Lemma nonEmptyCount_bounds (r : list cell) :
  0 <= nonEmptyCount host r <= Z.of_nat (List.length r).
Proof.
  unfold nonEmptyCount. split; [lia|].
  apply inj_le. rewrite <- (length_map (normCell host) r). apply filter_length_le.
Qed.

Lemma rowScore_bounds (r : list cell) :
  0 <= score r <= Z.of_nat (List.length r) + 50.
Proof.
  unfold rowScore. pose proof (nonEmptyCount_bounds r).
  destruct (hasKeyword host r); lia.
Qed.

(** The detected row is the earliest row of the highest score among the
    scanned ones. *)
Lemma detectHeaderIndex_argmax (rows : list (list cell)) :
  rows <> [] ->
  let scanned := firstn (Nat.min 30 (List.length rows)) rows in
  let best := detectHeaderIndex host rows in
  (best < List.length scanned)%nat
  /\ (forall j, (j < List.length scanned)%nat ->
                score (nth j scanned []) <= score (nth best scanned []))
  /\ (forall j, (j < best)%nat -> score (nth j scanned []) < score (nth best scanned [])).
Proof.
  intros Hne scanned best. unfold best, detectHeaderIndex. fold scanned.
  destruct (scanRows_spec scanned 0 0 (-1))
    as [[_ Hall] | [j [Hj [Hres [_ [Hfirst Hmax]]]]]].
  - exfalso. assert (Hlen : (0 < List.length scanned)%nat).
    { unfold scanned. rewrite length_firstn. destruct rows; [contradiction | cbn; lia]. }
    specialize (Hall 0%nat Hlen). pose proof (rowScore_bounds (nth 0 scanned [])). lia.
  - rewrite Hres. cbn [Nat.add]. repeat split; assumption.
Qed.

End HeaderFacts.

Lemma nth_of_firstn {A : Type} (n j : nat) (l : list A) (d : A) :
  (j < n)%nat -> nth j (firstn n l) d = nth j l d.
Proof.
  revert j l. induction n as [|n IH]; intros j l Hj; [lia|].
  destruct l as [|x l]; [reflexivity|].
  destruct j as [|j]; [reflexivity|]. cbn [firstn nth]. apply IH. lia.
Qed.

(** C8, as stated, fails on a sheet with a title line: the title row of
    [titledGrid] contains one keyword and the header row four, three data
    rows without a blank cell follow, and both rows score 4 + 50; the
    earlier one, the title, is detected. *)
Lemma C8_title_row_counterexample :
  mostKeywordsAt utcHost titledGrid 1 = true
  /\ keywordCells utcHost (nth 0 titledGrid []) = 1%nat
  /\ keywordCells utcHost (nth 1 titledGrid []) = 4%nat
  /\ List.length (skipn 2 titledGrid) = 3%nat
  /\ forallb (fullRow utcHost) (skipn 1 titledGrid) = true
  /\ rowScore utcHost (nth 0 titledGrid []) = 54
  /\ rowScore utcHost (nth 1 titledGrid []) = 54
  /\ detectHeaderIndex utcHost titledGrid = 0%nat
  /\ detectHeaderIndex utcHost titledGrid <> 1%nat.
Proof. repeat split. vm_compute. discriminate. Qed.

(** C8 (amended): header detection scores each of the first
    [min(30, rowCount)] rows as the count of its non-empty cells plus 50 if
    any cell contains a header keyword, and selects the highest-scoring row,
    the earliest one on a tie.  Consequently a row among the scanned ones
    that contains a keyword and has no empty cell is the detected header row
    whenever no scanned row is wider than it and every earlier row either has
    no keyword or has fewer non-empty cells; the number of keywords in a row
    plays no part.  (So the header of [titledGrid] is detected once its title
    line is removed, or is shorter than the header.) *)
Theorem C8_header_detection (host : Host) (rows : list (list cell)) :
  let scanned := firstn (Nat.min 30 (List.length rows)) rows in
  let best := detectHeaderIndex host rows in
  (forall r : list cell,
      rowScore host r = nonEmptyCount host r + (if hasKeyword host r then 50 else 0))
  /\ (rows <> [] ->
      (best < List.length scanned)%nat
      /\ (forall j, (j < List.length scanned)%nat ->
                    rowScore host (nth j rows []) <= rowScore host (nth best rows []))
      /\ (forall j, (j < best)%nat ->
                    rowScore host (nth j rows []) < rowScore host (nth best rows [])))
  /\ (forall h : nat,
        (h < List.length scanned)%nat ->
        hasKeyword host (nth h rows []) = true ->
        fullRow host (nth h rows []) = true ->
        (forall j, (j < List.length scanned)%nat ->
                   (List.length (nth j rows []) <= List.length (nth h rows []))%nat) ->
        (forall j, (j < h)%nat ->
                   hasKeyword host (nth j rows []) = false
                   \/ nonEmptyCount host (nth j rows []) < nonEmptyCount host (nth h rows [])) ->
        best = h)
  /\ detectHeaderIndex utcHost (skipn 1 titledGrid) = 0%nat
  /\ detectHeaderIndex utcHost ([CStr "Leave report"; CNull; CNull; CNull]
                                  :: skipn 1 titledGrid) = 1%nat.
Proof.
  intros scanned best.
  assert (Hlen : (List.length scanned <= 30)%nat
                 /\ (List.length scanned <= List.length rows)%nat).
  { unfold scanned. rewrite length_firstn. lia. }
  assert (Hnth : forall j, (j < List.length scanned)%nat -> nth j scanned [] = nth j rows []).
  { intros j Hj. unfold scanned. apply nth_of_firstn.
    unfold scanned in Hj. rewrite length_firstn in Hj. lia. }
  assert (Hargmax : rows <> [] ->
            (best < List.length scanned)%nat
            /\ (forall j, (j < List.length scanned)%nat ->
                          rowScore host (nth j rows []) <= rowScore host (nth best rows []))
            /\ (forall j, (j < best)%nat ->
                          rowScore host (nth j rows []) < rowScore host (nth best rows []))).
  { intros Hne. destruct (detectHeaderIndex_argmax host rows Hne) as [Hb [Hmax Hfirst]].
    fold scanned in Hb, Hmax, Hfirst. fold best in Hb, Hmax, Hfirst.
    split; [exact Hb|]. split.
    - intros j Hj. rewrite <- (Hnth j Hj), <- (Hnth best Hb). apply Hmax, Hj.
    - intros j Hj. rewrite <- (Hnth j) by lia. rewrite <- (Hnth best Hb).
      apply Hfirst, Hj. }
  split; [reflexivity|]. split; [exact Hargmax|]. split; [|split; reflexivity].
  intros h Hh Hkey Hfull Hwide Hearlier.
  assert (Hne : rows <> []).
  { intros E. subst rows. cbn in Hh. lia. }
  destruct (Hargmax Hne) as [Hb [Hmax Hfirst]].
  assert (Hscore : rowScore host (nth h rows []) = Z.of_nat (List.length (nth h rows [])) + 50).
  { unfold rowScore. rewrite Hkey. unfold fullRow in Hfull. apply Z.eqb_eq in Hfull. lia. }
  assert (Hcount : nonEmptyCount host (nth h rows []) = Z.of_nat (List.length (nth h rows []))).
  { unfold fullRow in Hfull. apply Z.eqb_eq in Hfull. exact Hfull. }
  destruct (lt_eq_lt_dec best h) as [[Hlt | Heq] | Hgt]; [exfalso | exact Heq | exfalso].
  - pose proof (Hmax h Hh) as Hge.
    pose proof (nonEmptyCount_bounds host (nth best rows [])) as Hbound.
    destruct (Hearlier best Hlt) as [Hno | Hfewer].
    + unfold rowScore in Hge at 2. rewrite Hno in Hge.
      pose proof (Hwide best Hb). lia.
    + unfold rowScore in Hge at 2.
      destruct (hasKeyword host (nth best rows [])); lia.
  - pose proof (Hfirst h Hgt) as Hless.
    pose proof (rowScore_bounds host (nth best rows [])) as Hbound.
    pose proof (Hwide best Hb). lia.
Qed.

(** ** Calendar *)

Lemma doe_bounds (doe : Z) :
  0 <= doe < 146097 ->
  let yoe := (doe - doe / 1460 + doe / 36524 - doe / 146096) / 365 in
  let doy := doe - (365 * yoe + yoe / 4 - yoe / 100) in
  0 <= yoe <= 399 /\ 0 <= doy <= 365.
Proof.
  intros H yoe doy. unfold doy, yoe. Z.div_mod_to_equations; lia.
Qed.

Lemma doy_bounds (doy : Z) :
  0 <= doy <= 365 ->
  let mp := (5 * doy + 2) / 153 in
  0 <= mp <= 11 /\ 1 <= doy - (153 * mp + 2) / 5 + 1.
Proof.
  intros H mp. unfold mp. Z.div_mod_to_equations; lia.
Qed.

Lemma civil_roundtrip (z : Z) :
  let '(y, m, d) := civil_from_days z in
  days_from_civil y m d = z /\ 1 <= m <= 12 /\ 1 <= d.
Proof.
  unfold civil_from_days.
  set (z' := z + 719468).
  set (era := z' / 146097).
  set (doe := z' - era * 146097).
  assert (Hdoe : 0 <= doe < 146097).
  { unfold doe, era. Z.div_mod_to_equations; lia. }
  pose proof (doe_bounds doe Hdoe) as Hb. cbn zeta in Hb.
  set (yoe := (doe - doe / 1460 + doe / 36524 - doe / 146096) / 365) in *.
  set (doy := doe - (365 * yoe + yoe / 4 - yoe / 100)) in *.
  destruct Hb as [[Hy0 Hy1] Hdoy].
  pose proof (doy_bounds doy Hdoy) as Hb. cbn zeta in Hb.
  set (mp := (5 * doy + 2) / 153) in *.
  destruct Hb as [[Hm0 Hm1] Hd].
  set (m := if mp <? 10 then mp + 3 else mp - 9).
  assert (Hm : 1 <= m <= 12 /\ (m + 9) mod 12 = mp
               /\ ((m <=? 2) = true -> 10 <= mp) /\ ((m <=? 2) = false -> mp < 10)).
  { unfold m. destruct (mp <? 10) eqn:E.
    - apply Z.ltb_lt in E. split; [lia|]. split.
      + replace (mp + 3 + 9) with (mp + 1 * 12) by lia.
        rewrite Z.mod_add by lia. apply Z.mod_small. lia.
      + split; intros H; [apply Z.leb_le in H; lia | lia].
    - apply Z.ltb_ge in E. split; [lia|]. split.
      + replace (mp - 9 + 9) with mp by lia. apply Z.mod_small. lia.
      + split; intros H; [lia | apply Z.leb_gt in H; lia]. }
  destruct Hm as [Hm [Hmp [Hjan Hmar]]].
  split; [|split; [exact Hm | exact Hd]].
  unfold days_from_civil. rewrite Hmp.
  assert (Hy : (if m <=? 2
                then (if m <=? 2 then yoe + era * 400 + 1 else yoe + era * 400) - 1
                else (if m <=? 2 then yoe + era * 400 + 1 else yoe + era * 400))
               = yoe + era * 400).
  { destruct (m <=? 2); lia. }
  rewrite Hy.
  assert (Hera : (yoe + era * 400) / 400 = era).
  { rewrite Z.div_add by lia. rewrite Z.div_small by lia. lia. }
  rewrite Hera.
  replace (yoe + era * 400 - era * 400) with yoe by lia.
  unfold doy, doe, z'. lia.
Qed.

Lemma jsMakeDay_civil (y m d : Z) :
  1 <= m <= 12 -> jsMakeDay y (m - 1) d = days_from_civil y m d.
Proof.
  intros Hm. unfold jsMakeDay.
  rewrite (Z.div_small (m - 1) 12) by lia.
  rewrite (Z.mod_small (m - 1) 12) by lia.
  replace (y + 0) with y by lia. replace (m - 1 + 1) with m by lia.
  unfold days_from_civil. lia.
Qed.

(** Rebuilding a date from its own year, month and day gives the same
    day, outside the years 0 to 99 (which [new Date] reads as 1900 to
    1999). *)
Lemma jsNewDate_of_parts (day : Z) :
  ~ (0 <= getFullYear day <= 99) ->
  jsNewDate (getFullYear day) (getMonth day) (getDate day) = day.
Proof.
  intros Hyear. unfold jsNewDate, getFullYear, getMonth, getDate in *.
  pose proof (civil_roundtrip day) as H.
  destruct (civil_from_days day) as [[y m] d]. cbn [fst snd] in *.
  destruct H as [Hday [Hm Hd]].
  assert (Hrule : ((0 <=? y) && (y <=? 99)) = false).
  { destruct (0 <=? y) eqn:E1; [|reflexivity].
    destruct (y <=? 99) eqn:E2; [|reflexivity].
    apply Z.leb_le in E1, E2. exfalso. apply Hyear. lia. }
  rewrite Hrule, jsMakeDay_civil by exact Hm. exact Hday.
Qed.

(** ** Date normalisation *)

Lemma Qtruncate_integer (q : Q) (z : Z) : (q == inject_Z z)%Q -> Qtruncate q = z.
Proof.
  intros E. unfold Qtruncate. destruct (Qle_bool 0 q).
  - rewrite (Qfloor_comp _ _ E). apply Qfloor_Z.
  - rewrite (Qceiling_comp _ _ E). apply Qceiling_Z.
Qed.

(** The instant of a whole serial: so many days after the UTC midnight
    of 1899-12-30. *)
Lemma serial_instant (n : Z) :
  Qtruncate (inject_Z epochMs + (inject_Z n - 0) * inject_Z msPerDay)%Q
  = epochMs + n * msPerDay.
Proof.
  apply Qtruncate_integer. rewrite inject_Z_plus, inject_Z_mult. ring.
Qed.

Section DateFacts.
Variable host : Host.

Lemma normalizeDate_serial (n : Z) :
  normalizeDate host (CNum (inject_Z n))
  = Some (truncateToDay host (epochMs + n * msPerDay)).
Proof. cbn [normalizeDate]. rewrite serial_instant. reflexivity. Qed.

(** At or east of UTC a whole serial [n] is the [n]-th day after
    1899-12-30. *)
Lemma localDay_serial_east (n : Z) :
  0 <= tzOffsetMs host < msPerDay ->
  localDay host (epochMs + n * msPerDay) = days_from_civil 1899 12 30 + n.
Proof.
  intros Htz. unfold localDay.
  change (days_from_civil 1899 12 30) with (-25569).
  change epochMs with (-25569 * msPerDay).
  replace (-25569 * msPerDay + n * msPerDay + tzOffsetMs host)
    with (tzOffsetMs host + (-25569 + n) * msPerDay) by ring.
  rewrite Z.div_add by (unfold msPerDay; lia).
  rewrite Z.div_small by exact Htz. lia.
Qed.

(** West of UTC the same instant still belongs to the day before. *)
Lemma localDay_serial_west (n : Z) :
  - msPerDay <= tzOffsetMs host < 0 ->
  localDay host (epochMs + n * msPerDay) = days_from_civil 1899 12 30 + n - 1.
Proof.
  intros Htz. unfold localDay.
  change (days_from_civil 1899 12 30) with (-25569).
  change epochMs with (-25569 * msPerDay).
  replace (-25569 * msPerDay + n * msPerDay + tzOffsetMs host)
    with ((tzOffsetMs host + msPerDay) + (-25569 + n - 1) * msPerDay) by ring.
  rewrite Z.div_add by (unfold msPerDay; lia).
  rewrite Z.div_small by lia. lia.
Qed.

(** A native date is cut down to its local calendar day. *)
Lemma truncateToDay_localDay (t : Z) :
  ~ (0 <= getFullYear (localDay host t) <= 99) ->
  truncateToDay host t = localDay host t.
Proof. intros H. unfold truncateToDay. apply jsNewDate_of_parts, H. Qed.

(** What C6 says and the code does on every host: the four string
    patterns in their order, day-first for the first two and month-first for
    the third; the truncation of a native date to its calendar day; and, on a
    host at or east of UTC, the serial count from 1899-12-30. *)
Lemma normalizeDate_spec :
  normalizeDate host (CStr "28.04.2025") = Some (days_from_civil 2025 4 28)
  /\ normalizeDate host (CStr "2025-04-28") = Some (days_from_civil 2025 4 28)
  /\ normalizeDate host (CStr "28-04-2025") = Some (days_from_civil 2025 4 28)
  /\ normalizeDate host (CStr "04/28/2025") = Some (days_from_civil 2025 4 28)
  /\ normalizeDate host (CStr "1.2.2025") = Some (days_from_civil 2025 2 1)
  /\ normalizeDate host (CStr "1-2-2025") = Some (days_from_civil 2025 2 1)
  /\ normalizeDate host (CStr "1/2/2025") = Some (days_from_civil 2025 1 2)
  /\ normalizeDate host (CStr "not a date") = option_map (truncateToDay host)
                                                (Date_parse host "not a date")
  /\ (forall t : Z,
        ~ (0 <= getFullYear (localDay host t) <= 99) ->
        normalizeDate host (CDate t) = Some (localDay host t))
  /\ (0 <= tzOffsetMs host < msPerDay ->
      forall n : Z,
        ~ (0 <= getFullYear (days_from_civil 1899 12 30 + n) <= 99) ->
        normalizeDate host (CNum (inject_Z n)) = Some (days_from_civil 1899 12 30 + n))
  /\ (0 <= tzOffsetMs host < msPerDay ->
      normalizeDate host (CNum 1) = Some (days_from_civil 1899 12 31)).
Proof.
  do 7 (split; [reflexivity|]).
  split; [cbv - [truncateToDay Date_parse]; destruct (Date_parse host "not a date");
          reflexivity|].
  split; [intros t Ht; cbn [normalizeDate]; rewrite truncateToDay_localDay by exact Ht;
          reflexivity|].
  assert (Hserial : 0 <= tzOffsetMs host < msPerDay ->
            forall n : Z,
              ~ (0 <= getFullYear (days_from_civil 1899 12 30 + n) <= 99) ->
              normalizeDate host (CNum (inject_Z n)) = Some (days_from_civil 1899 12 30 + n)).
  { intros Htz n Hn. rewrite normalizeDate_serial.
    rewrite truncateToDay_localDay; rewrite localDay_serial_east by exact Htz;
      [reflexivity | exact Hn]. }
  split; [exact Hserial|].
  intros Htz. apply (Hserial Htz 1). vm_compute. intros [_ H]. apply H. reflexivity.
Qed.

(** West of UTC every whole serial lands one day early. *)
Lemma normalizeDate_serial_west (n : Z) :
  - msPerDay <= tzOffsetMs host < 0 ->
  ~ (0 <= getFullYear (days_from_civil 1899 12 30 + n - 1) <= 99) ->
  normalizeDate host (CNum (inject_Z n)) = Some (days_from_civil 1899 12 30 + n - 1).
Proof.
  intros Htz Hn. rewrite normalizeDate_serial.
  rewrite truncateToDay_localDay; rewrite localDay_serial_west by exact Htz;
    [reflexivity | exact Hn].
Qed.

End DateFacts.

(** C6 at the failing input: on a host whose local time is behind UTC
    (Ottawa, five hours) the serial 1 is normalised to 1899-12-30, not to
    1899-12-31, and the serial 45775 of 2025-04-28 to 2025-04-27: the epoch
    is taken at UTC midnight, the calendar day is then read in local time.
    The same holds on every host behind UTC. *)
Theorem C6_serial_one_west_of_utc :
  normalizeDate ottawaHost (CNum 1) = Some (days_from_civil 1899 12 30)
  /\ normalizeDate ottawaHost (CNum 1) <> Some (days_from_civil 1899 12 31)
  /\ normalizeDate ottawaHost (CNum 45775) = Some (days_from_civil 2025 4 27)
  /\ (forall host : Host,
        - msPerDay <= tzOffsetMs host < 0 ->
        normalizeDate host (CNum 1) = Some (days_from_civil 1899 12 30)).
Proof.
  split; [vm_compute; reflexivity|].
  split; [vm_compute; intros H; discriminate H|].
  split; [vm_compute; reflexivity|].
  intros host Htz.
  change (CNum 1) with (CNum (inject_Z 1)).
  rewrite (normalizeDate_serial_west host 1 Htz); [reflexivity|].
  vm_compute. intros [_ H]. apply H. reflexivity.
Qed.

(** ** What the expansion keeps *)




(** ** What the extractors let through *)

Lemma normalizeLeaveCodeRaw_nonempty (host : Host) (raw : cell) :
  normalizeLeaveCodeRaw host raw <> "".
Proof.
  unfold normalizeLeaveCodeRaw.
  destruct (isNullish raw || (trim (jsString host raw) =? "")%string
            || (trim (jsString host raw) =? "-")%string) eqn:Hb; [discriminate|].
  apply orb_false_iff in Hb. destruct Hb as [Hb _].
  apply orb_false_iff in Hb. destruct Hb as [_ Hb]. apply String.eqb_neq in Hb.
  destruct (stripNonDigits (trim (jsString host raw)) =? "")%string eqn:Hd.
  - exact Hb.
  - apply String.eqb_neq in Hd. exact Hd.
Qed.

Lemma flat_map_at_most_one {A B : Type} (f : A -> list B) (l : list A) :
  (forall x, (List.length (f x) <= 1)%nat) ->
  (List.length (flat_map f l) <= List.length l)%nat.
Proof.
  intros H. induction l as [|x l IH]; [cbn; lia|].
  cbn [flat_map]. rewrite length_app. cbn [List.length]. specialize (H x). lia.
Qed.

(** X3: a record extracted from the DRMIS sheet never carries a leave
    code that is empty or starts with "30", and with an active allow-list its
    code ("0", or the code's digits) is on the list; no more records are
    extracted than the sheet has rows. *)
Theorem drmis_extraction_filters
        (host : Host) (leaveCodeWhitelist : option (list string))
        (rowsObjects : list obj) (records : list DrmisRecord)
        (Hok : extractDrmisData host leaveCodeWhitelist rowsObjects = Ok records) :
  Forall (fun rec =>
            DrmisLeaveCode rec <> ""
            /\ startsWith (DrmisLeaveCode rec) "30" = false
            /\ (whitelistActive leaveCodeWhitelist = true ->
                whitelistHas leaveCodeWhitelist
                  (if (DrmisLeaveCode rec =? "0")%string then "0"
                   else stripNonDigits (DrmisLeaveCode rec)) = true))
         records
  /\ (List.length records <= List.length rowsObjects)%nat.
Proof.
  unfold extractDrmisData in Hok.
  destruct rowsObjects as [|first rest].
  { inversion Hok. split; [constructor | cbn; lia]. }
  match type of Hok with
  | (if ?c then _ else Ok (flat_map ?f ?l)) = _ =>
      destruct c; [discriminate|]; set (rowOf := f) in *
  end.
  injection Hok as Hrec. subst records.
  assert (Hrow : forall r rec, In rec (rowOf r) ->
             DrmisLeaveCode rec <> ""
             /\ startsWith (DrmisLeaveCode rec) "30" = false
             /\ (whitelistActive leaveCodeWhitelist = true ->
                 whitelistHas leaveCodeWhitelist
                   (if (DrmisLeaveCode rec =? "0")%string then "0"
                    else stripNonDigits (DrmisLeaveCode rec)) = true)).
  { intros r rec Hin. unfold rowOf, drmisRow in Hin.
    destruct (normalizeDate host _) as [date|]; [|contradiction].
    match type of Hin with
    | context [normalizeLeaveCodeRaw host ?v] =>
        pose proof (normalizeLeaveCodeRaw_nonempty host v) as Hne;
        set (leaveStr := normalizeLeaveCodeRaw host v) in *
    end.
    destruct (startsWith leaveStr "30") eqn:H30; [contradiction|].
    destruct (whitelistActive leaveCodeWhitelist) eqn:Hwl; cbn [andb] in Hin.
    - destruct (whitelistHas leaveCodeWhitelist _) eqn:Hhas; cbn [negb] in Hin;
        [|contradiction].
      destruct Hin as [<- | []]. cbn [DrmisLeaveCode].
      split; [exact Hne|]. split; [exact H30|]. intros _. exact Hhas.
    - destruct Hin as [<- | []]. cbn [DrmisLeaveCode].
      split; [exact Hne|]. split; [exact H30|]. intros; discriminate. }
  assert (Hlen : forall r, (List.length (rowOf r) <= 1)%nat).
  { intros r. unfold rowOf, drmisRow.
    destruct (normalizeDate host _); [|cbn; lia].
    destruct (startsWith _ "30"); [cbn; lia|].
    destruct (whitelistActive leaveCodeWhitelist && _); cbn; lia. }
  split.
  - apply Forall_forall. intros rec Hin.
    change (In rec (flat_map rowOf (first :: rest))) in Hin.
    apply in_flat_map in Hin.
    destruct Hin as [r [_ Hin]]. apply (Hrow r rec Hin).
  - change (List.length (flat_map rowOf (first :: rest))
            <= List.length (first :: rest))%nat.
    apply flat_map_at_most_one, Hlen.
Qed.

Lemma drmis_extraction_filters_witness :
  Forall (fun rec =>
            DrmisLeaveCode rec <> ""
            /\ startsWith (DrmisLeaveCode rec) "30" = false
            /\ (whitelistActive sampleWhitelist = true ->
                whitelistHas sampleWhitelist
                  (if (DrmisLeaveCode rec =? "0")%string then "0"
                   else stripNonDigits (DrmisLeaveCode rec)) = true))
         [mkDrmis (CNum 12345) 20206 4.25 "1110"]
  /\ (1 <= 1)%nat.
Proof.
  apply (drmis_extraction_filters utcHost sampleWhitelist [sampleDrmisRow]
           [mkDrmis (CNum 12345) 20206 4.25 "1110"]).
  vm_compute. reflexivity.
Defined.

Lemma oracleKeyOf_nonempty (norm : string) : norm <> "" -> oracleKeyOf norm <> "".
Proof.
  intros H. unfold oracleKeyOf.
  destruct (norm =? "0")%string; [discriminate|].
  destruct (String.length norm =? 3)%nat; [discriminate|].
  destruct (String.length norm =? 4)%nat; exact H.
Qed.

Lemma oracleRow_passes (host : Host) (leaveCodeWhitelist : option (list string))
      (k1 k2 k3 : option string) (r : obj) (rec : OracleRecord float) :
  In rec (oracleRow host leaveCodeWhitelist k1 k2 k3 r) ->
  oraclePasses leaveCodeWhitelist (OracleLeaveCode rec).
Proof.
  unfold oracleRow. intros Hin.
  destruct (normalizeDate host _) as [d|]; [|contradiction].
  assert (Hne : normalizeOracleCode host (field r k3) <> "").
  { apply oracleKeyOf_nonempty, normalizeLeaveCodeRaw_nonempty. }
  set (oracleKey := normalizeOracleCode host (field r k3)) in *.
  destruct (existsb (String.eqb oracleKey) ["1200"; "1260"; "1261"; "1660"]) eqn:Hex;
    [contradiction|].
  destruct (whitelistActive leaveCodeWhitelist) eqn:Hwl; cbn [andb] in Hin.
  - destruct (oracleKey =? "0")%string eqn:H0;
      destruct (whitelistHas leaveCodeWhitelist oracleKey) eqn:Hhas;
      cbn [negb andb orb In] in Hin; try contradiction.
    destruct Hin as [<- | []]. cbn [OracleLeaveCode]. unfold oraclePasses.
    split; [exact Hne|]. split; [exact Hex|]. intros _.
    split; [exact Hhas | apply String.eqb_neq, H0].
  - destruct Hin as [<- | []]. cbn [OracleLeaveCode]. unfold oraclePasses.
    split; [exact Hne|]. split; [exact Hex|]. intros Hc. rewrite Hwl in Hc. discriminate.
Qed.

(** X4: a record extracted from the Oracle sheet has at most 8 hours, a
    leave code that is not empty and not one of 1200, 1260, 1261 and 1660,
    and, with an active allow-list, a code that is on the list and is not
    "0". *)
Theorem oracle_extraction_filters
        (host : Host) (leaveCodeWhitelist : option (list string)) (fuel : nat)
        (rowsObjects : list obj) (records : list (OracleRecord float))
        (Hok : extractOracleData host leaveCodeWhitelist fuel rowsObjects
               = Some (Ok records)) :
  Forall (fun rec =>
            (OracleHours rec <=? 8)%float = true
            /\ OracleLeaveCode rec <> ""
            /\ existsb (String.eqb (OracleLeaveCode rec))
                       ["1200"; "1260"; "1261"; "1660"] = false
            /\ (whitelistActive leaveCodeWhitelist = true ->
                whitelistHas leaveCodeWhitelist (OracleLeaveCode rec) = true
                /\ OracleLeaveCode rec <> "0"))
         records.
Proof.
  unfold extractOracleData in Hok.
  destruct rowsObjects as [|first rest].
  { inversion Hok. constructor. }
  match type of Hok with
  | (if ?c then _ else option_map Ok (expandOracleEntries FloatOps fuel ?pre)) = _ =>
      destruct c; [discriminate|]; set (out := pre) in *
  end.
  destruct (expandOracleEntries FloatOps fuel out) as [expanded|] eqn:Hrun;
    [|discriminate].
  cbn [option_map] in Hok. injection Hok as Hrec. subst records.
  apply Forall_forall. intros rec Hin.
  destruct (expandOracleEntries_records fuel out expanded Hrun rec Hin)
    as [Hle [row [Hrow [Hcode _]]]].
  split; [exact Hle|]. rewrite Hcode.
  unfold out in Hrow. apply in_flat_map in Hrow. destruct Hrow as [r [_ Hr]].
  apply (oracleRow_passes _ _ _ _ _ _ _ Hr).
Qed.

Lemma oracle_extraction_filters_witness :
  Forall (fun rec =>
            (OracleHours rec <=? 8)%float = true
            /\ OracleLeaveCode rec <> ""
            /\ existsb (String.eqb (OracleLeaveCode rec))
                       ["1200"; "1260"; "1261"; "1660"] = false
            /\ (whitelistActive sampleWhitelist = true ->
                whitelistHas sampleWhitelist (OracleLeaveCode rec) = true
                /\ OracleLeaveCode rec <> "0"))
         [mkOracle 20206 8%float "1110"; mkOracle 20207 8%float "1110";
          mkOracle 20208 4%float "1110"].
Proof.
  apply (oracle_extraction_filters utcHost sampleWhitelist 8 [sampleOracleRow]).
  vm_compute. reflexivity.
Defined.

(** ** The reconciler's map *)

Lemma JsMap_get_app_one (m : JsMap.t) (k x : mapKey) (v : MergedRow) :
  JsMap.get (m ++ [(k, v)])%list x
  = match JsMap.get m x with
    | Some y => Some y
    | None => if mapKey_eqb k x then Some v else None
    end.
Proof.
  induction m as [|[k' v'] m IH]; cbn [app JsMap.get]; [reflexivity|].
  destruct (mapKey_eqb k' x); [reflexivity | exact IH].
Qed.

Lemma JsMap_keys_replaceValue (k : mapKey) (v : MergedRow) (m : JsMap.t) :
  JsMap.keys (JsMap.replaceValue k v m) = JsMap.keys m.
Proof.
  induction m as [|[k' v'] m IH]; [reflexivity|].
  cbn [JsMap.replaceValue JsMap.keys map fst]. f_equal. exact IH.
Qed.

Lemma JsMap_has_in_keys (m : JsMap.t) (k : mapKey) :
  JsMap.has m k = true <-> In k (JsMap.keys m).
Proof.
  unfold JsMap.has. induction m as [|[k' v'] m IH]; cbn [JsMap.get JsMap.keys map fst In].
  - split; [discriminate | contradiction].
  - destruct (mapKey_eqb k' k) eqn:E.
    + apply mapKey_eqb_eq in E. split; [intros _; left; exact E | reflexivity].
    + fold (JsMap.keys m). rewrite IH. split; [intros H; right; exact H|].
      intros [H | H]; [|exact H]. apply mapKey_eqb_eq in H. congruence.
Qed.

Lemma NoDup_snoc {A : Type} (x : A) (l : list A) :
  ~ In x l -> NoDup l -> NoDup (l ++ [x])%list.
Proof.
  intros Hx Hl. induction Hl as [|y l Hy Hl IH]; cbn [app].
  - constructor; [intros [] | constructor].
  - constructor.
    + intros Hin. apply in_app_or in Hin. destruct Hin as [Hin | [E | []]].
      * contradiction.
      * subst y. apply Hx. left. reflexivity.
    + apply IH. intros Hin. apply Hx. right. exact Hin.
Qed.

Section MapFacts.
Variable host : Host.

Lemma get_seedDrmis (m : JsMap.t) (r : DrmisRecord) (x : mapKey) :
  JsMap.get (seedDrmis host m r) x
  = match JsMap.get m x with
    | Some y => Some y
    | None => if mapKey_eqb (keyFor host (DDate r) (PersNo r)) x
              then Some (seedRow r) else None
    end.
Proof.
  unfold seedDrmis. set (k := keyFor host (DDate r) (PersNo r)).
  destruct (JsMap.has m k) eqn:Hhas; cbn [negb].
  - destruct (JsMap.get m x) eqn:Hx; [reflexivity|].
    destruct (mapKey_eqb k x) eqn:E; [|reflexivity].
    apply mapKey_eqb_eq in E. subst x. unfold JsMap.has in Hhas. rewrite Hx in Hhas.
    discriminate.
  - unfold JsMap.set. rewrite Hhas. apply JsMap_get_app_one.
Qed.

Lemma get_seeded (drmisData : list DrmisRecord) :
  forall (m : JsMap.t) (x : mapKey),
    JsMap.get (fold_left (seedDrmis host) drmisData m) x
    = match JsMap.get m x with
      | Some y => Some y
      | None =>
          option_map seedRow
            (find (fun r => mapKey_eqb (keyFor host (DDate r) (PersNo r)) x) drmisData)
      end.
Proof.
  induction drmisData as [|r rest IH]; intros m x; cbn [fold_left find].
  - destruct (JsMap.get m x); reflexivity.
  - rewrite IH, get_seedDrmis.
    destruct (JsMap.get m x); [reflexivity|].
    destruct (mapKey_eqb (keyFor host (DDate r) (PersNo r)) x); reflexivity.
Qed.

(** X5: after the DRMIS records are seeded, the map holds under every
    key (date and employee text) the row of the first DRMIS record with that
    key -- later records of the same day and employee are ignored -- and
    nothing under a key no record has. *)
Theorem seeding_keeps_first_record (drmisData : list DrmisRecord) (key : mapKey) :
  JsMap.get (fold_left (seedDrmis host) drmisData []) key
  = option_map seedRow
      (find (fun r => mapKey_eqb (keyFor host (DDate r) (PersNo r)) key) drmisData).
Proof. rewrite get_seeded. reflexivity. Qed.

Lemma seedDrmis_invariant (m : JsMap.t) (r : DrmisRecord) :
  NoDup (JsMap.keys m) /\ keyedByDate m ->
  NoDup (JsMap.keys (seedDrmis host m r)) /\ keyedByDate (seedDrmis host m r).
Proof.
  intros [Hnd Hkd]. unfold seedDrmis.
  set (k := keyFor host (DDate r) (PersNo r)).
  destruct (JsMap.has m k) eqn:Hhas; cbn [negb]; [split; assumption|].
  unfold JsMap.set. rewrite Hhas. split.
  - unfold JsMap.keys. rewrite map_app. cbn [map fst].
    apply NoDup_snoc; [|exact Hnd].
    intros Hin. apply JsMap_has_in_keys in Hin. congruence.
  - unfold keyedByDate. apply Forall_app. split; [exact Hkd|].
    constructor; [reflexivity | constructor].
Qed.

Lemma keyedByDate_replaceValue (k : mapKey) (v : MergedRow) (m : JsMap.t) :
  fst k = MDate v -> keyedByDate m -> keyedByDate (JsMap.replaceValue k v m).
Proof.
  intros Hk. unfold keyedByDate. induction 1 as [|[k' v'] m Hkv _ IH]; [constructor|].
  cbn [JsMap.replaceValue]. constructor; [|exact IH]. cbn [fst snd] in *.
  destruct (mapKey_eqb k' k) eqn:E; [|exact Hkv].
  apply mapKey_eqb_eq in E. subst k'. exact Hk.
Qed.

Lemma placeOracle_invariant (defaultPers : string) (m : JsMap.t) (r : OracleRecord float) :
  NoDup (JsMap.keys m) /\ keyedByDate m ->
  NoDup (JsMap.keys (placeOracle defaultPers m r))
  /\ keyedByDate (placeOracle defaultPers m r).
Proof.
  intros [Hnd Hkd]. unfold placeOracle. rewrite find_key_of_entries.
  destruct (find (fun kv => fst (fst kv) =? ODate r) m) as [[k e]|] eqn:Hfind.
  - cbn [option_map fst]. rewrite (get_matched _ _ _ _ Hfind).
    unfold JsMap.set, JsMap.has. rewrite (get_matched _ _ _ _ Hfind). split.
    + rewrite JsMap_keys_replaceValue. exact Hnd.
    + apply keyedByDate_replaceValue; [|exact Hkd]. cbn [MDate].
      apply find_some in Hfind. destruct Hfind as [Hin _].
      unfold keyedByDate in Hkd. rewrite Forall_forall in Hkd.
      apply (Hkd _ Hin).
  - cbn [option_map]. unfold JsMap.set.
    rewrite (has_false_of_no_date m (ODate r, defaultPers)) by exact Hfind. split.
    + unfold JsMap.keys. rewrite map_app. cbn [map fst].
      apply NoDup_snoc; [|exact Hnd].
      intros Hin. apply JsMap_has_in_keys in Hin.
      rewrite (has_false_of_no_date m (ODate r, defaultPers)) in Hin by exact Hfind.
      discriminate.
    + unfold keyedByDate. apply Forall_app. split; [exact Hkd|].
      constructor; [reflexivity | constructor].
Qed.

Lemma buildMap_invariant
      (drmisData : list DrmisRecord) (oracleData : list (OracleRecord float)) :
  NoDup (JsMap.keys (buildMap host drmisData oracleData))
  /\ keyedByDate (buildMap host drmisData oracleData).
Proof.
  unfold buildMap.
  assert (Hseed : forall ds m, NoDup (JsMap.keys m) /\ keyedByDate m ->
            NoDup (JsMap.keys (fold_left (seedDrmis host) ds m))
            /\ keyedByDate (fold_left (seedDrmis host) ds m)).
  { induction ds as [|r ds IH]; intros m Hm; [exact Hm|].
    cbn [fold_left]. apply IH, seedDrmis_invariant, Hm. }
  assert (Hplace : forall os m, NoDup (JsMap.keys m) /\ keyedByDate m ->
            NoDup (JsMap.keys (fold_left (placeOracle (defaultPersOf host drmisData)) os m))
            /\ keyedByDate (fold_left (placeOracle (defaultPersOf host drmisData)) os m)).
  { induction os as [|r os IH]; intros m Hm; [exact Hm|].
    cbn [fold_left]. apply IH, placeOracle_invariant, Hm. }
  apply Hplace, Hseed. split; constructor.
Qed.

(** X6: the map the reconciler builds never holds two rows under one
    key, every row sits under a key of the row's own date, and the merged
    rows are as many as the keys. *)
Theorem reconciler_map_invariant
        (drmisData : list DrmisRecord) (oracleData : list (OracleRecord float)) :
  NoDup (JsMap.keys (buildMap host drmisData oracleData))
  /\ keyedByDate (buildMap host drmisData oracleData)
  /\ List.length (mergedRows host drmisData oracleData)
     = List.length (JsMap.keys (buildMap host drmisData oracleData)).
Proof.
  destruct (buildMap_invariant drmisData oracleData) as [Hnd Hkd].
  repeat split; [exact Hnd | exact Hkd |].
  unfold mergedRows, JsMap.values, JsMap.keys. rewrite !length_map. reflexivity.
Qed.

End MapFacts.

Section CoverageFacts.
Variable host : Host.






End CoverageFacts.

(** ** The entry picked to prefill a row *)

Lemma labels_initialResiduals (i : PrefillInput) :
  map labels (initialResiduals i) = map labels (filterCandidates i).
Proof.
  unfold initialResiduals. rewrite map_map. apply map_ext. intros c. reflexivity.
Qed.

Lemma labels_finalResiduals (i : PrefillInput) (residuals : list DetailEntry) :
  finalResiduals i = Some residuals ->
  map labels residuals = map labels (filterCandidates i).
Proof.
  intros H.
  assert (Hr : residuals
               = if isOracleRemoved i
                 then reallocate (originalDrmisHours i) (residualsOf i)
                 else takeAway (if isReplaced i then zero
                                else Math_max zero (leaveHours i - existingEditableHours i))
                               (residualsOf i)).
  { unfold finalResiduals in H. destruct (candidates i); [discriminate|].
    destruct (filterCandidates i); [discriminate|]. congruence. }
  rewrite Hr. unfold residualsOf. destruct (isOracleRemoved i).
  - rewrite (proj2 (reallocate_spec _ _)), takeAway_labels.
    apply labels_initialResiduals.
  - rewrite !takeAway_labels. apply labels_initialResiduals.
Qed.

(** X9: the entry chosen to prefill a new row has more than zero
    hours and carries the work order, activity and A/A type of one of the
    day's DRMIS entries; the digits of its A/A type are never those of the
    row's leave code, nor, on a replaced row with an original DRMIS code,
    those of that code. *)
Theorem prefill_pick_is_work_entry (i : PrefillInput) (pick : DetailEntry)
        (Hpick : prefillPick i = Some pick) :
  (zero <? hours pick)%float = true
  /\ (exists c, In c (candidates i) /\ labels c = labels pick)
  /\ stripNonDigits (aatype pick) <> stripNonDigits (leaveCode i)
  /\ (isReplaced i = true -> originalDrmis i <> "" ->
      stripNonDigits (aatype pick) <> stripNonDigits (originalDrmis i)).
Proof.
  unfold prefillPick in Hpick.
  destruct (finalResiduals i) as [residuals|] eqn:Hres; [|discriminate].
  apply find_some in Hpick. destruct Hpick as [Hin Hpos].
  split; [exact Hpos|].
  apply labels_finalResiduals in Hres.
  assert (Hc : exists c, In c (filterCandidates i) /\ labels c = labels pick).
  { apply (in_map labels) in Hin. rewrite Hres in Hin.
    apply in_map_iff in Hin. destruct Hin as [c [Hl Hc]]. exists c. split; assumption. }
  destruct Hc as [c [Hcin Hlab]].
  assert (Haa : aatype c = aatype pick).
  { unfold labels in Hlab. congruence. }
  rewrite <- Haa. unfold filterCandidates in Hcin.
  destruct (isReplaced i && negb (originalDrmis i =? "")%string) eqn:Hrep;
    apply filter_In in Hcin; destruct Hcin as [Hcand Hkeep].
  - cbn zeta in Hkeep. apply andb_true_iff in Hkeep. destruct Hkeep as [H1 H2].
    apply negb_true_iff, String.eqb_neq in H1, H2.
    split; [exists c; split; assumption|]. split; [exact H1|]. intros _ _. exact H2.
  - apply negb_true_iff, String.eqb_neq in Hkeep.
    split; [exists c; split; assumption|]. split; [exact Hkeep|].
    intros Hr Ho. apply String.eqb_neq in Ho. rewrite Hr, Ho in Hrep. discriminate.
Qed.

Lemma prefill_pick_is_work_entry_witness :
  prefillPick twoWorkEntries = Some (mkEntry "4000123" "0010" "0" 1)
  /\ (zero <? hours (mkEntry "4000123" "0010" "0" 1))%float = true.
Proof.
  assert (H : prefillPick twoWorkEntries = Some (mkEntry "4000123" "0010" "0" 1)).
  { vm_compute. reflexivity. }
  split; [exact H|].
  apply (prefill_pick_is_work_entry twoWorkEntries _ H).
Defined.

(** ** Display dates: formatting and reading back *)

Lemma chars_append (a b : string) : chars (a ++ b) = (chars a ++ chars b)%list.
Proof. induction a as [|c a IH]; cbn; [reflexivity | rewrite <- IH; reflexivity]. Qed.

Lemma chars_ofChars (l : list ascii) : chars (ofChars l) = l.
Proof. apply list_ascii_of_string_of_list_ascii. Qed.

Lemma ofChars_chars (s : string) : ofChars (chars s) = s.
Proof. apply string_of_list_ascii_of_string. Qed.

Lemma splitOn_whole (sep : ascii) (x : list ascii) :
  ~ In sep x -> splitOn sep x = [x].
Proof.
  induction x as [|c x IH]; intros Hnot; [reflexivity|].
  cbn [splitOn]. destruct (Ascii.eqb c sep) eqn:E.
  - apply Ascii.eqb_eq in E. exfalso. apply Hnot. left. exact E.
  - rewrite IH by (intros H; apply Hnot; right; exact H). reflexivity.
Qed.

Lemma splitOn_first (sep : ascii) (x rest : list ascii) :
  ~ In sep x -> splitOn sep (x ++ sep :: rest) = x :: splitOn sep rest.
Proof.
  induction x as [|c x IH]; intros Hnot.
  - cbn [app splitOn]. rewrite Ascii.eqb_refl. reflexivity.
  - cbn [app splitOn]. destruct (Ascii.eqb c sep) eqn:E.
    + apply Ascii.eqb_eq in E. exfalso. apply Hnot. left. exact E.
    + rewrite IH by (intros H; apply Hnot; right; exact H). reflexivity.
Qed.

Lemma digitChar_digit (k : Z) :
  0 <= k <= 9 -> isDigit (digitChar k) = true /\ digitVal (digitChar k) = k.
Proof.
  intros H.
  assert (Hk : k = 0 \/ k = 1 \/ k = 2 \/ k = 3 \/ k = 4 \/ k = 5 \/ k = 6 \/ k = 7
               \/ k = 8 \/ k = 9) by lia.
  repeat (destruct Hk as [-> | Hk]; [split; reflexivity|]). subst k. split; reflexivity.
Qed.

(** The digits written for a natural number read back as that number. *)
Lemma posDigits_spec (fuel : nat) :
  forall (n : Z) (acc : list ascii),
    0 <= n < 10 ^ Z.of_nat (S fuel) ->
    exists ds,
      posDigits (S fuel) n acc = (ds ++ acc)%list
      /\ ds <> []
      /\ forallb isDigit ds = true
      /\ forall a, fold_left (fun acc c => 10 * acc + digitVal c) ds a
                   = a * 10 ^ Z.of_nat (List.length ds) + n.
Proof.
  assert (Hone : forall n acc, 0 <= n < 10 ->
            exists ds,
              (digitChar n :: acc) = (ds ++ acc)%list
              /\ ds <> []
              /\ forallb isDigit ds = true
              /\ forall a, fold_left (fun acc c => 10 * acc + digitVal c) ds a
                           = a * 10 ^ Z.of_nat (List.length ds) + n).
  { intros n acc Hn. destruct (digitChar_digit n ltac:(lia)) as [Hd Hv].
    exists [digitChar n]. split; [reflexivity|]. split; [discriminate|].
    split; [cbn [forallb]; rewrite Hd; reflexivity|].
    intros a. cbn [fold_left List.length]. rewrite Hv.
    change (Z.of_nat 1) with 1. lia. }
  induction fuel as [|f IH]; intros n acc Hn.
  - change (10 ^ Z.of_nat 1) with 10 in Hn. cbn [posDigits].
    destruct (n <? 10) eqn:E; [apply Hone; lia | apply Z.ltb_ge in E; lia].
  - remember (S f) as fuel eqn:Hfuel. cbn [posDigits]. destruct (n <? 10) eqn:E.
    + apply Z.ltb_lt in E. apply Hone. lia.
    + apply Z.ltb_ge in E.
      assert (Hq : 0 <= n / 10 < 10 ^ Z.of_nat fuel).
      { rewrite Nat2Z.inj_succ, Z.pow_succ_r in Hn by lia.
        split; [apply Z.div_pos; lia|]. apply Z.div_lt_upper_bound; lia. }
      destruct (IH (n / 10) (digitChar (n mod 10) :: acc) Hq)
        as [ds [Heq [Hne [Hall Hval]]]].
      destruct (digitChar_digit (n mod 10)) as [Hd Hv].
      { pose proof (Z.mod_pos_bound n 10). lia. }
      exists (ds ++ [digitChar (n mod 10)])%list.
      split; [rewrite Heq, <- app_assoc; reflexivity|].
      split; [destruct ds; discriminate|].
      split; [rewrite forallb_app, Hall; cbn [forallb]; rewrite Hd; reflexivity|].
      intros a. rewrite fold_left_app, Hval. cbn [fold_left]. rewrite Hv.
      rewrite length_app. cbn [List.length].
      rewrite Nat2Z.inj_add. change (Z.of_nat 1) with 1.
      rewrite Z.pow_add_r by lia. rewrite Z.pow_1_r.
      pose proof (Z.div_mod n 10 ltac:(lia)). lia.
Qed.

Lemma digit_not_special (c : ascii) :
  isDigit c = true ->
  isSpace c = false /\ c <> "-"%char /\ c <> "+"%char /\ c <> " "%char /\ c <> ","%char.
Proof.
  destruct c as [[] [] [] [] [] [] [] []]; cbn; intros H; try discriminate H;
    repeat split; try reflexivity; discriminate.
Qed.

Lemma takeDigits_all (ds : list ascii) : forallb isDigit ds = true -> takeDigits ds = ds.
Proof.
  induction ds as [|c ds IH]; [reflexivity|]. cbn [forallb takeDigits].
  intros H. apply andb_true_iff in H. destruct H as [Hc Hds].
  rewrite Hc, IH by exact Hds. reflexivity.
Qed.

Lemma digits_without (c : ascii) (ds : list ascii) :
  isDigit c = false -> forallb isDigit ds = true -> ~ In c ds.
Proof.
  intros Hc Hall Hin. rewrite forallb_forall in Hall. rewrite (Hall c Hin) in Hc.
  discriminate.
Qed.

(** [String(n)] of a natural number is its digits. *)
Lemma ofZ_natural (n : Z) :
  0 <= n ->
  exists ds, chars (ofZ n) = ds /\ ds <> [] /\ forallb isDigit ds = true
             /\ digitsToZ ds = n.
Proof.
  intros Hn. unfold ofZ. destruct (n <? 0) eqn:E; [apply Z.ltb_lt in E; lia|].
  rewrite Nat.add_1_r.
  assert (Hfuel : 0 <= n < 10 ^ Z.of_nat (S (Z.to_nat (Z.log2 n)))).
  { split; [exact Hn|]. rewrite Nat2Z.inj_succ, Z2Nat.id by apply Z.log2_nonneg.
    destruct (Z.eq_dec n 0) as [-> | Hpos]; [reflexivity|].
    pose proof (Z.log2_spec n ltac:(lia)) as [_ Hlt].
    apply Z.lt_le_trans with (1 := Hlt).
    apply Z.pow_le_mono_l. pose proof (Z.log2_nonneg n). lia. }
  destruct (posDigits_spec _ n [] Hfuel) as [ds [Heq [Hne [Hall Hval]]]].
  rewrite Heq, app_nil_r, chars_ofChars. exists ds.
  repeat split; try assumption. unfold digitsToZ. rewrite Hval. lia.
Qed.

Lemma ofZ_negative (n : Z) :
  n < 0 ->
  exists ds, chars (ofZ n) = ("-"%char :: ds)%list /\ ds <> []
             /\ forallb isDigit ds = true /\ digitsToZ ds = - n.
Proof.
  intros Hneg.
  destruct (ofZ_natural (- n) ltac:(lia)) as [ds [Heq [Hne [Hall Hval]]]].
  exists ds. repeat split; try assumption.
  unfold ofZ in *. apply Z.ltb_lt in Hneg. rewrite Hneg.
  assert (Hge : (- n <? 0) = false) by (apply Z.ltb_ge; apply Z.ltb_lt in Hneg; lia).
  rewrite Hge in Heq. cbn [chars list_ascii_of_string]. f_equal. exact Heq.
Qed.

(** [parseInt(String(n))] is [n]. *)
Lemma parseInt_ofZ (n : Z) : parseInt (ofZ n) = Some n.
Proof.
  destruct (Z_lt_le_dec n 0) as [Hneg | Hpos].
  - destruct (ofZ_negative n Hneg) as [ds [Hchars [Hne [Hall Hval]]]].
    unfold parseInt.
    rewrite Hchars. cbn [dropSpaces]. change (isSpace "-") with false. cbn iota.
    rewrite takeDigits_all by exact Hall.
    destruct ds as [|c ds]; [contradiction|]. rewrite Hval. f_equal. lia.
  - destruct (ofZ_natural n Hpos) as [ds [Heq [Hne [Hall Hval]]]].
    unfold parseInt. rewrite Heq.
    destruct ds as [|c ds]; [contradiction|].
    assert (Hc : isDigit c = true).
    { cbn [forallb] in Hall. apply andb_true_iff in Hall. apply Hall. }
    destruct (digit_not_special c Hc) as [Hsp [Hminus [Hplus _]]].
    cbn [dropSpaces]. rewrite Hsp.
    destruct c as [[] [] [] [] [] [] [] []]; try discriminate Hc;
      try (exfalso; apply Hminus; reflexivity);
      try (exfalso; apply Hplus; reflexivity);
      cbn iota; rewrite takeDigits_all by exact Hall; rewrite Hval; reflexivity.
Qed.

Lemma ofZ_no (c : ascii) (n : Z) :
  isDigit c = false -> c <> "-"%char -> ~ In c (chars (ofZ n)).
Proof.
  intros Hc Hminus. destruct (Z_lt_le_dec n 0) as [Hneg | Hpos].
  - destruct (ofZ_negative n Hneg) as [ds [Hchars [_ [Hall _]]]].
    rewrite Hchars. intros [E | Hin]; [apply Hminus; symmetry; exact E|].
    exact (digits_without c ds Hc Hall Hin).
  - destruct (ofZ_natural n Hpos) as [ds [Heq [_ [Hall _]]]].
    rewrite Heq. exact (digits_without c ds Hc Hall).
Qed.

Lemma civil_bounds (day : Z) : 0 <= getMonth day <= 11 /\ 1 <= getDate day <= 31.
Proof.
  unfold getMonth, getDate, civil_from_days.
  set (z := day + 719468).
  set (era := z / 146097).
  set (doe := z - era * 146097).
  assert (Hdoe : 0 <= doe < 146097).
  { unfold doe, era. Z.div_mod_to_equations; lia. }
  pose proof (doe_bounds doe Hdoe) as Hb. cbn zeta in Hb.
  set (yoe := (doe - doe / 1460 + doe / 36524 - doe / 146096) / 365) in *.
  set (doy := doe - (365 * yoe + yoe / 4 - yoe / 100)) in *.
  destruct Hb as [_ Hdoy].
  pose proof (doy_bounds doy Hdoy) as Hm. cbn zeta in Hm.
  set (mp := (5 * doy + 2) / 153) in *.
  destruct Hm as [Hmp Hd]. cbn [fst snd].
  assert (Hhi : doy - (153 * mp + 2) / 5 + 1 <= 31).
  { unfold mp. Z.div_mod_to_equations; lia. }
  destruct (mp <? 10) eqn:E; [apply Z.ltb_lt in E | apply Z.ltb_ge in E]; lia.
Qed.

(** The twelve month names and the days 1 to 31, as they are written and
    read back. *)
Lemma month_names_read_back (m : Z) :
  0 <= m <= 11 ->
  let name := nth (Z.to_nat m) months "undefined" in
  forallb (fun c => negb (Ascii.eqb c " "%char)) (chars name) = true
  /\ monthNumber (removeComma name) = Some m.
Proof.
  intros H.
  assert (Hm : m = 0 \/ m = 1 \/ m = 2 \/ m = 3 \/ m = 4 \/ m = 5 \/ m = 6 \/ m = 7
               \/ m = 8 \/ m = 9 \/ m = 10 \/ m = 11) by lia.
  repeat (destruct Hm as [-> | Hm]; [split; reflexivity|]). subst m. split; reflexivity.
Qed.

Lemma day_numbers_read_back (d : Z) :
  1 <= d <= 31 ->
  forallb (fun c => negb (Ascii.eqb c " "%char)) (chars (padStart2 (ofZ d))) = true
  /\ parseInt (removeComma (ofChars (chars (padStart2 (ofZ d)) ++ [","%char]))) = Some d.
Proof.
  intros H.
  assert (Hall : forallb (fun k =>
                    let d := Z.of_nat k in
                    forallb (fun c => negb (Ascii.eqb c " "%char))
                            (chars (padStart2 (ofZ d)))
                    && match parseInt (removeComma
                                         (ofChars (chars (padStart2 (ofZ d)) ++ [","%char])))
                       with Some v => v =? d | None => false end)
                 (seq 1 31) = true) by (vm_compute; reflexivity).
  rewrite forallb_forall in Hall.
  specialize (Hall (Z.to_nat d)). cbn zeta in Hall.
  rewrite Z2Nat.id in Hall by lia.
  assert (Hin : In (Z.to_nat d) (seq 1 31)) by (apply in_seq; lia).
  apply Hall in Hin. apply andb_true_iff in Hin. destruct Hin as [H1 H2].
  split; [exact H1|].
  destruct (parseInt _) as [v|]; [|discriminate].
  apply Z.eqb_eq in H2. subst v. reflexivity.
Qed.

Lemma no_space (l : list ascii) :
  forallb (fun c => negb (Ascii.eqb c " "%char)) l = true -> ~ In " "%char l.
Proof.
  intros H Hin. rewrite forallb_forall in H. specialize (H _ Hin).
  rewrite Ascii.eqb_refl in H. discriminate.
Qed.

(** X10: a date written for display is read back by [parseDisplayDate]
    as the same day, when its year is not one of 0 to 99. *)
Theorem display_date_round_trip (host : Host) (d : Z)
        (Hyear : ~ (0 <= getFullYear d <= 99)) :
  parseDisplayDate host (formattedDateForDisplay d) = Some (LocalMidnight d).
Proof.
  destruct (civil_bounds d) as [Hm Hd].
  destruct (month_names_read_back _ Hm) as [Hmsp Hmon]. cbn zeta in Hmsp, Hmon.
  destruct (day_numbers_read_back _ Hd) as [Hdsp Hday].
  set (M := nth (Z.to_nat (getMonth d)) months "undefined") in *.
  set (D := padStart2 (ofZ (getDate d))) in *.
  set (Y := ofZ (getFullYear d)).
  assert (Hsplit : splitOn " "%char (chars (formattedDateForDisplay d))
                   = [chars M; (chars D ++ [","%char])%list; chars Y]).
  { unfold formattedDateForDisplay. fold M D Y.
    rewrite !chars_append.
    change (chars " ") with [" "%char]. change (chars ", ") with [","%char; " "%char].
    cbn [app]. rewrite splitOn_first by (apply no_space, Hmsp).
    replace (chars D ++ ","%char :: " "%char :: chars Y)%list
      with ((chars D ++ [","%char]) ++ " "%char :: chars Y)%list
      by (rewrite <- app_assoc; reflexivity).
    rewrite splitOn_first.
    - rewrite splitOn_whole; [reflexivity|]. apply ofZ_no; [reflexivity | discriminate].
    - intros Hin. apply in_app_or in Hin. destruct Hin as [Hin | [E | []]].
      + exact (no_space _ Hdsp Hin).
      + discriminate E. }
  unfold parseDisplayDate. rewrite Hsplit. cbn [map]. cbn zeta.
  rewrite !ofChars_chars.
  assert (Hne : (formattedDateForDisplay d =? "")%string = false).
  { apply String.eqb_neq. intros E. rewrite E in Hsplit. discriminate Hsplit. }
  rewrite Hne, Hmon, Hday. unfold Y. rewrite parseInt_ofZ.
  rewrite jsNewDate_of_parts by exact Hyear. reflexivity.
Qed.

Lemma display_date_round_trip_witness :
  formattedDateForDisplay 20188 = "Apr 10, 2025"
  /\ parseDisplayDate utcHost "Apr 10, 2025" = Some (LocalMidnight 20188).
Proof.
  assert (H : formattedDateForDisplay 20188 = "Apr 10, 2025") by (vm_compute; reflexivity).
  split; [exact H|]. rewrite <- H.
  apply (display_date_round_trip utcHost 20188).
  vm_compute. intros [_ Hle]. apply Hle. reflexivity.
Defined.

(** ** From sheet rows to objects: the column bounds *)

Lemma skipLeading_spec (count : nat -> Z) (th : Z) (n : nat) :
  forall c0,
    let firstCol := skipLeading count th n c0 in
    (c0 <= firstCol <= c0 + n)%nat
    /\ (forall c, (c0 <= c < firstCol)%nat -> count c < th)
    /\ ((firstCol < c0 + n)%nat -> th <= count firstCol).
Proof.
  induction n as [|n IH]; intros c0; cbn [skipLeading].
  - cbn zeta. split; [lia|]. split; intros; lia.
  - destruct (count c0 <? th) eqn:E.
    + apply Z.ltb_lt in E. specialize (IH (S c0)). cbn zeta in *.
      destruct IH as [Hr [Hlow Hhit]]. split; [lia|]. split.
      * intros c Hc. destruct (Nat.eq_dec c c0) as [-> | Hne]; [exact E|].
        apply Hlow. lia.
      * intros Hlt. apply Hhit. lia.
    + apply Z.ltb_ge in E. cbn zeta. split; [lia|]. split; [intros; lia|].
      intros _. exact E.
Qed.

Lemma skipTrailing_spec (count : nat -> Z) (th : Z) (firstCol : nat) (n : nat) :
  let endCol := skipTrailing count th firstCol n in
  (endCol <= n)%nat
  /\ (forall c, (endCol <= c < n)%nat -> count c < th)
  /\ (forall c, (endCol <= c < n)%nat -> (firstCol <= c)%nat)
  /\ ((firstCol < endCol)%nat -> th <= count (endCol - 1)%nat).
Proof.
  induction n as [|n IH]; cbn [skipTrailing].
  - cbn zeta. split; [lia|]. repeat split; intros; lia.
  - destruct ((firstCol <=? n)%nat && (count n <? th)) eqn:E.
    + apply andb_true_iff in E. destruct E as [E1 E2].
      apply Nat.leb_le in E1. apply Z.ltb_lt in E2. cbn zeta in *.
      destruct IH as [Hr [Hlow [Hge Hhit]]]. split; [lia|]. split; [|split].
      * intros c Hc. destruct (Nat.eq_dec c n) as [-> | Hne]; [exact E2|].
        apply Hlow. lia.
      * intros c Hc. destruct (Nat.eq_dec c n) as [-> | Hne]; [exact E1|].
        apply Hge. lia.
      * exact Hhit.
    + cbn zeta. split; [lia|]. split; [intros; lia|]. split; [intros; lia|].
      intros Hlt. replace (S n - 1)%nat with n by lia.
      apply andb_false_iff in E. destruct E as [E | E].
      * apply Nat.leb_gt in E. lia.
      * apply Z.ltb_ge in E. exact E.
Qed.

Lemma columnBounds_cases (count : nat -> Z) (th : Z) (colCount : nat) :
  let firstCol := fst (columnBounds count th colCount) in
  let endCol := snd (columnBounds count th colCount) in
  ((forall c, (c < colCount)%nat -> count c < th)
   /\ firstCol = 0%nat /\ endCol = colCount)
  \/ ((firstCol < endCol <= colCount)%nat
      /\ th <= count firstCol
      /\ th <= count (endCol - 1)%nat
      /\ (forall c, (c < firstCol)%nat -> count c < th)
      /\ (forall c, (endCol <= c < colCount)%nat -> count c < th)).
Proof.
  unfold columnBounds.
  pose proof (skipLeading_spec count th colCount 0) as Hl. cbn zeta in Hl.
  set (firstCol := skipLeading count th colCount 0) in *.
  pose proof (skipTrailing_spec count th firstCol colCount) as Ht. cbn zeta in Ht.
  set (endCol := skipTrailing count th firstCol colCount) in *.
  destruct Hl as [Hrange [Hlow Hhit]]. destruct Ht as [Hle [Hhigh [Hge Hlast]]].
  destruct (endCol <=? firstCol)%nat eqn:E; cbn [fst snd].
  - apply Nat.leb_le in E. left. split; [|split; reflexivity].
    intros c Hc. destruct (Nat.lt_ge_cases c firstCol) as [Hlt | Hge'].
    + apply Hlow. lia.
    + apply Hhigh. lia.
  - apply Nat.leb_gt in E. right. split; [lia|].
    split; [apply Hhit; lia|]. split; [apply Hlast; exact E|].
    split; [intros c Hc; apply Hlow; lia | exact Hhigh].
Qed.

(** X11: the columns [sheetRowsToObjects] keeps run from the first to
    the last column of the header row that has at least [threshold] filled
    cells in the rows below the header; when no column has that many, every
    column of the header row is kept. *)
Theorem sheet_bounds_spec (host : Host) (ceil15 : Z -> Z) (sheet : list (list cell)) :
  let bestIdx := detectHeaderIndex host sheet in
  let count := colNonEmpty host (skipn (S bestIdx) sheet) in
  let th := threshold ceil15 (Z.of_nat (List.length sheet) - (Z.of_nat bestIdx + 1)) in
  let colCount := List.length (nth bestIdx sheet []) in
  let firstCol := fst (sheetBounds host ceil15 sheet) in
  let endCol := snd (sheetBounds host ceil15 sheet) in
  ((forall c, (c < colCount)%nat -> count c < th)
   /\ firstCol = 0%nat /\ endCol = colCount)
  \/ ((firstCol < endCol <= colCount)%nat
      /\ th <= count firstCol
      /\ th <= count (endCol - 1)%nat
      /\ (forall c, (c < firstCol)%nat -> count c < th)
      /\ (forall c, (endCol <= c < colCount)%nat -> count c < th)).
Proof.
  intros bestIdx count th colCount. unfold sheetBounds.
  fold bestIdx. fold count. fold th. fold colCount.
  apply columnBounds_cases.
Qed.

Lemma map_nth_seq {A : Type} (l : list A) (d : A) :
  map (fun c => nth c l d) (seq 0 (List.length l)) = l.
Proof.
  induction l as [|x l IH]; [reflexivity|].
  cbn [List.length seq map nth]. rewrite <- seq_shift, map_map. cbn [nth].
  rewrite IH. reflexivity.
Qed.

Lemma colNonEmpty_le (host : Host) (dataRows : list (list cell)) (c : nat) :
  colNonEmpty host dataRows c <= Z.of_nat (List.length dataRows).
Proof. unfold colNonEmpty. apply inj_le, filter_length_le. Qed.

Lemma threshold_ge_3 (ceil15 : Z -> Z) (n : Z) : 3 <= threshold ceil15 n.
Proof. unfold threshold. lia. Qed.

(** X12: a sheet with fewer than three rows below its header row is
    never trimmed: the headers are the texts of all the cells of the header
    row, whatever its columns hold. *)
Theorem short_sheets_keep_all_columns
        (host : Host) (ceil15 : Z -> Z) (sheet : list (list cell))
        (Hrows : sheet <> [])
        (Hshort : (List.length sheet < detectHeaderIndex host sheet + 4)%nat) :
  sheetBounds host ceil15 sheet
  = (0%nat, List.length (nth (detectHeaderIndex host sheet) sheet []))
  /\ headers (sheetRowsToObjects host ceil15 sheet)
     = map (headerText host) (nth (detectHeaderIndex host sheet) sheet []).
Proof.
  assert (Hb : sheetBounds host ceil15 sheet
               = (0%nat, List.length (nth (detectHeaderIndex host sheet) sheet []))).
  { unfold sheetBounds.
    set (best := detectHeaderIndex host sheet) in *.
    set (count := colNonEmpty host (skipn (S best) sheet)).
    set (th := threshold ceil15 _).
    set (colCount := List.length (nth best sheet [])).
    assert (Hlow : forall c, count c < th).
    { intros c. pose proof (colNonEmpty_le host (skipn (S best) sheet) c) as Hle.
      fold count in Hle. rewrite length_skipn in Hle.
      pose proof (threshold_ge_3 ceil15
                    (Z.of_nat (List.length sheet) - (Z.of_nat best + 1))) as H3.
      fold th in H3. lia. }
    destruct (columnBounds_cases count th colCount) as [[_ [H1 H2]] | [Hlt [Hhit _]]].
    - rewrite (surjective_pairing (columnBounds count th colCount)), H1, H2. reflexivity.
    - specialize (Hlow (fst (columnBounds count th colCount))). lia. }
  split; [exact Hb|].
  unfold sheetRowsToObjects. destruct sheet as [|r0 rest]; [contradiction|].
  rewrite Hb. cbn [headers]. rewrite Nat.sub_0_r.
  rewrite <- (map_nth_seq (nth (detectHeaderIndex host (r0 :: rest)) (r0 :: rest) []) CNull)
    at 2.
  rewrite map_map. reflexivity.
Qed.

Lemma short_sheets_keep_all_columns_witness :
  headers (sheetRowsToObjects utcHost (fun _ => 1) shortSheet)
  = [""; "Pers No"; "Date"; "Hours"].
Proof.
  destruct (short_sheets_keep_all_columns utcHost (fun _ => 1) shortSheet) as [_ H].
  - discriminate.
  - vm_compute. reflexivity.
  - rewrite H. vm_compute. reflexivity.
Defined.

(** ** From sheet rows to objects: the objects *)

Lemma get_fold_set_other (l : list (string * cell)) (k : string) :
  (forall hv, In hv l -> fst hv <> k) ->
  forall o : obj,
    JsObject.get (fold_left (fun o hv => JsObject.set (fst hv) (snd hv) o) l o) k
    = JsObject.get o k.
Proof.
  induction l as [|[h v] l IH]; intros Hother o; [reflexivity|].
  cbn [fold_left fst snd]. rewrite IH by (intros hv Hin; apply Hother; right; exact Hin).
  rewrite get_set. destruct (h =? "__proto__")%string; [reflexivity|].
  assert (Hne : (k =? h)%string = false).
  { apply String.eqb_neq. intros E. apply (Hother (h, v)); [left; reflexivity|].
    symmetry. exact E. }
  rewrite Hne. reflexivity.
Qed.

Lemma rowObject_get (hs : list string) :
  forall (cells : list cell) (o : obj) (hi : nat),
    (hi < List.length hs)%nat ->
    (hi < List.length cells)%nat ->
    nth hi hs "" <> "__proto__" ->
    (forall hj, (hi < hj < List.length hs)%nat -> nth hj hs "" <> nth hi hs "") ->
    JsObject.get (fold_left (fun o hv => JsObject.set (fst hv) (snd hv) o)
                            (combine hs cells) o)
                 (nth hi hs "")
    = Some (nth hi cells CNull).
Proof.
  induction hs as [|h hs IH]; intros cells o hi Hhi Hci Hproto Hlast;
    [cbn in Hhi; lia|].
  destruct cells as [|v cells]; [cbn in Hci; lia|].
  cbn [combine fold_left fst snd]. destruct hi as [|hi].
  - cbn [nth] in *. rewrite get_fold_set_other.
    + rewrite get_set. apply String.eqb_neq in Hproto. rewrite Hproto, String.eqb_refl.
      reflexivity.
    + intros [h' v'] Hin. cbn [fst]. apply in_combine_l in Hin.
      apply (In_nth _ _ "") in Hin. destruct Hin as [j [Hj <-]].
      apply (Hlast (S j)). cbn [List.length]. lia.
  - cbn [nth List.length] in *. apply IH; try lia; try assumption.
    intros hj Hhj. apply (Hlast (S hj)). lia.
Qed.


Lemma sheet_objects (host : Host) (ceil15 : Z -> Z) (sheet : list (list cell)) (o : obj) :
  In o (rows (sheetRowsToObjects host ceil15 sheet)) ->
  let columns := seq (fst (sheetBounds host ceil15 sheet))
                     (snd (sheetBounds host ceil15 sheet)
                      - fst (sheetBounds host ceil15 sheet)) in
  headers (sheetRowsToObjects host ceil15 sheet)
  = map (fun c => headerText host (cellAt (nth (detectHeaderIndex host sheet) sheet []) c))
        columns
  /\ exists row,
       In row (skipn (S (detectHeaderIndex host sheet)) sheet)
       /\ existsb (fun c => cellPresent host (cellAt row c)) columns = true
       /\ o = rowObject (headers (sheetRowsToObjects host ceil15 sheet))
                        (map (cellAt row) columns).
Proof.
  unfold sheetRowsToObjects. destruct sheet as [|r0 rest]; [intros []|].
  destruct (sheetBounds host ceil15 (r0 :: rest)) as [firstCol endCol].
  cbn [rows headers fst snd]. intros Hin. cbn zeta. split; [reflexivity|].
  apply in_map_iff in Hin. destruct Hin as [row [Ho Hrow]].
  apply filter_In in Hrow. destruct Hrow as [Hin Hany].
  exists row. split; [exact Hin|]. split; [exact Hany|]. symmetry. exact Ho.
Qed.

(** X13: every object [sheetRowsToObjects] returns comes from a row
    below the header that has a filled cell in the kept columns, and under a
    header it holds that row's cell of the header's column -- of the last
    such column when several columns have the same header. *)
Theorem sheet_objects_read_their_rows
        (host : Host) (ceil15 : Z -> Z) (sheet : list (list cell)) (o : obj)
        (Ho : In o (rows (sheetRowsToObjects host ceil15 sheet))) :
  exists row,
    In row (skipn (S (detectHeaderIndex host sheet)) sheet)
    /\ (exists c, cellPresent host (cellAt row c) = true)
    /\ forall hi,
         let hs := headers (sheetRowsToObjects host ceil15 sheet) in
         (hi < List.length hs)%nat ->
         nth hi hs "" <> "__proto__" ->
         (forall hj, (hi < hj < List.length hs)%nat -> nth hj hs "" <> nth hi hs "") ->
         JsObject.get o (nth hi hs "")
         = Some (cellAt row (fst (sheetBounds host ceil15 sheet) + hi)).
Proof.
  destruct (sheet_objects host ceil15 sheet o Ho) as [Hhs [row [Hin [Hany Hobj]]]].
  exists row. split; [exact Hin|]. split.
  - apply existsb_exists in Hany. destruct Hany as [c [_ Hc]]. exists c. exact Hc.
  - intros hi hs Hhi Hproto Hlast. subst o. unfold rowObject. fold hs.
    assert (Hlen : List.length hs
                   = (snd (sheetBounds host ceil15 sheet)
                      - fst (sheetBounds host ceil15 sheet))%nat).
    { unfold hs. rewrite Hhs, length_map, length_seq. reflexivity. }
    rewrite rowObject_get; try assumption.
    + rewrite (nth_indep _ CNull (cellAt row 0)) by (rewrite length_map, length_seq; lia).
      rewrite map_nth, seq_nth by lia. reflexivity.
    + rewrite length_map, length_seq. lia.
Qed.

Lemma sheet_objects_read_their_rows_witness :
  exists row,
    In row [ [CNull; CNum 12345; CStr "28.04.2025"; CNum 8];
             [CNull; CNum 12345; CStr "29.04.2025"; CNum 8] ]
    /\ JsObject.get (rowObject [""; "Pers No"; "Date"; "Hours"]
                               [CNull; CNum 12345; CStr "29.04.2025"; CNum 8])
                    "Date"
       = Some (cellAt row 2).
Proof.
  assert (Ho : In (rowObject [""; "Pers No"; "Date"; "Hours"]
                             [CNull; CNum 12345; CStr "29.04.2025"; CNum 8])
                  (rows (sheetRowsToObjects utcHost (fun _ => 1) shortSheet))).
  { vm_compute. right. left. reflexivity. }
  destruct (sheet_objects_read_their_rows utcHost (fun _ => 1) shortSheet _ Ho)
    as [row [Hin [_ Hget]]].
  exists row. split; [exact Hin|].
  apply (Hget 2%nat).
  - vm_compute. lia.
  - vm_compute. discriminate.
  - intros hj Hhj. assert (hj = 3%nat) as -> by (vm_compute in Hhj; lia).
    vm_compute. discriminate.
Defined.


(** ** The DRMIS lookup *)

Lemma mapKey_eqb_sym (a b : mapKey) : mapKey_eqb a b = mapKey_eqb b a.
Proof.
  unfold mapKey_eqb. rewrite (Z.eqb_sym (fst a)), (String.eqb_sym (snd a)). reflexivity.
Qed.

Lemma lookupGet_push (k : mapKey) (entry : DetailEntry) (m : Lookup) (x : mapKey) :
  lookupGet (lookupPush k entry m) x
  = match lookupGet m x with
    | Some v => Some (if mapKey_eqb x k then (v ++ [entry])%list else v)
    | None => None
    end.
Proof.
  induction m as [|[k' v] m IH]; cbn [lookupPush lookupGet]; [reflexivity|].
  destruct (mapKey_eqb k' k) eqn:Ek; cbn [lookupGet].
  - apply mapKey_eqb_eq in Ek. subst k'. rewrite (mapKey_eqb_sym x k).
    destruct (mapKey_eqb k x) eqn:Ex; [reflexivity|].
    destruct (lookupGet m x); reflexivity.
  - destruct (mapKey_eqb k' x) eqn:Ex; [|exact IH].
    apply mapKey_eqb_eq in Ex. subst x. rewrite Ek. reflexivity.
Qed.

Lemma lookupGet_app_one (m : Lookup) (k : mapKey) (v : list DetailEntry) (x : mapKey) :
  lookupGet (m ++ [(k, v)])%list x
  = match lookupGet m x with
    | Some y => Some y
    | None => if mapKey_eqb k x then Some v else None
    end.
Proof.
  induction m as [|[k' v'] m IH]; cbn [app lookupGet]; [reflexivity|].
  destruct (mapKey_eqb k' x); [reflexivity | exact IH].
Qed.

Lemma lookupGet_add (m : Lookup) (k : mapKey) (entry : DetailEntry) (x : mapKey) :
  lookupGet (lookupAdd m k entry) x
  = if mapKey_eqb k x
    then Some (match lookupGet m x with Some v => v | None => [] end ++ [entry])%list
    else lookupGet m x.
Proof.
  unfold lookupAdd. destruct (lookupGet m k) as [v|] eqn:Hk.
  - rewrite lookupGet_push, (mapKey_eqb_sym x k).
    destruct (mapKey_eqb k x) eqn:E.
    + apply mapKey_eqb_eq in E. subst x. rewrite Hk. reflexivity.
    + destruct (lookupGet m x); reflexivity.
  - rewrite lookupGet_push, lookupGet_app_one, (mapKey_eqb_sym x k).
    destruct (mapKey_eqb k x) eqn:E.
    + apply mapKey_eqb_eq in E. subst x. rewrite Hk. reflexivity.
    + destruct (lookupGet m x); reflexivity.
Qed.

Lemma lookupGet_fold (host : Host) (keys : LookupKeys) (k : mapKey)
      (rowsObjects : list obj) :
  forall m : Lookup,
    lookupGet (fold_left (fun m r =>
                            match lookupEntry host keys r with
                            | Some (mapKey, entry) => lookupAdd m mapKey entry
                            | None => m
                            end)
                         rowsObjects m) k
    = match entriesFor host keys rowsObjects k with
      | [] => lookupGet m k
      | es => Some (match lookupGet m k with Some v => v | None => [] end ++ es)%list
      end.
Proof.
  induction rowsObjects as [|r rest IH]; intros m; [reflexivity|].
  cbn [fold_left]. rewrite IH. unfold entriesFor. cbn [flat_map].
  fold (entriesFor host keys rest k).
  destruct (lookupEntry host keys r) as [[k' e]|]; [|reflexivity].
  rewrite lookupGet_add. destruct (mapKey_eqb k' k) eqn:E.
  - cbn [app]. destruct (entriesFor host keys rest k) as [|e' es]; [reflexivity|].
    rewrite <- app_assoc. reflexivity.
  - reflexivity.
Qed.

Lemma lookupGet_build (host : Host) (rowsObjects : list obj) (k : mapKey) :
  lookupGet (buildDrmisLookup host rowsObjects) k
  = match entriesFor host (lookupKeysOf (hd [] rowsObjects)) rowsObjects k with
    | [] => None
    | es => Some es
    end.
Proof.
  unfold buildDrmisLookup. destruct rowsObjects as [|first rest]; [reflexivity|].
  rewrite lookupGet_fold. cbn [hd lookupGet app]. reflexivity.
Qed.


Lemma hoursKey_cases (first : obj) :
  hoursKey (lookupKeysOf first) = KStr "Hours" \/ hoursKey (lookupKeysOf first) = KNull.
Proof.
  unfold lookupKeysOf. cbn [hoursKey]. unfold findIn.
  set (lowerMap := lowerMapOf (JsObject.keys first)).
  destruct (find (fun k => (k =? "hours")%string) (JsObject.keys lowerMap)) as [k|] eqn:Hf.
  - apply find_some in Hf. destruct Hf as [_ Hk]. apply String.eqb_eq in Hk. subst k.
    left. reflexivity.
  - right. cbn [truthyKeyValue]. unfold lowerMapAt. cbn [propertyName].
    destruct (JsObject.get lowerMap "hours") as [v|] eqn:Hg; [|reflexivity].
    exfalso. assert (Hin : In "hours" (JsObject.keys lowerMap)).
    { apply get_some_in_keys. exists v. exact Hg. }
    pose proof (find_none _ _ Hf _ Hin) as Hn. cbn beta in Hn. discriminate Hn.
Qed.

Lemma lookupEntry_facts (host : Host) (keys : LookupKeys) (r : obj)
      (k : mapKey) (entry : DetailEntry) :
  lookupEntry host keys r = Some (k, entry) ->
  aatype entry <> ""
  /\ aatype entry <> "-"
  /\ (hoursKey keys = KStr "Hours" \/ hoursKey keys = KNull ->
      JsObject.get r "Hours" = None -> hours entry = zero).
Proof.
  unfold lookupEntry.
  destruct (normalizeDate host (cellOf r (dateKey keys))) as [d|]; [|discriminate].
  cbn zeta. intros Hentry. injection Hentry as _ <-. cbn [aatype hours].
  split; [|split].
  - destruct ((textAt host r (aatypeKey keys) =? "")%string
              || (textAt host r (aatypeKey keys) =? "-")%string) eqn:Ea;
      [discriminate|].
    apply orb_false_iff in Ea. destruct Ea as [Ea _]. apply String.eqb_neq, Ea.
  - destruct ((textAt host r (aatypeKey keys) =? "")%string
              || (textAt host r (aatypeKey keys) =? "-")%string) eqn:Ea;
      [discriminate|].
    apply orb_false_iff in Ea. destruct Ea as [_ Ea]. apply String.eqb_neq, Ea.
  - intros [Hk | Hk] Hno; rewrite Hk.
    + unfold cellOf. cbn [propertyName]. rewrite Hno. cbn [isNullish negb].
      rewrite andb_false_r. reflexivity.
    + reflexivity.
Qed.

(** X16: every entry of the lookup is the entry of one of the rows; its
    A/A type is never empty and never a dash; and its hours are 0 when the
    row has no property named exactly ["Hours"], however the sheet's hours
    column is titled. *)
Theorem lookup_entries_of_rows
        (host : Host) (rowsObjects : list obj) (k : mapKey)
        (entries : list DetailEntry) (entry : DetailEntry)
        (Hget : lookupGet (buildDrmisLookup host rowsObjects) k = Some entries)
        (Hin : In entry entries) :
  exists r,
    In r rowsObjects
    /\ lookupEntry host (lookupKeysOf (hd [] rowsObjects)) r = Some (k, entry)
    /\ aatype entry <> ""
    /\ aatype entry <> "-"
    /\ (JsObject.get r "Hours" = None -> hours entry = zero).
Proof.
  rewrite lookupGet_build in Hget.
  set (keys := lookupKeysOf (hd [] rowsObjects)) in *.
  assert (Hes : entriesFor host keys rowsObjects k = entries).
  { destruct (entriesFor host keys rowsObjects k); [discriminate | congruence]. }
  rewrite <- Hes in Hin. unfold entriesFor in Hin. apply in_flat_map in Hin.
  destruct Hin as [r [Hr He]]. exists r. split; [exact Hr|].
  destruct (lookupEntry host keys r) as [[k' e]|] eqn:Hentry; [|contradiction].
  destruct (mapKey_eqb k' k) eqn:E; [|contradiction].
  apply mapKey_eqb_eq in E. subst k'. destruct He as [-> | []].
  split; [reflexivity|].
  destruct (lookupEntry_facts host keys r k entry Hentry) as [H1 [H2 H3]].
  split; [exact H1|]. split; [exact H2|].
  apply H3. apply hoursKey_cases.
Qed.

Lemma lookup_entries_of_rows_witness :
  lookupGet (buildDrmisLookup utcHost [capitalHoursRow]) (20206, "12345")
  = Some [mkEntry "4000123" "0010" "0" 0]
  /\ exists r, In r [capitalHoursRow]
               /\ (JsObject.get r "Hours" = None
                   -> hours (mkEntry "4000123" "0010" "0" 0) = zero).
Proof.
  assert (Hget : lookupGet (buildDrmisLookup utcHost [capitalHoursRow]) (20206, "12345")
                 = Some [mkEntry "4000123" "0010" "0" 0]) by (vm_compute; reflexivity).
  split; [exact Hget|].
  destruct (lookup_entries_of_rows utcHost [capitalHoursRow] (20206, "12345") _
              (mkEntry "4000123" "0010" "0" 0) Hget (or_introl eq_refl))
    as [r [Hr [_ [_ [_ Hh]]]]].
  exists r. split; [exact Hr | exact Hh].
Defined.
